(** * StretchTime: reminder scheduler and calendar availability

    A shallow embedding of the main-process code of StretchTime
    (store.ts, timer.ts, tray.ts, calendar.ts, google-calendar.ts,
    outlook-calendar.ts, index.ts) and the properties of its specification.

    Conventions.
    - A JavaScript number holding a count of milliseconds or minutes is a [Z].
    - [Date.now()] is an explicit argument of the synchronous timer
      operations, and a read of a clock oracle in the asynchronous calendar
      code.
    - A [Date] object is [option Z]: [None] is the Invalid Date, whose time
      value is NaN and which makes every comparison false.
    - A string used as a condition is true when it is not empty. *)

From Stdlib Require Import ZArith List String Bool Lia Permutation.
From Stdlib Require Import Ascii DecimalString.
Import ListNotations.
Open Scope Z_scope.

(** ** JavaScript values *)

Module Js.

Definition truthy (s : string) : bool := negb (s =? "")%string.

(** [a || d] on a possibly undefined string. *)
Definition orElse (a : option string) (d : string) : string :=
  match a with
  | Some s => if truthy s then s else d
  | None => d
  end.

(** [!!o?.f] for an optional object [o] with a string field [f]. *)
Definition hasField {A : Type} (o : option A) (f : A -> string) : bool :=
  match o with
  | Some x => truthy (f x)
  | None => false
  end.

Definition Date := option Z.

Definition lteq (a b : Date) : bool :=
  match a, b with
  | Some x, Some y => x <=? y
  | _, _ => false
  end.

Definition gt (a b : Date) : bool :=
  match a, b with
  | Some x, Some y => x >? y
  | _, _ => false
  end.

(** The same two orders as propositions. *)
Definition Lteq (a b : Date) : Prop :=
  match a, b with
  | Some x, Some y => x <= y
  | _, _ => False
  end.

Definition Gt (a b : Date) : Prop :=
  match a, b with
  | Some x, Some y => x > y
  | _, _ => False
  end.

End Js.

(** ** store.ts *)

Module Store.

Record GoogleTokens := {
  access_token : string;
  refresh_token : string;
  expiry_date : Z
}.

Record OutlookTokens := {
  accessToken : string;
  refreshToken : string;
  expiresOn : Z
}.

Record CalendarProviders := {
  google : bool;
  outlook : bool
}.

Record AppSettings := {
  stretchIntervalMinutes : Z;
  preMeetingBufferMinutes : Z;
  snoozeDurationMinutes : Z;
  calendarProviders : CalendarProviders;
  blockOnTentative : bool;
  googleClientId : string;
  outlookClientId : string;
  outlookTenantId : string;
  googleTokens : option GoogleTokens;
  outlookTokens : option OutlookTokens
}.

Definition defaults : AppSettings := {|
  stretchIntervalMinutes := 30;
  preMeetingBufferMinutes := 15;
  snoozeDurationMinutes := 5;
  calendarProviders := {| google := false; outlook := false |};
  blockOnTentative := true;
  googleClientId := "";
  outlookClientId := "7f6d8ba2-c83e-498f-86b6-77eb0375e03f";
  outlookTenantId := "consumers";
  googleTokens := None;
  outlookTokens := None
|}.

(** One entry of a [Partial<AppSettings>]: a key with its value. Every entry
    carries a value: a key given as [undefined], as the [disconnect] methods
    of the two clients pass for their tokens, is not an [Entry], and those
    calls are not modelled. *)
Inductive Entry :=
| SetStretchIntervalMinutes (v : Z)
| SetPreMeetingBufferMinutes (v : Z)
| SetSnoozeDurationMinutes (v : Z)
| SetCalendarProviders (v : CalendarProviders)
| SetBlockOnTentative (v : bool)
| SetGoogleClientId (v : string)
| SetOutlookClientId (v : string)
| SetOutlookTenantId (v : string)
| SetGoogleTokens (v : GoogleTokens)
| SetOutlookTokens (v : OutlookTokens).

(** [store.set(key, value)] *)
Definition set (e : Entry) (s : AppSettings) : AppSettings :=
  match e with
  | SetStretchIntervalMinutes v =>
      {| stretchIntervalMinutes := v;
         preMeetingBufferMinutes := preMeetingBufferMinutes s;
         snoozeDurationMinutes := snoozeDurationMinutes s;
         calendarProviders := calendarProviders s;
         blockOnTentative := blockOnTentative s;
         googleClientId := googleClientId s;
         outlookClientId := outlookClientId s;
         outlookTenantId := outlookTenantId s;
         googleTokens := googleTokens s;
         outlookTokens := outlookTokens s |}
  | SetPreMeetingBufferMinutes v =>
      {| stretchIntervalMinutes := stretchIntervalMinutes s;
         preMeetingBufferMinutes := v;
         snoozeDurationMinutes := snoozeDurationMinutes s;
         calendarProviders := calendarProviders s;
         blockOnTentative := blockOnTentative s;
         googleClientId := googleClientId s;
         outlookClientId := outlookClientId s;
         outlookTenantId := outlookTenantId s;
         googleTokens := googleTokens s;
         outlookTokens := outlookTokens s |}
  | SetSnoozeDurationMinutes v =>
      {| stretchIntervalMinutes := stretchIntervalMinutes s;
         preMeetingBufferMinutes := preMeetingBufferMinutes s;
         snoozeDurationMinutes := v;
         calendarProviders := calendarProviders s;
         blockOnTentative := blockOnTentative s;
         googleClientId := googleClientId s;
         outlookClientId := outlookClientId s;
         outlookTenantId := outlookTenantId s;
         googleTokens := googleTokens s;
         outlookTokens := outlookTokens s |}
  | SetCalendarProviders v =>
      {| stretchIntervalMinutes := stretchIntervalMinutes s;
         preMeetingBufferMinutes := preMeetingBufferMinutes s;
         snoozeDurationMinutes := snoozeDurationMinutes s;
         calendarProviders := v;
         blockOnTentative := blockOnTentative s;
         googleClientId := googleClientId s;
         outlookClientId := outlookClientId s;
         outlookTenantId := outlookTenantId s;
         googleTokens := googleTokens s;
         outlookTokens := outlookTokens s |}
  | SetBlockOnTentative v =>
      {| stretchIntervalMinutes := stretchIntervalMinutes s;
         preMeetingBufferMinutes := preMeetingBufferMinutes s;
         snoozeDurationMinutes := snoozeDurationMinutes s;
         calendarProviders := calendarProviders s;
         blockOnTentative := v;
         googleClientId := googleClientId s;
         outlookClientId := outlookClientId s;
         outlookTenantId := outlookTenantId s;
         googleTokens := googleTokens s;
         outlookTokens := outlookTokens s |}
  | SetGoogleClientId v =>
      {| stretchIntervalMinutes := stretchIntervalMinutes s;
         preMeetingBufferMinutes := preMeetingBufferMinutes s;
         snoozeDurationMinutes := snoozeDurationMinutes s;
         calendarProviders := calendarProviders s;
         blockOnTentative := blockOnTentative s;
         googleClientId := v;
         outlookClientId := outlookClientId s;
         outlookTenantId := outlookTenantId s;
         googleTokens := googleTokens s;
         outlookTokens := outlookTokens s |}
  | SetOutlookClientId v =>
      {| stretchIntervalMinutes := stretchIntervalMinutes s;
         preMeetingBufferMinutes := preMeetingBufferMinutes s;
         snoozeDurationMinutes := snoozeDurationMinutes s;
         calendarProviders := calendarProviders s;
         blockOnTentative := blockOnTentative s;
         googleClientId := googleClientId s;
         outlookClientId := v;
         outlookTenantId := outlookTenantId s;
         googleTokens := googleTokens s;
         outlookTokens := outlookTokens s |}
  | SetOutlookTenantId v =>
      {| stretchIntervalMinutes := stretchIntervalMinutes s;
         preMeetingBufferMinutes := preMeetingBufferMinutes s;
         snoozeDurationMinutes := snoozeDurationMinutes s;
         calendarProviders := calendarProviders s;
         blockOnTentative := blockOnTentative s;
         googleClientId := googleClientId s;
         outlookClientId := outlookClientId s;
         outlookTenantId := v;
         googleTokens := googleTokens s;
         outlookTokens := outlookTokens s |}
  | SetGoogleTokens v =>
      {| stretchIntervalMinutes := stretchIntervalMinutes s;
         preMeetingBufferMinutes := preMeetingBufferMinutes s;
         snoozeDurationMinutes := snoozeDurationMinutes s;
         calendarProviders := calendarProviders s;
         blockOnTentative := blockOnTentative s;
         googleClientId := googleClientId s;
         outlookClientId := outlookClientId s;
         outlookTenantId := outlookTenantId s;
         googleTokens := Some v;
         outlookTokens := outlookTokens s |}
  | SetOutlookTokens v =>
      {| stretchIntervalMinutes := stretchIntervalMinutes s;
         preMeetingBufferMinutes := preMeetingBufferMinutes s;
         snoozeDurationMinutes := snoozeDurationMinutes s;
         calendarProviders := calendarProviders s;
         blockOnTentative := blockOnTentative s;
         googleClientId := googleClientId s;
         outlookClientId := outlookClientId s;
         outlookTenantId := outlookTenantId s;
         googleTokens := googleTokens s;
         outlookTokens := Some v |}
  end.

(** [updateSettings(partial)]: every entry of [partial] is set, in order. *)
Definition updateSettings (partial : list Entry) (s : AppSettings)
  : AppSettings :=
  fold_left (fun acc e => set e acc) partial s.

End Store.

(** ** timer.ts *)

Module Timer.
Import Store.

(** The two events of the emitter: ['tick'] and ['stretch-due']. *)
Inductive Signal := Tick | StretchDue.

Definition isStretchDue (sig : Signal) : bool :=
  match sig with
  | StretchDue => true
  | Tick => false
  end.

(** [intervalHandle] holds the period of the armed [setInterval], if any. *)
Record StretchTimer := {
  intervalHandle : option Z;
  lastStretchTime : Z;
  paused : bool;
  snoozedUntil : Z
}.

Definition start (now : Z) (t : StretchTimer) : StretchTimer :=
  {| intervalHandle := Some 30000;
     lastStretchTime := now;
     paused := false;
     snoozedUntil := snoozedUntil t |}.

Definition stop (t : StretchTimer) : StretchTimer :=
  match intervalHandle t with
  | Some _ =>
      {| intervalHandle := None;
         lastStretchTime := lastStretchTime t;
         paused := paused t;
         snoozedUntil := snoozedUntil t |}
  | None => t
  end.

Definition pause (t : StretchTimer) : StretchTimer :=
  {| intervalHandle := intervalHandle t;
     lastStretchTime := lastStretchTime t;
     paused := true;
     snoozedUntil := snoozedUntil t |}.

Definition resume (now : Z) (t : StretchTimer) : StretchTimer :=
  {| intervalHandle := intervalHandle t;
     lastStretchTime := now;
     paused := false;
     snoozedUntil := snoozedUntil t |}.

Definition isPaused (t : StretchTimer) : bool := paused t.

Definition snooze (s : AppSettings) (now : Z) (t : StretchTimer)
  : StretchTimer :=
  {| intervalHandle := intervalHandle t;
     lastStretchTime := lastStretchTime t;
     paused := paused t;
     snoozedUntil := now + snoozeDurationMinutes s * 60000 |}.

Definition resetTimer (now : Z) (t : StretchTimer) : StretchTimer :=
  {| intervalHandle := intervalHandle t;
     lastStretchTime := now;
     paused := paused t;
     snoozedUntil := 0 |}.

Definition getRemainingMs (s : AppSettings) (now : Z) (t : StretchTimer) : Z :=
  if paused t then -1
  else if now <? snoozedUntil t then snoozedUntil t - now
  else
    let remaining :=
      stretchIntervalMinutes s * 60000 - (now - lastStretchTime t) in
    Z.max 0 remaining.

(** [tick()] leaves the timer as it is; its result is the signals it emits,
    in order. *)
Definition tick (s : AppSettings) (now : Z) (t : StretchTimer) : list Signal :=
  let emitted := [Tick] in
  if paused t then emitted
  else if now <? snoozedUntil t then emitted
  else
    let elapsed := now - lastStretchTime t in
    if elapsed >=? stretchIntervalMinutes s * 60000
    then emitted ++ [StretchDue]
    else emitted.

(** The operations of the class that change the timer. *)
Inductive Op :=
| OpStart (now : Z)
| OpStop
| OpPause
| OpResume (now : Z)
| OpSnooze (now : Z)
| OpResetTimer (now : Z).

Definition apply (s : AppSettings) (o : Op) (t : StretchTimer) : StretchTimer :=
  match o with
  | OpStart now => start now t
  | OpStop => stop t
  | OpPause => pause t
  | OpResume now => resume now t
  | OpSnooze now => snooze s now t
  | OpResetTimer now => resetTimer now t
  end.

Definition movesOrigin (o : Op) : bool :=
  match o with
  | OpStart _ | OpResume _ | OpResetTimer _ => true
  | OpStop | OpPause | OpSnooze _ => false
  end.

End Timer.

(** ** tray.ts: the listeners of the timer *)

Module Tray.
Import Store Timer.

(** [onStretchDue] is asynchronous. [awaiting] counts its calls that are
    suspended at [await this.calendarManager.isBusyOrMeetingSoon(...)], and
    [shown] the notifications shown so far. *)
Record TrayManager := {
  timer : StretchTimer;
  awaiting : nat;
  shown : nat
}.

Definition showStretchNotification (m : TrayManager) : TrayManager :=
  {| timer := timer m; awaiting := awaiting m; shown := S (shown m) |}.

(** [onStretchDue], from its call to its [await]. *)
Definition onStretchDue_call (now : Z) (m : TrayManager) : TrayManager :=
  {| timer := resetTimer now (timer m);
     awaiting := S (awaiting m);
     shown := shown m |}.

(** [onStretchDue], from the [await] to its end. *)
Definition onStretchDue_resume (isBusy : bool) (m : TrayManager)
  : TrayManager :=
  let m' := {| timer := timer m;
               awaiting := Nat.pred (awaiting m);
               shown := shown m |} in
  if isBusy then m' else showStretchNotification m'.

(** [emit] calls the listener of the signal at once: [updateTooltip] for
    ['tick'], which reads the timer and changes nothing here, and
    [onStretchDue] for ['stretch-due'], which runs up to its [await] before
    [emit] returns. *)
Definition listener (now : Z) (sig : Signal) (m : TrayManager) : TrayManager :=
  match sig with
  | Tick => m
  | StretchDue => onStretchDue_call now m
  end.

(** What the event loop of the main process runs, one callback at a time. *)
Inductive Event :=
| Interval (now now' : Z)
    (* the [setInterval] callback: [tick] reads the clock as [now],
       [resetTimer], when it is reached, as [now'] *)
| MenuPause
| MenuResume (now : Z)
| MenuStretchNow
| Snooze (now : Z)
| Settled (isBusy : bool).
    (* an awaited [isBusyOrMeetingSoon] has resolved *)

Definition withTimer (f : StretchTimer -> StretchTimer) (m : TrayManager)
  : TrayManager :=
  {| timer := f (timer m); awaiting := awaiting m; shown := shown m |}.

Definition step (s : AppSettings) (e : Event) (m : TrayManager)
  : TrayManager * list Signal :=
  match e with
  | Interval now now' =>
      let emitted := tick s now (timer m) in
      (fold_left (fun acc sig => listener now' sig acc) emitted m, emitted)
  | MenuPause => (withTimer pause m, [])
  | MenuResume now => (withTimer (resume now) m, [])
  | MenuStretchNow => (showStretchNotification m, [])
  | Snooze now => (withTimer (snooze s now) m, [])
  | Settled isBusy =>
      match awaiting m with
      | O => (m, [])
      | S _ => (onStretchDue_resume isBusy m, [])
      end
  end.

Fixpoint run (s : AppSettings) (es : list Event) (m : TrayManager)
  : TrayManager * list Signal :=
  match es with
  | [] => (m, [])
  | e :: rest =>
      let (m1, out1) := step s e m in
      let (m2, out2) := run s rest m1 in
      (m2, out1 ++ out2)
  end.

(** The clock readings an event takes. *)
Definition readings (e : Event) : list Z :=
  match e with
  | Interval now now' => [now; now']
  | MenuResume now => [now]
  | Snooze now => [now]
  | MenuPause | MenuStretchNow | Settled _ => []
  end.

(** The readings of an event all fall in the interval that starts at
    [origin]. *)
Definition within (s : AppSettings) (origin : Z) (e : Event) : Prop :=
  Forall (fun r => origin <= r /\
                   r - origin < stretchIntervalMinutes s * 60000)
         (readings e).

End Tray.

(** ** The outside of the process: clock, parser of dates, servers *)

Module Net.

(** What [await fetch(...)] gives: the promise rejects, or a response comes
    with its [ok] flag and its body, [None] when [response.json()] would
    reject. *)
Inductive Response (A : Type) :=
| Failed
| Reply (ok : bool) (body : option A).

Arguments Failed {A}.
Arguments Reply {A} ok body.

(** The JSON of a token endpoint. *)
Record Tokens := {
  access_token : string;
  refresh_token : option string;
  expires_in : Z
}.

(** The JSON of the Google events endpoint. *)
Record GoogleTime := {
  dateTime : option string;
  date : option string
}.

Record GoogleItem := {
  summary : option string;
  start : option GoogleTime;
  end_ : option GoogleTime;
  status : option string
}.

Record GoogleData := { items : option (list GoogleItem) }.

(** The JSON of the Outlook calendar view. *)
Record OutlookTime := { dateTimeUtc : option string }.

Record OutlookItem := {
  subject : option string;
  startTime : option OutlookTime;
  endTime : option OutlookTime;
  showAs : option string
}.

Record OutlookData := { value : option (list OutlookItem) }.

(** The requests the two clients send. *)
Inductive Request :=
| GoogleExchange (code client_id code_verifier : string)
| GoogleRefresh (refresh_token client_id : string)
| GoogleEvents (bearer : string) (timeMin timeMax : Z)
| OutlookExchange (tenant code client_id code_verifier : string)
| OutlookRefresh (tenant refresh_token client_id : string)
| OutlookEvents (bearer : string) (startDateTime endDateTime : Z).

(** The clock gives its n-th reading; a server answers the n-th request of
    the process. *)
Record Env := {
  clock : nat -> Z;
  parseDate : string -> Js.Date;
  googleToken : nat -> Response Tokens;
  googleCalendar : nat -> Response GoogleData;
  outlookToken : nat -> Response Tokens;
  outlookCalendar : nat -> Response OutlookData
}.

(** A network or HTTP error: the request fails, or the status is not a
    success. *)
Definition failing {A : Type} (r : Response A) : Prop :=
  match r with
  | Failed => True
  | Reply ok _ => ok = false
  end.

End Net.

(** ** The objects of the main process *)

Module GoogleState.
Record t := {
  accessToken : string;
  refreshToken : string;
  expiryDate : Z
}.
Definition empty : t :=
  {| accessToken := ""; refreshToken := ""; expiryDate := 0 |}.
End GoogleState.

Module OutlookState.
Record t := {
  accessToken : string;
  refreshToken : string;
  expiresOn : Z
}.
Definition empty : t :=
  {| accessToken := ""; refreshToken := ""; expiresOn := 0 |}.
End OutlookState.

Module Heap.
Import Store.

Record CalendarEvent := {
  summary : string;
  start : Js.Date;
  end_ : Js.Date;
  status : string
}.

Record CachedEvents := {
  events : list CalendarEvent;
  fetchedAt : Z
}.

(** What a run leaves behind, latest first. *)
Inductive Effect :=
| Sent (r : Net.Request)
| ConsoleError (msg : string)
| CacheReplaced.

Record World := {
  env : Net.Env;
  settings : AppSettings;
  googleClient : GoogleState.t;
  outlookClient : OutlookState.t;
  cache : CachedEvents;
  reads : nat;
  trace : list Effect
}.

Definition isSent (e : Effect) : bool :=
  match e with
  | Sent _ => true
  | _ => false
  end.

Definition isCacheReplaced (e : Effect) : bool :=
  match e with
  | CacheReplaced => true
  | _ => false
  end.

Definition sent (w : World) : nat := List.length (filter isSent (trace w)).

Definition cycles (w : World) : nat :=
  List.length (filter isCacheReplaced (trace w)).

Definition withSettings (s : AppSettings) (w : World) : World :=
  {| env := env w; settings := s; googleClient := googleClient w;
     outlookClient := outlookClient w; cache := cache w;
     reads := reads w; trace := trace w |}.

Definition withGoogle (c : GoogleState.t) (w : World) : World :=
  {| env := env w; settings := settings w; googleClient := c;
     outlookClient := outlookClient w; cache := cache w;
     reads := reads w; trace := trace w |}.

Definition withOutlook (c : OutlookState.t) (w : World) : World :=
  {| env := env w; settings := settings w; googleClient := googleClient w;
     outlookClient := c; cache := cache w;
     reads := reads w; trace := trace w |}.

Definition withCache (c : CachedEvents) (w : World) : World :=
  {| env := env w; settings := settings w; googleClient := googleClient w;
     outlookClient := outlookClient w; cache := c;
     reads := reads w; trace := trace w |}.

Definition withReads (n : nat) (w : World) : World :=
  {| env := env w; settings := settings w; googleClient := googleClient w;
     outlookClient := outlookClient w; cache := cache w;
     reads := n; trace := trace w |}.

Definition withEffect (e : Effect) (w : World) : World :=
  {| env := env w; settings := settings w; googleClient := googleClient w;
     outlookClient := outlookClient w; cache := cache w;
     reads := reads w; trace := e :: trace w |}.

(** *** Computations that may throw *)

Inductive Result (A : Type) :=
| Val (a : A)
| Throw (err : string).

Arguments Val {A} a.
Arguments Throw {A} err.

Definition M (A : Type) : Type := World -> Result A * World.

Definition ret {A : Type} (a : A) : M A := fun w => (Val a, w).

Definition throw {A : Type} (err : string) : M A := fun w => (Throw err, w).

Definition bind {A B : Type} (m : M A) (k : A -> M B) : M B :=
  fun w =>
    match m w with
    | (Val a, w') => k a w'
    | (Throw err, w') => (Throw err, w')
    end.

Definition tryCatch {A : Type} (m : M A) (handler : string -> M A) : M A :=
  fun w =>
    match m w with
    | (Val a, w') => (Val a, w')
    | (Throw err, w') => handler err w'
    end.

Declare Scope js_scope.
Delimit Scope js_scope with js.
Notation "x <- m ;; k" := (bind m (fun x => k))
  (at level 61, m at next level, right associativity) : js_scope.
Notation "m ;; k" := (bind m (fun _ => k))
  (at level 61, right associativity) : js_scope.
Open Scope js_scope.

Definition gets {A : Type} (f : World -> A) : M A := fun w => (Val (f w), w).

Definition modify (f : World -> World) : M unit := fun w => (Val tt, f w).

Definition getSettings : M AppSettings := gets settings.

Definition updateSettings (partial : list Entry) : M unit :=
  modify (fun w => withSettings (Store.updateSettings partial (settings w)) w).

(** [Date.now()] and [new Date()]. *)
Definition Date_now : M Z :=
  fun w => (Val (Net.clock (env w) (reads w)), withReads (S (reads w)) w).

Definition consoleError (msg : string) : M unit :=
  modify (withEffect (ConsoleError msg)).

(** [await fetch(...)], with the server that answers. *)
Definition fetch {A : Type} (r : Net.Request)
  (server : Net.Env -> nat -> Net.Response A) : M (bool * option A) :=
  fun w =>
    let w' := withEffect (Sent r) w in
    match server (env w) (sent w) with
    | Net.Failed => (Throw "fetch failed", w')
    | Net.Reply ok body => (Val (ok, body), w')
    end.

(** [await response.json()] *)
Definition json {A : Type} (body : option A) : M A :=
  match body with
  | Some a => ret a
  | None => throw "Unexpected token in JSON"
  end.

(** *** What a computation touches *)

(** It neither reads the cache nor writes it. *)
Definition CacheFree {A : Type} (m : M A) : Prop :=
  forall c w, m (withCache c w) = (fst (m w), withCache c (snd (m w))).

(** It leaves the environment and the cache alone. *)
Definition Quiet {A : Type} (m : M A) : Prop :=
  forall w,
    env (snd (m w)) = env w /\
    cache (snd (m w)) = cache w /\
    cycles (snd (m w)) = cycles w.

(** It returns: nothing it throws escapes. *)
Definition Total {A : Type} (m : M A) : Prop :=
  forall w, exists a, fst (m w) = Val a.

End Heap.

(** ** google-calendar.ts *)

Module GoogleCalendarClient.
Import Store Heap.

(** The constructor. *)
Definition new (s : AppSettings) : GoogleState.t :=
  match googleTokens s with
  | Some tokens =>
      {| GoogleState.accessToken := access_token tokens;
         GoogleState.refreshToken := refresh_token tokens;
         GoogleState.expiryDate := expiry_date tokens |}
  | None => GoogleState.empty
  end.

Definition isConnected : M bool :=
  s <- getSettings ;;
  ret (Js.hasField (googleTokens s) refresh_token).

Definition exchangeCodeForTokens (code codeVerifier : string) : M unit :=
  s <- getSettings ;;
  response <- fetch (Net.GoogleExchange code (googleClientId s) codeVerifier)
                    Net.googleToken ;;
  if negb (fst response) then throw "Token exchange failed"
  else
    tokens <- json (snd response) ;;
    this <- gets googleClient ;;
    now <- Date_now ;;
    modify (withGoogle
      {| GoogleState.accessToken := Net.access_token tokens;
         GoogleState.refreshToken :=
           Js.orElse (Net.refresh_token tokens) (GoogleState.refreshToken this);
         GoogleState.expiryDate := now + Net.expires_in tokens * 1000 |}) ;;
    this <- gets googleClient ;;
    updateSettings
      [SetGoogleTokens
         {| access_token := GoogleState.accessToken this;
            refresh_token := GoogleState.refreshToken this;
            expiry_date := GoogleState.expiryDate this |}].

Definition refreshAccessToken : M unit :=
  this <- gets googleClient ;;
  if negb (Js.truthy (GoogleState.refreshToken this)) then ret tt
  else
    s <- getSettings ;;
    response <- fetch (Net.GoogleRefresh (GoogleState.refreshToken this)
                                         (googleClientId s))
                      Net.googleToken ;;
    if negb (fst response) then consoleError "Google token refresh failed"
    else
      tokens <- json (snd response) ;;
      this <- gets googleClient ;;
      now <- Date_now ;;
      modify (withGoogle
        {| GoogleState.accessToken := Net.access_token tokens;
           GoogleState.refreshToken := GoogleState.refreshToken this;
           GoogleState.expiryDate := now + Net.expires_in tokens * 1000 |}) ;;
      this <- gets googleClient ;;
      updateSettings
        [SetGoogleTokens
           {| access_token := GoogleState.accessToken this;
              refresh_token := GoogleState.refreshToken this;
              expiry_date := GoogleState.expiryDate this |}].

Definition getValidAccessToken : M string :=
  now <- Date_now ;;
  this <- gets googleClient ;;
  (if now >? GoogleState.expiryDate this - 60000
   then refreshAccessToken
   else ret tt) ;;
  this <- gets googleClient ;;
  ret (GoogleState.accessToken this).

(** [e.start?.dateTime || e.start?.date || ''] *)
Definition instant (t : option Net.GoogleTime) : string :=
  match t with
  | Some g => Js.orElse (Net.dateTime g) (Js.orElse (Net.date g) "")
  | None => ""
  end.

Definition notCancelled (e : Net.GoogleItem) : bool :=
  match Net.status e with
  | Some st => negb (st =? "cancelled")%string
  | None => true
  end.

Definition toEvent (parse : string -> Js.Date) (e : Net.GoogleItem)
  : CalendarEvent :=
  {| summary := Js.orElse (Net.summary e) "(No title)";
     start := parse (instant (Net.start e));
     end_ := parse (instant (Net.end_ e));
     status := Js.orElse (Net.status e) "confirmed" |}.

Definition getUpcomingEvents (minutesAhead : Z) : M (list CalendarEvent) :=
  connected <- isConnected ;;
  if negb connected then ret []
  else
    tryCatch
      (token <- getValidAccessToken ;;
       now <- Date_now ;;
       let later := now + minutesAhead * 60000 in
       response <- fetch (Net.GoogleEvents token now later)
                         Net.googleCalendar ;;
       if negb (fst response)
       then consoleError "Google Calendar API error" ;; ret []
       else
         data <- json (snd response) ;;
         parse <- gets (fun w => Net.parseDate (env w)) ;;
         let items := match Net.items data with Some l => l | None => [] end in
         ret (map (toEvent parse) (filter notCancelled items)))
      (fun err => consoleError "Google Calendar error" ;; ret []).

End GoogleCalendarClient.

(** ** outlook-calendar.ts *)

Module OutlookCalendarClient.
Import Store Heap.

Definition new (s : AppSettings) : OutlookState.t :=
  match outlookTokens s with
  | Some tokens =>
      {| OutlookState.accessToken := accessToken tokens;
         OutlookState.refreshToken := refreshToken tokens;
         OutlookState.expiresOn := expiresOn tokens |}
  | None => OutlookState.empty
  end.

Definition isConnected : M bool :=
  s <- getSettings ;;
  ret (Js.hasField (outlookTokens s) refreshToken).

(** [settings.outlookTenantId || 'consumers'] *)
Definition tenant (s : AppSettings) : string :=
  Js.orElse (Some (outlookTenantId s)) "consumers".

Definition exchangeCodeForTokens (code codeVerifier : string) : M unit :=
  s <- getSettings ;;
  response <- fetch (Net.OutlookExchange (tenant s) code (outlookClientId s)
                                         codeVerifier)
                    Net.outlookToken ;;
  if negb (fst response) then throw "Token exchange failed"
  else
    tokens <- json (snd response) ;;
    this <- gets outlookClient ;;
    now <- Date_now ;;
    modify (withOutlook
      {| OutlookState.accessToken := Net.access_token tokens;
         OutlookState.refreshToken :=
           Js.orElse (Net.refresh_token tokens)
                     (OutlookState.refreshToken this);
         OutlookState.expiresOn := now + Net.expires_in tokens * 1000 |}) ;;
    this <- gets outlookClient ;;
    updateSettings
      [SetOutlookTokens
         {| accessToken := OutlookState.accessToken this;
            refreshToken := OutlookState.refreshToken this;
            expiresOn := OutlookState.expiresOn this |}].

Definition refreshAccessToken : M unit :=
  this <- gets outlookClient ;;
  if negb (Js.truthy (OutlookState.refreshToken this)) then ret tt
  else
    s <- getSettings ;;
    response <- fetch (Net.OutlookRefresh (tenant s)
                         (OutlookState.refreshToken this) (outlookClientId s))
                      Net.outlookToken ;;
    if negb (fst response) then consoleError "Outlook token refresh failed"
    else
      tokens <- json (snd response) ;;
      this <- gets outlookClient ;;
      now <- Date_now ;;
      modify (withOutlook
        {| OutlookState.accessToken := Net.access_token tokens;
           OutlookState.refreshToken :=
             Js.orElse (Net.refresh_token tokens)
                       (OutlookState.refreshToken this);
           OutlookState.expiresOn := now + Net.expires_in tokens * 1000 |}) ;;
      this <- gets outlookClient ;;
      updateSettings
        [SetOutlookTokens
           {| accessToken := OutlookState.accessToken this;
              refreshToken := OutlookState.refreshToken this;
              expiresOn := OutlookState.expiresOn this |}].

Definition getValidAccessToken : M string :=
  now <- Date_now ;;
  this <- gets outlookClient ;;
  (if now >? OutlookState.expiresOn this - 60000
   then refreshAccessToken
   else ret tt) ;;
  this <- gets outlookClient ;;
  ret (OutlookState.accessToken this).

(** [e.start.dateTime + 'Z']: a missing [e.start] is a TypeError, a missing
    [dateTime] concatenates as ["undefined"]. *)
Definition instant (t : option Net.OutlookTime) : M string :=
  match t with
  | Some o =>
      match Net.dateTimeUtc o with
      | Some d => ret (d ++ "Z")%string
      | None => ret "undefinedZ"%string
      end
  | None => throw "Cannot read properties of undefined"
  end.

Definition toEvent (parse : string -> Js.Date) (e : Net.OutlookItem)
  : M CalendarEvent :=
  s <- instant (Net.startTime e) ;;
  n <- instant (Net.endTime e) ;;
  ret {| summary := Js.orElse (Net.subject e) "(No title)";
         start := parse s;
         end_ := parse n;
         status := Js.orElse (Net.showAs e) "busy" |}.

Fixpoint mapM {A B : Type} (f : A -> M B) (l : list A) : M (list B) :=
  match l with
  | [] => ret []
  | x :: rest =>
      y <- f x ;;
      ys <- mapM f rest ;;
      ret (y :: ys)
  end.

Definition getUpcomingEvents (minutesAhead : Z) : M (list CalendarEvent) :=
  connected <- isConnected ;;
  if negb connected then ret []
  else
    tryCatch
      (token <- getValidAccessToken ;;
       now <- Date_now ;;
       let later := now + minutesAhead * 60000 in
       response <- fetch (Net.OutlookEvents token now later)
                         Net.outlookCalendar ;;
       if negb (fst response)
       then consoleError "Outlook Calendar API error" ;; ret []
       else
         data <- json (snd response) ;;
         parse <- gets (fun w => Net.parseDate (env w)) ;;
         let value := match Net.value data with Some l => l | None => [] end in
         mapM (toEvent parse) value)
      (fun err => consoleError "Outlook Calendar error" ;; ret []).

End OutlookCalendarClient.

(** ** calendar.ts *)

Module CalendarManager.
Import Store Heap.

Definition POLL_INTERVAL : Z := 5 * 60000.
Definition CACHE_TTL : Z := 5 * 60000.

Definition fetchEvents : M unit :=
  settings <- getSettings ;;
  let allEvents : list CalendarEvent := [] in
  let lookAheadMinutes := 120 in
  allEvents <-
    (if google (calendarProviders settings)
     then
       connected <- GoogleCalendarClient.isConnected ;;
       if connected
       then
         events <- GoogleCalendarClient.getUpcomingEvents lookAheadMinutes ;;
         ret (allEvents ++ events)
       else ret allEvents
     else ret allEvents) ;;
  allEvents <-
    (if outlook (calendarProviders settings)
     then
       connected <- OutlookCalendarClient.isConnected ;;
       if connected
       then
         events <- OutlookCalendarClient.getUpcomingEvents lookAheadMinutes ;;
         ret (allEvents ++ events)
       else ret allEvents
     else ret allEvents) ;;
  now <- Date_now ;;
  modify (fun w =>
    withEffect CacheReplaced
      (withCache {| events := allEvents; fetchedAt := now |} w)).

(** The loop over [this.cache.events], with its two [continue]s and its two
    [return true]s. *)
Fixpoint scan (settings : AppSettings) (now bufferEnd : Js.Date)
  (evs : list CalendarEvent) : bool :=
  match evs with
  | [] => false
  | event :: rest =>
      if negb (blockOnTentative settings)
         && (status event =? "tentative")%string
      then scan settings now bufferEnd rest
      else if (status event =? "free")%string
      then scan settings now bufferEnd rest
      else
        let eventStart := start event in
        let eventEnd := end_ event in
        if Js.lteq eventStart now && Js.gt eventEnd now then true
        else if Js.gt eventStart now && Js.lteq eventStart bufferEnd then true
        else scan settings now bufferEnd rest
  end.

(** What one provider adds to [allEvents] in [fetchEvents]. *)
Definition contribution (enabled : bool) (isConnected : M bool)
  (getUpcomingEvents : Z -> M (list CalendarEvent)) : M (list CalendarEvent) :=
  if enabled
  then
    connected <- isConnected ;;
    if connected then getUpcomingEvents 120 else ret []
  else ret [].

(** The body of the loop of [scan] as a test of one event. *)
Definition busyb (settings : AppSettings) (now bufferEnd : Js.Date)
  (event : CalendarEvent) : bool :=
  negb (negb (blockOnTentative settings)
        && (status event =? "tentative")%string)
  && negb (status event =? "free")%string
  && ((Js.lteq (start event) now && Js.gt (end_ event) now)
      || (Js.gt (start event) now && Js.lteq (start event) bufferEnd)).

(** The condition of the specification on one cached event, for a query at
    [now] with a buffer of [bufferMinutes]. *)
Definition Busy (settings : AppSettings) (now bufferMinutes : Z)
  (e : CalendarEvent) : Prop :=
  status e <> "free"%string /\
  (status e <> "tentative"%string \/ blockOnTentative settings = true) /\
  ((Js.Lteq (start e) (Some now) /\ Js.Gt (end_ e) (Some now)) \/
   (Js.Gt (start e) (Some now) /\
    Js.Lteq (start e) (Some (now + bufferMinutes * 60000)))).

Definition isBusyOrMeetingSoon (bufferMinutes : Z) : M bool :=
  t <- Date_now ;;
  c <- gets cache ;;
  (if t - fetchedAt c >? CACHE_TTL then fetchEvents else ret tt) ;;
  settings <- getSettings ;;
  now <- Date_now ;;
  let bufferEnd := now + bufferMinutes * 60000 in
  c <- gets cache ;;
  ret (scan settings (Some now) (Some bufferEnd) (events c)).

End CalendarManager.

(** ** index.ts: the handler of ['get-settings'] *)

Module Index.
Import Store.

Record SettingsView := {
  stretchIntervalMinutes : Z;
  preMeetingBufferMinutes : Z;
  snoozeDurationMinutes : Z;
  calendarProviders : CalendarProviders;
  blockOnTentative : bool;
  googleClientId : string;
  outlookClientId : string;
  outlookTenantId : string;
  googleConnected : bool;
  outlookConnected : bool
}.

Definition get_settings (s : AppSettings) : SettingsView :=
  {| stretchIntervalMinutes := Store.stretchIntervalMinutes s;
     preMeetingBufferMinutes := Store.preMeetingBufferMinutes s;
     snoozeDurationMinutes := Store.snoozeDurationMinutes s;
     calendarProviders := Store.calendarProviders s;
     blockOnTentative := Store.blockOnTentative s;
     googleClientId := Store.googleClientId s;
     outlookClientId := Store.outlookClientId s;
     outlookTenantId := Store.outlookTenantId s;
     googleConnected := Js.hasField (googleTokens s) refresh_token;
     outlookConnected := Js.hasField (outlookTokens s) accessToken |}.

End Index.

(** ** [authenticate()], the same in both clients but for the port

    The model starts where the promise is created: the client identifier
    was found and a server left by an earlier call was closed. *)

Module Authenticate.

Inductive Provider := Google | Outlook.

Definition port (p : Provider) : Z :=
  match p with
  | Google => 8234
  | Outlook => 8235
  end.

Inductive Settlement :=
| Resolved
| Rejected (err : string).

Inductive Effect :=
| Listen (port : Z)
| OpenExternal
| Respond (status : Z)
| ServerClose
| ClearTimeout.

(** The variables one call of [authenticate] closes over, and what it has
    done so far, latest first. [authServer] tells whether [this.authServer]
    holds a server, [timer] whether the timeout is still armed, [promise]
    how the returned promise was settled. *)
Record Flow := {
  authServer : bool;
  settled : bool;
  timer : bool;
  promise : option Settlement;
  effects : list Effect
}.

Definition emit (e : Effect) (f : Flow) : Flow :=
  {| authServer := authServer f; settled := settled f; timer := timer f;
     promise := promise f; effects := e :: effects f |}.

Definition cleanup (f : Flow) : Flow :=
  let f1 :=
    if authServer f
    then {| authServer := false; settled := settled f; timer := timer f;
            promise := promise f; effects := ServerClose :: effects f |}
    else f in
  {| authServer := authServer f1; settled := settled f1; timer := false;
     promise := promise f1; effects := ClearTimeout :: effects f1 |}.

(** [resolve()] and [reject(err)]: a promise is settled once. *)
Definition settle (s : Settlement) (f : Flow) : Flow :=
  match promise f with
  | Some _ => f
  | None =>
      {| authServer := authServer f; settled := settled f; timer := timer f;
         promise := Some s; effects := effects f |}
  end.

Definition done (fn : Flow -> Flow) (f : Flow) : Flow :=
  if settled f then f
  else
    fn (cleanup {| authServer := authServer f; settled := true;
                   timer := timer f; promise := promise f;
                   effects := effects f |}).

(** The executor of the promise: the server is created, the handlers are
    registered, the timeout is armed, the server is asked to listen. *)
Definition executor (p : Provider) : Flow :=
  {| authServer := true; settled := false; timer := true; promise := None;
     effects := [Listen (port p)] |}.

(** The callbacks the event loop can run afterwards. A request with a code
    is answered at once and the exchange is awaited: its end is a callback
    of its own. *)
Inductive Callback :=
| Listening
| RequestWithCode
| ExchangeReturned
| ExchangeThrew (err : string)
| RequestWithError (error : string)
| RequestOther
| ServerError (err : string)
| TimerFired.

Definition handle (c : Callback) (f : Flow) : Flow :=
  match c with
  | Listening => emit OpenExternal f
  | RequestWithCode => emit (Respond 200) f
  | ExchangeReturned => done (settle Resolved) f
  | ExchangeThrew err => done (settle (Rejected err)) f
  | RequestWithError error =>
      done (settle (Rejected error)) (emit (Respond 400) f)
  | RequestOther => f
  | ServerError err => done (settle (Rejected err)) f
  | TimerFired => done (settle (Rejected "Authentication timed out")) f
  end.

Definition run (cs : list Callback) (f : Flow) : Flow :=
  fold_left (fun acc c => handle c acc) cs f.

(** The five ways a call ends. *)
Inductive Outcome :=
| Success
| ExchangeFailure
| ProviderError
| Timeout
| BindError.

Definition outcome (c : Callback) : option Outcome :=
  match c with
  | ExchangeReturned => Some Success
  | ExchangeThrew _ => Some ExchangeFailure
  | RequestWithError _ => Some ProviderError
  | TimerFired => Some Timeout
  | ServerError _ => Some BindError
  | Listening | RequestWithCode | RequestOther => None
  end.

Definition settlement (c : Callback) : option Settlement :=
  match c with
  | ExchangeReturned => Some Resolved
  | ExchangeThrew err => Some (Rejected err)
  | RequestWithError error => Some (Rejected error)
  | TimerFired => Some (Rejected "Authentication timed out")
  | ServerError err => Some (Rejected err)
  | Listening | RequestWithCode | RequestOther => None
  end.

Definition isServerClose (e : Effect) : bool :=
  match e with
  | ServerClose => true
  | _ => false
  end.

Definition isClearTimeout (e : Effect) : bool :=
  match e with
  | ClearTimeout => true
  | _ => false
  end.

Definition closes (f : Flow) : nat :=
  List.length (filter isServerClose (effects f)).

Definition clears (f : Flow) : nat :=
  List.length (filter isClearTimeout (effects f)).

(** What the properties below look at. *)
Definition observe (f : Flow)
  : bool * bool * bool * option Settlement * nat * nat :=
  (settled f, authServer f, timer f, promise f, closes f, clears f).

End Authenticate.

(** ** Concrete inputs *)

Module Examples.
Import Store Heap.
Local Open Scope string_scope.

Definition tokens : Net.Tokens :=
  {| Net.access_token := "fresh";
     Net.refresh_token := None;
     Net.expires_in := 3600 |}.

Definition item : Net.OutlookItem :=
  {| Net.subject := Some "Review";
     Net.startTime := Some {| Net.dateTimeUtc := Some "2026-01-01T10:05:00" |};
     Net.endTime := Some {| Net.dateTimeUtc := Some "2026-01-01T10:35:00" |};
     Net.showAs := Some "busy" |}.

(** A clock that stands at [now], a parser that reads every date as five
    minutes later, token servers that answer, a Google calendar that is
    down and an Outlook calendar with one event. *)
Definition outside (now : Z) (tokenOk : bool) : Net.Env :=
  {| Net.clock := fun _ => now;
     Net.parseDate := fun _ => Some (now + 300000);
     Net.googleToken := fun _ => Net.Reply tokenOk (Some tokens);
     Net.googleCalendar := fun _ => Net.Failed;
     Net.outlookToken := fun _ => Net.Reply tokenOk (Some tokens);
     Net.outlookCalendar :=
       fun _ => Net.Reply true (Some {| Net.value := Some [item] |}) |}.

Definition connected : AppSettings :=
  {| stretchIntervalMinutes := 30;
     preMeetingBufferMinutes := 15;
     snoozeDurationMinutes := 5;
     calendarProviders := {| google := true; outlook := true |};
     blockOnTentative := true;
     googleClientId := "g-client";
     outlookClientId := "o-client";
     outlookTenantId := "consumers";
     googleTokens :=
       Some {| access_token := "old"; refresh_token := "r";
               expiry_date := 1000000 |};
     outlookTokens :=
       Some {| accessToken := "old"; refreshToken := "r";
               expiresOn := 1000000 |} |}.

Definition meeting (from to : Z) (st : string) : CalendarEvent :=
  {| summary := "Review"; start := Some from; end_ := Some to; status := st |}.

(** The process as it starts with the settings [s], at [now], with a cache
    fetched at [fetched]. *)
Definition world (now : Z) (tokenOk : bool) (s : AppSettings)
  (evs : list CalendarEvent) (fetched : Z) : World :=
  {| env := outside now tokenOk;
     settings := s;
     googleClient := GoogleCalendarClient.new s;
     outlookClient := OutlookCalendarClient.new s;
     cache := {| events := evs; fetchedAt := fetched |};
     reads := 0;
     trace := [] |}.

Definition running : Timer.StretchTimer :=
  {| Timer.intervalHandle := Some 30000;
     Timer.lastStretchTime := 0;
     Timer.paused := false;
     Timer.snoozedUntil := 0 |}.

Definition tray : Tray.TrayManager :=
  {| Tray.timer := running; Tray.awaiting := 0; Tray.shown := 0 |}.

(** A cache fetched just now with one confirmed meeting that starts in five
    minutes and lasts thirty. *)
Definition fresh : World :=
  world 1000000 true connected [meeting 1300000 3100000 "confirmed"] 1000000.

(** The same cache, fetched long ago. *)
Definition stale : World :=
  world 1000000 true connected [meeting 1300000 3100000 "confirmed"] 0.

End Examples.

(** ** PKCE material (google-calendar.ts, outlook-calendar.ts) *)

Module Pkce.
Local Open Scope string_scope.

(** [s.replace(/c/g, by)] for a pattern of one character. *)
Fixpoint replaceAll (c : ascii) (by_ : string) (s : string) : string :=
  match s with
  | EmptyString => EmptyString
  | String a rest =>
      if Ascii.eqb a c
      then by_ ++ replaceAll c by_ rest
      else String a (replaceAll c by_ rest)
  end.

(** [base64url(buffer)], given [buffer.toString('base64')]. *)
Definition base64url (base64 : string) : string :=
  replaceAll "=" "" (replaceAll "/" "_" (replaceAll "+" "-" base64)).

(** [generatePKCE()], given the base64 text of [crypto.randomBytes(64)] and,
    for a string, the base64 text of its SHA-256 digest. *)
Definition generatePKCE (randomBytes : string) (sha256 : string -> string)
  : string * string :=
  let verifier := base64url randomBytes in
  let challenge := base64url (sha256 verifier) in
  (verifier, challenge).

Definition isAlnum (a : ascii) : bool :=
  let n := nat_of_ascii a in
  ((48 <=? n) && (n <=? 57) || (65 <=? n) && (n <=? 90)
   || (97 <=? n) && (n <=? 122))%nat.

(** The characters of base64 text. *)
Definition isBase64 (a : ascii) : bool :=
  isAlnum a || Ascii.eqb a "+" || Ascii.eqb a "/" || Ascii.eqb a "=".

(** The characters a PKCE verifier or challenge may be made of. *)
Definition isUrlSafe (a : ascii) : bool :=
  isAlnum a || Ascii.eqb a "-" || Ascii.eqb a "_".

Fixpoint every (p : ascii -> bool) (s : string) : bool :=
  match s with
  | EmptyString => true
  | String a rest => p a && every p rest
  end.

Fixpoint count (c : ascii) (s : string) : nat :=
  match s with
  | EmptyString => O
  | String a rest => (if Ascii.eqb a c then 1 else 0) + count c rest
  end.

End Pkce.

(** ** tray.ts: the tooltip *)

Module Tooltip.
Import Store Timer.
Local Open Scope string_scope.

(** [Math.ceil(a / b)] for integers [a] and [b], [b] positive. *)
Definition ceilDiv (a b : Z) : Z := - ((- a) / b).

(** [n.toString()] for an integer. *)
Definition toString (n : Z) : string := NilZero.string_of_int (Z.to_int n).

Fixpoint repeatChar (n : nat) (c : ascii) : string :=
  match n with
  | O => EmptyString
  | S k => String c (repeatChar k c)
  end.

(** [s.padStart(targetLength, pad)] for a pad of one character. *)
Definition padStart (targetLength : nat) (pad : ascii) (s : string) : string :=
  repeatChar (targetLength - String.length s) pad ++ s.

(** [updateTooltip()]: the text given to [setToolTip], if any. [hasTray]
    tells whether [this.tray] is set. *)
Definition updateTooltip (s : AppSettings) (now : Z) (hasTray : bool)
  (t : StretchTimer) : option string :=
  if negb hasTray then None
  else if isPaused t then Some "StretchTime - Paused"
  else
    let ms := getRemainingMs s now t in
    let totalSec := ceilDiv ms 1000 in
    let min := totalSec / 60 in
    let sec := Z.rem totalSec 60 in
    Some ("StretchTime - " ++ toString min ++ ":"
          ++ padStart 2 "0" (toString sec) ++ " until next stretch").

End Tooltip.

(** ** tray.ts: counting what a run shows *)

Module Counts.
Import Timer Tray.

Definition isStretchNow (e : Event) : bool :=
  match e with
  | MenuStretchNow => true
  | _ => false
  end.

Definition isResume (e : Event) : bool :=
  match e with
  | MenuResume _ => true
  | _ => false
  end.

Definition dues (out : list Signal) : nat :=
  List.length (filter isStretchDue out).

Definition requested (es : list Event) : nat :=
  List.length (filter isStretchNow es).

End Counts.

(** ** tray.ts: the Pause / Resume item of the menu *)

Module Menu.
Import Store Timer.
Local Open Scope string_scope.

(** The timer, and the [isPaused] that the menu built last closed over. *)
Record State := {
  timer : StretchTimer;
  isPaused : bool
}.

(** [new StretchTimer()] *)
Definition newTimer (now : Z) : StretchTimer :=
  {| intervalHandle := None;
     lastStretchTime := now;
     paused := false;
     snoozedUntil := 0 |}.

Definition label (m : State) : string :=
  if isPaused m then "Resume" else "Pause".

Definition updateContextMenu (m : State) : State :=
  {| timer := timer m; isPaused := Timer.isPaused (timer m) |}.

(** The [click] of the first item. *)
Definition click (now : Z) (m : State) : State :=
  updateContextMenu
    {| timer := if isPaused m then resume now (timer m) else pause (timer m);
       isPaused := isPaused m |}.

(** [init()]: the menu is built, then the timer is started. *)
Definition init (now now' : Z) : State :=
  let m := updateContextMenu {| timer := newTimer now; isPaused := false |} in
  {| timer := start now' (timer m); isPaused := isPaused m |}.

Inductive Event :=
| Click (now : Z)
| Check (now now' : Z).

(** A check resets the timer when it is due, as [onStretchDue] does. *)
Definition step (s : AppSettings) (e : Event) (m : State) : State :=
  match e with
  | Click now => click now m
  | Check now now' =>
      if existsb isStretchDue (tick s now (timer m))
      then {| timer := resetTimer now' (timer m); isPaused := isPaused m |}
      else m
  end.

Definition run (s : AppSettings) (es : list Event) (m : State) : State :=
  fold_left (fun acc e => step s e acc) es m.

End Menu.

(** ** index.ts: the handlers that connect a provider, and the request
    handler of [authenticate] that ends an exchange *)

Module Handlers.
Import Store Heap.

Record ConnectResult := {
  success : bool;
  error : option string
}.

(** ['connect-google'], from the moment [authenticate()] has settled. *)
Definition connect_google (auth : Authenticate.Settlement) : M ConnectResult :=
  tryCatch
    (match auth with
     | Authenticate.Resolved => ret tt
     | Authenticate.Rejected err => throw err
     end ;;
     s <- getSettings ;;
     updateSettings
       [SetCalendarProviders
          {| google := true; outlook := outlook (calendarProviders s) |}] ;;
     ret {| success := true; error := None |})
    (fun err => ret {| success := false; error := Some err |}).

(** ['connect-outlook'], likewise. *)
Definition connect_outlook (auth : Authenticate.Settlement) : M ConnectResult :=
  tryCatch
    (match auth with
     | Authenticate.Resolved => ret tt
     | Authenticate.Rejected err => throw err
     end ;;
     s <- getSettings ;;
     updateSettings
       [SetCalendarProviders
          {| google := google (calendarProviders s); outlook := true |}] ;;
     ret {| success := true; error := None |})
    (fun err => ret {| success := false; error := Some err |}).

(** ['update-settings'] *)
Definition update_settings (partial : list Entry) : M bool :=
  updateSettings partial ;; ret true.

Definition exchangeCodeForTokens (p : Authenticate.Provider)
  (code codeVerifier : string) : M unit :=
  match p with
  | Authenticate.Google =>
      GoogleCalendarClient.exchangeCodeForTokens code codeVerifier
  | Authenticate.Outlook =>
      OutlookCalendarClient.exchangeCodeForTokens code codeVerifier
  end.

(** The request handler of [authenticate] for a redirect with a code, from
    the end of [await this.exchangeCodeForTokens(...)]: [done] with
    [resolve], or with [reject] when the exchange threw. The exchange works
    on the tokens and the store, [done] on the variables of the call. *)
Definition exchanged (p : Authenticate.Provider) (code codeVerifier : string)
  (wf : World * Authenticate.Flow) : World * Authenticate.Flow :=
  match exchangeCodeForTokens p code codeVerifier (fst wf) with
  | (Val _, w') =>
      (w', Authenticate.handle Authenticate.ExchangeReturned (snd wf))
  | (Throw err, w') =>
      (w', Authenticate.handle (Authenticate.ExchangeThrew err) (snd wf))
  end.

End Handlers.

(** ** What the token code keeps *)

Module Invariants.
Import Store Heap.

(** The tokens a client holds are the persisted ones. *)
Definition Synced (w : World) : Prop :=
  googleClient w = GoogleCalendarClient.new (settings w) /\
  outlookClient w = OutlookCalendarClient.new (settings w).

Definition GoogleLinked (w : World) : Prop :=
  Js.hasField (googleTokens (settings w)) refresh_token = true.

Definition OutlookLinked (w : World) : Prop :=
  Js.hasField (outlookTokens (settings w)) refreshToken = true.

(** A computation keeps [P]. *)
Definition Preserves (P : World -> Prop) {A : Type} (m : M A) : Prop :=
  forall w, P w -> P (snd (m w)).

(** What it returns satisfies [Q]. *)
Definition Returns {A : Type} (Q : A -> Prop) (m : M A) : Prop :=
  forall w a, fst (m w) = Val a -> Q a.

(** It sends at most [n] requests. *)
Definition Sends (n : nat) {A : Type} (m : M A) : Prop :=
  forall w, (sent w <= sent (snd (m w)) <= sent w + n)%nat.

(** What a normalised event always has. *)
Definition WellFormed (e : CalendarEvent) : Prop :=
  status e <> ""%string /\ summary e <> ""%string.

(** The clients are in step with the store, and the providers named by
    [gl] and [ol] are connected. *)
Definition Kept (gl ol : bool) (w : World) : Prop :=
  Synced w /\
  (gl = true -> GoogleLinked w) /\
  (ol = true -> OutlookLinked w).

(** An Outlook item with its start and its end. *)
Definition complete (e : Net.OutlookItem) : bool :=
  match Net.startTime e, Net.endTime e with
  | Some _, Some _ => true
  | _, _ => false
  end.

End Invariants.

(** ** More concrete inputs *)

Module Scenarios.
Import Store Heap.
Local Open Scope string_scope.

(** A token response that carries a refresh token. *)
Definition granted : Net.Tokens :=
  {| Net.access_token := "fresh";
     Net.refresh_token := Some "r2";
     Net.expires_in := 3600 |}.

Definition cancelled : Net.GoogleItem :=
  {| Net.summary := Some "Dropped";
     Net.start := Some {| Net.dateTime := Some "2026-01-01T10:05:00Z";
                          Net.date := None |};
     Net.end_ := Some {| Net.dateTime := Some "2026-01-01T10:35:00Z";
                         Net.date := None |};
     Net.status := Some "cancelled" |}.

Definition untitled : Net.GoogleItem :=
  {| Net.summary := None;
     Net.start := Some {| Net.dateTime := None; Net.date := Some "2026-01-01" |};
     Net.end_ := None;
     Net.status := None |}.

Definition broken : Net.OutlookItem :=
  {| Net.subject := Some "No start";
     Net.startTime := None;
     Net.endTime := Some {| Net.dateTimeUtc := Some "2026-01-01T10:35:00" |};
     Net.showAs := Some "busy" |}.

(** A clock that advances by one second at each reading from [now], servers
    that all answer; the Outlook calendar answers with [items]. *)
Definition outside (now : Z) (items : list Net.OutlookItem) : Net.Env :=
  {| Net.clock := fun n => now + 1000 * Z.of_nat n;
     Net.parseDate := fun _ => Some (now + 300000);
     Net.googleToken := fun _ => Net.Reply true (Some granted);
     Net.googleCalendar :=
       fun _ => Net.Reply true
                  (Some {| Net.items := Some [cancelled; untitled] |});
     Net.outlookToken := fun _ => Net.Reply true (Some granted);
     Net.outlookCalendar :=
       fun _ => Net.Reply true (Some {| Net.value := Some items |}) |}.

Definition world (now : Z) (items : list Net.OutlookItem) (s : AppSettings)
  : World :=
  {| env := outside now items;
     settings := s;
     googleClient := GoogleCalendarClient.new s;
     outlookClient := OutlookCalendarClient.new s;
     cache := {| events := []; fetchedAt := 0 |};
     reads := 0;
     trace := [] |}.

Definition paused : Tray.TrayManager :=
  {| Tray.timer := Timer.pause Examples.running;
     Tray.awaiting := 1;
     Tray.shown := 0 |}.

End Scenarios.

(** * Properties *)

(** ** The reminder scheduler *)

Section Scheduler.
Import Store Timer.

Variable s : AppSettings.

Lemma tick_cases (now : Z) (t : StretchTimer) :
  (tick s now t = [Tick; StretchDue] /\
   paused t = false /\ snoozedUntil t <= now /\
   stretchIntervalMinutes s * 60000 <= now - lastStretchTime t) \/
  (tick s now t = [Tick] /\
   (paused t = true \/ now < snoozedUntil t \/
    now - lastStretchTime t < stretchIntervalMinutes s * 60000)).
Proof.
  unfold tick.
  destruct (paused t); [right; auto|].
  destruct (Z.ltb_spec now (snoozedUntil t)); [right; auto|].
  destruct (now - lastStretchTime t >=? stretchIntervalMinutes s * 60000) eqn:E.
  - apply Z.geb_le in E. left. simpl. auto.
  - right. split; [reflexivity|]. right. right.
    destruct (Z.lt_ge_cases (now - lastStretchTime t)
                            (stretchIntervalMinutes s * 60000)) as [L|L];
      [exact L|].
    apply Z.geb_le in L. congruence.
Qed.

Lemma tick_due_iff (now : Z) (t : StretchTimer) :
  In StretchDue (tick s now t) <->
  paused t = false /\ ~ now < snoozedUntil t /\
  now - lastStretchTime t >= stretchIntervalMinutes s * 60000.
Proof.
  destruct (tick_cases now t) as [(E & P & S & I) | (E & H)]; rewrite E.
  - split; [intros _; repeat split; auto; lia | intros _; simpl; auto].
  - split.
    + simpl. intros [A | [ ]]. discriminate A.
    + intros (P & S & I). exfalso.
      destruct H as [H | [H | H]]; [congruence | lia | lia].
Qed.

(** A timer that is due and left as it is stays due. *)
Lemma due_persists (now later : Z) (t : StretchTimer) :
  now <= later ->
  In StretchDue (tick s now t) -> In StretchDue (tick s later t).
Proof.
  intros L D. apply tick_due_iff in D. apply tick_due_iff.
  destruct D as (P & S & I). repeat split; auto; lia.
Qed.

(** C3. Every periodic check emits 'tick', first and whatever the state, and
    emits 'stretch-due' exactly when the timer is not paused, now is not
    before snoozedUntil and now - lastStretchTime has reached the configured
    stretchIntervalMinutes s * 60000; nothing else is emitted. *)
Theorem tick_emits (now : Z) (t : StretchTimer) :
  hd_error (tick s now t) = Some Tick /\
  In Tick (tick s now t) /\
  (In StretchDue (tick s now t) <->
   paused t = false /\ ~ now < snoozedUntil t /\
   now - lastStretchTime t >= stretchIntervalMinutes s * 60000) /\
  (tick s now t = [Tick] \/ tick s now t = [Tick; StretchDue]).
Proof.
  split; [|split; [|split]].
  - destruct (tick_cases now t) as [(E & _) | (E & _)]; rewrite E; reflexivity.
  - destruct (tick_cases now t) as [(E & _) | (E & _)]; rewrite E; simpl; auto.
  - apply tick_due_iff.
  - destruct (tick_cases now t) as [(E & _) | (E & _)]; auto.
Qed.

(** C4, as the code has it. getRemainingMs is -1 when paused; when not
    paused and now < snoozedUntil it is snoozedUntil - now; otherwise it is
    max(0, interval - (now - lastStretchTime)). It is negative only as the
    paused -1. With the timer not paused and left as it is, it does not
    increase as now advances between two instants on the same side of
    snoozedUntil: both at or after it, or both before it. Across the end of
    a snooze it can rise, as snooze leaves lastStretchTime where it was. *)
Theorem getRemainingMs_spec (now : Z) (t : StretchTimer) :
  (paused t = true -> getRemainingMs s now t = -1) /\
  (paused t = false -> now < snoozedUntil t ->
   getRemainingMs s now t = snoozedUntil t - now) /\
  (paused t = false -> ~ now < snoozedUntil t ->
   getRemainingMs s now t =
   Z.max 0 (stretchIntervalMinutes s * 60000 - (now - lastStretchTime t))) /\
  (paused t = false -> 0 <= getRemainingMs s now t) /\
  (getRemainingMs s now t < 0 ->
   paused t = true /\ getRemainingMs s now t = -1) /\
  (forall later, paused t = false -> snoozedUntil t <= now -> now <= later ->
   getRemainingMs s later t <= getRemainingMs s now t) /\
  (forall later, paused t = false -> now <= later -> later < snoozedUntil t ->
   getRemainingMs s later t <= getRemainingMs s now t).
Proof.
  unfold getRemainingMs.
  repeat split; intros.
  - rewrite H. reflexivity.
  - rewrite H. apply Z.ltb_lt in H0. rewrite H0. reflexivity.
  - rewrite H. apply Z.ltb_nlt in H0. rewrite H0. reflexivity.
  - rewrite H. destruct (Z.ltb_spec now (snoozedUntil t)); lia.
  - destruct (paused t); [reflexivity|].
    destruct (Z.ltb_spec now (snoozedUntil t)); lia.
  - destruct (paused t); [reflexivity|].
    destruct (Z.ltb_spec now (snoozedUntil t)); lia.
  - rewrite H.
    destruct (Z.ltb_spec now (snoozedUntil t)); [lia|].
    destruct (Z.ltb_spec later (snoozedUntil t)); lia.
  - rewrite H.
    destruct (Z.ltb_spec now (snoozedUntil t)); [|lia].
    destruct (Z.ltb_spec later (snoozedUntil t)); lia.
Qed.

(** Across the end of a snooze the remaining time can go up: the snooze
    leaves lastStretchTime where it was. *)
Remark getRemainingMs_rises_when_snooze_ends :
  let t := {| intervalHandle := Some 30000; lastStretchTime := 0;
              paused := false; snoozedUntil := 360000 |} in
  getRemainingMs defaults 359000 t = 1000 /\
  getRemainingMs defaults 360000 t = 1440000.
Proof. split; reflexivity. Qed.

Lemma origin_moves_only_by (o : Op) (t : StretchTimer) :
  (movesOrigin o = false ->
   lastStretchTime (apply s o t) = lastStretchTime t) /\
  (forall now, o = OpStart now \/ o = OpResume now \/ o = OpResetTimer now ->
   lastStretchTime (apply s o t) = now).
Proof.
  split.
  - destruct o; simpl; try discriminate; try reflexivity.
    intros _. unfold stop. destruct (intervalHandle t); reflexivity.
  - intros now [H | [H | H]]; subst o; reflexivity.
Qed.

(** C10. snooze changes snoozedUntil only, to now plus the snooze duration:
    lastStretchTime, paused and the interval handle stay. So when the
    interval had already elapsed at the snooze, every check before
    snoozedUntil is silent and the first one at or after it emits
    'stretch-due' at once. Of the operations, only start, resume and
    resetTimer move lastStretchTime. *)
Theorem snooze_frame (now : Z) (t : StretchTimer) :
  snoozedUntil (snooze s now t) = now + snoozeDurationMinutes s * 60000 /\
  lastStretchTime (snooze s now t) = lastStretchTime t /\
  paused (snooze s now t) = paused t /\
  intervalHandle (snooze s now t) = intervalHandle t /\
  (forall check,
     paused t = false ->
     now - lastStretchTime t >= stretchIntervalMinutes s * 60000 ->
     now <= check ->
     (check < snoozedUntil (snooze s now t) ->
      tick s check (snooze s now t) = [Tick]) /\
     (~ check < snoozedUntil (snooze s now t) ->
      tick s check (snooze s now t) = [Tick; StretchDue])) /\
  (forall o,
     lastStretchTime (apply s o t) <> lastStretchTime t ->
     exists at_, o = OpStart at_ \/ o = OpResume at_ \/ o = OpResetTimer at_).
Proof.
  repeat split; intros.
  - destruct (tick_cases check (snooze s now t)) as [(E & P & S & I) | (E & _)];
      [|exact E].
    simpl in *. lia.
  - destruct (tick_cases check (snooze s now t))
      as [(E & _) | (E & [P | [S | I]])]; [exact E | | |]; simpl in *.
    + congruence.
    + contradiction.
    + lia.
  - destruct o; try (eexists; eauto; fail); exfalso; apply H.
    + unfold apply, stop. destruct (intervalHandle t); reflexivity.
    + reflexivity.
    + reflexivity.
Qed.

End Scheduler.

(** ** The handler of 'stretch-due' *)

Section DueHandler.
Import Store Timer Tray.

Variable s : AppSettings.

Lemma silent_step (origin : Z) (e : Event) (m : TrayManager) :
  origin <= lastStretchTime (timer m) ->
  within s origin e ->
  origin <= lastStretchTime (timer (fst (step s e m))) /\
  (awaiting (fst (step s e m)) <= awaiting m)%nat /\
  ~ In StretchDue (snd (step s e m)).
Proof.
  intros Inv W. unfold within in W.
  destruct e as [now now' | | now | | now | isBusy]; simpl in *.
  - apply Forall_cons_iff in W. destruct W as [[Lo Hi] _].
    destruct (tick_cases s now (timer m)) as [(E & P & S & I) | (E & _)].
    + lia.
    + rewrite E. simpl. repeat split; auto. intros [A | [ ]]. discriminate A.
  - repeat split; auto.
  - apply Forall_cons_iff in W. destruct W as [[Lo Hi] _].
    repeat split; auto.
  - repeat split; auto.
  - repeat split; auto.
  - destruct (awaiting m) eqn:A; simpl; [rewrite A; repeat split; auto|].
    unfold onStretchDue_resume. rewrite A.
    destruct isBusy; simpl; repeat split; auto.
Qed.

Lemma silent_run (origin : Z) (es : list Event) :
  forall m,
    origin <= lastStretchTime (timer m) ->
    Forall (within s origin) es ->
    (awaiting (fst (run s es m)) <= awaiting m)%nat /\
    ~ In StretchDue (snd (run s es m)).
Proof.
  induction es as [|e rest IH]; intros m Inv W; simpl.
  - split; auto.
  - apply Forall_cons_iff in W. destruct W as [We Wrest].
    destruct (silent_step origin e m Inv We) as (Inv1 & A1 & N1).
    destruct (step s e m) as [m1 out1] eqn:E1. simpl in *.
    destruct (IH m1 Inv1 Wrest) as (A2 & N2).
    destruct (run s rest m1) as [m2 out2] eqn:E2. simpl in *.
    split; [apply (Nat.le_trans _ _ _ A2 A1)|].
    intros H. apply in_app_or in H. tauto.
Qed.

(** C5. resetTimer sets lastStretchTime to now and snoozedUntil to 0 and
    nothing else. The check that detects a due reminder runs onStretchDue
    up to its await within the same callback, and onStretchDue resets the
    timer first. From then on, whatever the event loop runs while the
    suppression check is awaited (further checks, pause, resume, snooze,
    other checks resolving), no check emits 'stretch-due' and no second
    suppression check is started, as long as the clock stays within one
    interval of the reset. Had the timer been left as it was, every later
    check would have emitted 'stretch-due' again. *)
Theorem reset_before_await (now now' : Z) (m : TrayManager)
  (es : list Event) :
  In StretchDue (tick s now (timer m)) ->
  Forall (within s now') es ->
  (forall at_ t,
     lastStretchTime (resetTimer at_ t) = at_ /\
     snoozedUntil (resetTimer at_ t) = 0 /\
     paused (resetTimer at_ t) = paused t /\
     intervalHandle (resetTimer at_ t) = intervalHandle t) /\
  step s (Interval now now') m =
    (onStretchDue_call now' m, [Tick; StretchDue]) /\
  timer (onStretchDue_call now' m) = resetTimer now' (timer m) /\
  awaiting (onStretchDue_call now' m) = S (awaiting m) /\
  ~ In StretchDue (snd (run s es (onStretchDue_call now' m))) /\
  (awaiting (fst (run s es (onStretchDue_call now' m)))
   <= S (awaiting m))%nat /\
  (forall later, now <= later -> In StretchDue (tick s later (timer m))).
Proof.
  intros Due W.
  split; [intros; repeat split|].
  split.
  { simpl. apply (tick_due_iff s) in Due.
    destruct (tick_cases s now (timer m)) as [(E & _) | (E & H)].
    - rewrite E. reflexivity.
    - exfalso. destruct Due as (P & S & I).
      destruct H as [H | [H | H]]; [congruence | lia | lia]. }
  split; [reflexivity|]. split; [reflexivity|].
  assert (Inv : now' <= lastStretchTime (timer (onStretchDue_call now' m)))
    by (simpl; lia).
  destruct (silent_run now' es _ Inv W) as (A & N).
  split; [exact N|]. split; [exact A|].
  intros later L. exact (due_persists s now later (timer m) L Due).
Qed.

End DueHandler.

(** ** Computations: what they read, what they leave, whether they return *)

Section Computations.
Import Store Heap.

Context {A B : Type}.

Lemma CacheFree_ret (a : A) : CacheFree (ret a).
Proof. intros c w. reflexivity. Qed.

Lemma CacheFree_throw (err : string) : CacheFree (@throw A err).
Proof. intros c w. reflexivity. Qed.

Lemma CacheFree_bind (m : M A) (k : A -> M B) :
  CacheFree m -> (forall a, CacheFree (k a)) -> CacheFree (bind m k).
Proof.
  intros Hm Hk c w. unfold bind. rewrite (Hm c w).
  destruct (m w) as [[a | err] w1]; simpl; [apply Hk | reflexivity].
Qed.

Lemma CacheFree_tryCatch (m : M A) (h : string -> M A) :
  CacheFree m -> (forall err, CacheFree (h err)) -> CacheFree (tryCatch m h).
Proof.
  intros Hm Hh c w. unfold tryCatch. rewrite (Hm c w).
  destruct (m w) as [[a | err] w1]; simpl; [reflexivity | apply Hh].
Qed.

Lemma CacheFree_gets (f : World -> A) :
  (forall c w, f (withCache c w) = f w) -> CacheFree (gets f).
Proof. intros Hf c w. unfold gets. simpl. rewrite Hf. reflexivity. Qed.

Lemma CacheFree_fetch (r : Net.Request)
  (server : Net.Env -> nat -> Net.Response A) :
  CacheFree (fetch r server).
Proof.
  intros c w. unfold fetch. simpl.
  change (sent (withCache c w)) with (sent w).
  destruct (server (env w) (sent w)); reflexivity.
Qed.

Lemma CacheFree_json (body : option A) : CacheFree (json body).
Proof. destruct body; intros c w; reflexivity. Qed.

Lemma Quiet_ret (a : A) : Quiet (ret a).
Proof. intros w. simpl. auto. Qed.

Lemma Quiet_throw (err : string) : Quiet (@throw A err).
Proof. intros w. simpl. auto. Qed.

Lemma Quiet_bind (m : M A) (k : A -> M B) :
  Quiet m -> (forall a, Quiet (k a)) -> Quiet (bind m k).
Proof.
  intros Hm Hk w. unfold bind. specialize (Hm w).
  destruct (m w) as [[a | err] w1]; simpl in *; [|exact Hm].
  destruct Hm as (E & C & N). destruct (Hk a w1) as (E' & C' & N').
  repeat split; congruence.
Qed.

Lemma Quiet_tryCatch (m : M A) (h : string -> M A) :
  Quiet m -> (forall err, Quiet (h err)) -> Quiet (tryCatch m h).
Proof.
  intros Hm Hh w. unfold tryCatch. specialize (Hm w).
  destruct (m w) as [[a | err] w1]; simpl in *; [exact Hm|].
  destruct Hm as (E & C & N). destruct (Hh err w1) as (E' & C' & N').
  repeat split; congruence.
Qed.

Lemma Quiet_gets (f : World -> A) : Quiet (gets f).
Proof. intros w. simpl. auto. Qed.

Lemma Quiet_fetch (r : Net.Request)
  (server : Net.Env -> nat -> Net.Response A) :
  Quiet (fetch r server).
Proof.
  intros w. unfold fetch.
  destruct (server (env w) (sent w)); simpl; auto.
Qed.

Lemma Quiet_json (body : option A) : Quiet (json body).
Proof. destruct body; intros w; simpl; auto. Qed.

Lemma Total_ret (a : A) : Total (ret a).
Proof. intros w. exists a. reflexivity. Qed.

Lemma Total_gets (f : World -> A) : Total (gets f).
Proof. intros w. exists (f w). reflexivity. Qed.

Lemma Total_bind (m : M A) (k : A -> M B) :
  Total m -> (forall a, Total (k a)) -> Total (bind m k).
Proof.
  intros Hm Hk w. unfold bind. destruct (Hm w) as [a Ea].
  destruct (m w) as [[a' | err] w1]; simpl in *; [apply Hk | discriminate].
Qed.

Lemma Total_tryCatch (m : M A) (h : string -> M A) :
  (forall err, Total (h err)) -> Total (tryCatch m h).
Proof.
  intros Hh w. unfold tryCatch.
  destruct (m w) as [[a | err] w1]; simpl; [exists a; reflexivity | apply Hh].
Qed.

End Computations.

Section Primitives.
Import Store Heap.

Lemma CacheFree_Date_now : CacheFree Date_now.
Proof. intros c w. reflexivity. Qed.

Lemma CacheFree_consoleError (msg : string) : CacheFree (consoleError msg).
Proof. intros c w. reflexivity. Qed.

Lemma CacheFree_updateSettings (partial : list Entry) :
  CacheFree (updateSettings partial).
Proof. intros c w. reflexivity. Qed.

Lemma CacheFree_withGoogle (g : GoogleState.t) :
  CacheFree (modify (withGoogle g)).
Proof. intros c w. reflexivity. Qed.

Lemma CacheFree_withOutlook (o : OutlookState.t) :
  CacheFree (modify (withOutlook o)).
Proof. intros c w. reflexivity. Qed.

Lemma Quiet_Date_now : Quiet Date_now.
Proof. intros w. simpl. auto. Qed.

Lemma Quiet_consoleError (msg : string) : Quiet (consoleError msg).
Proof. intros w. simpl. auto. Qed.

Lemma Quiet_updateSettings (partial : list Entry) :
  Quiet (updateSettings partial).
Proof. intros w. simpl. auto. Qed.

Lemma Quiet_withGoogle (g : GoogleState.t) : Quiet (modify (withGoogle g)).
Proof. intros w. simpl. auto. Qed.

Lemma Quiet_withOutlook (o : OutlookState.t) : Quiet (modify (withOutlook o)).
Proof. intros w. simpl. auto. Qed.

Lemma Total_consoleError (msg : string) : Total (consoleError msg).
Proof. intros w. exists tt. reflexivity. Qed.

End Primitives.

Create HintDb heap.

#[local] Hint Resolve CacheFree_ret CacheFree_throw CacheFree_fetch
  CacheFree_json CacheFree_Date_now CacheFree_consoleError
  CacheFree_updateSettings CacheFree_withGoogle CacheFree_withOutlook
  Quiet_ret Quiet_throw Quiet_gets Quiet_fetch Quiet_json Quiet_Date_now
  Quiet_consoleError Quiet_updateSettings Quiet_withGoogle Quiet_withOutlook
  Total_ret Total_gets Total_consoleError : heap.

(** One rule of the three disciplines at a time, by the shape of the
    computation. *)
Ltac compute_step :=
  match goal with
  | |- Heap.CacheFree (Heap.bind _ _) => apply CacheFree_bind; [|intro]
  | |- Heap.CacheFree (Heap.tryCatch _ _) => apply CacheFree_tryCatch; [|intro]
  | |- Heap.CacheFree (Heap.gets _) =>
      apply CacheFree_gets; intros; reflexivity
  | |- Heap.Quiet (Heap.bind _ _) => apply Quiet_bind; [|intro]
  | |- Heap.Quiet (Heap.tryCatch _ _) => apply Quiet_tryCatch; [|intro]
  | |- Heap.Total (Heap.bind _ _) => apply Total_bind; [|intro]
  | |- Heap.Total (Heap.tryCatch _ _) => apply Total_tryCatch; intro
  | |- context [if ?b then _ else _] => destruct b
  | |- context [match ?x with _ => _ end] => destruct x
  | |- _ => solve [auto with heap]
  end.

Ltac compute_all := repeat compute_step.

(** ** The two clients *)

Section Clients.
Import Store Heap.

Lemma google_isConnected_run (w : World) :
  GoogleCalendarClient.isConnected w =
  (Val (Js.hasField (googleTokens (settings w)) refresh_token), w).
Proof. reflexivity. Qed.

Lemma outlook_isConnected_run (w : World) :
  OutlookCalendarClient.isConnected w =
  (Val (Js.hasField (outlookTokens (settings w)) refreshToken), w).
Proof. reflexivity. Qed.

Lemma google_refresh_free : CacheFree GoogleCalendarClient.refreshAccessToken.
Proof.
  unfold GoogleCalendarClient.refreshAccessToken, getSettings. compute_all.
Qed.

Lemma google_refresh_quiet : Quiet GoogleCalendarClient.refreshAccessToken.
Proof.
  unfold GoogleCalendarClient.refreshAccessToken, getSettings. compute_all.
Qed.

Lemma google_token_free : CacheFree GoogleCalendarClient.getValidAccessToken.
Proof.
  unfold GoogleCalendarClient.getValidAccessToken.
  pose proof google_refresh_free. compute_all.
Qed.

Lemma google_token_quiet : Quiet GoogleCalendarClient.getValidAccessToken.
Proof.
  unfold GoogleCalendarClient.getValidAccessToken.
  pose proof google_refresh_quiet. compute_all.
Qed.

Lemma google_events_free (n : Z) :
  CacheFree (GoogleCalendarClient.getUpcomingEvents n).
Proof.
  unfold GoogleCalendarClient.getUpcomingEvents,
    GoogleCalendarClient.isConnected, getSettings.
  pose proof google_token_free. compute_all.
Qed.

Lemma google_events_quiet (n : Z) :
  Quiet (GoogleCalendarClient.getUpcomingEvents n).
Proof.
  unfold GoogleCalendarClient.getUpcomingEvents,
    GoogleCalendarClient.isConnected, getSettings.
  pose proof google_token_quiet. compute_all.
Qed.

Lemma google_events_total (n : Z) :
  Total (GoogleCalendarClient.getUpcomingEvents n).
Proof.
  unfold GoogleCalendarClient.getUpcomingEvents,
    GoogleCalendarClient.isConnected, getSettings.
  compute_all.
Qed.

Lemma outlook_refresh_free : CacheFree OutlookCalendarClient.refreshAccessToken.
Proof.
  unfold OutlookCalendarClient.refreshAccessToken, getSettings. compute_all.
Qed.

Lemma outlook_refresh_quiet : Quiet OutlookCalendarClient.refreshAccessToken.
Proof.
  unfold OutlookCalendarClient.refreshAccessToken, getSettings. compute_all.
Qed.

Lemma outlook_token_free : CacheFree OutlookCalendarClient.getValidAccessToken.
Proof.
  unfold OutlookCalendarClient.getValidAccessToken.
  pose proof outlook_refresh_free. compute_all.
Qed.

Lemma outlook_token_quiet : Quiet OutlookCalendarClient.getValidAccessToken.
Proof.
  unfold OutlookCalendarClient.getValidAccessToken.
  pose proof outlook_refresh_quiet. compute_all.
Qed.

Lemma outlook_toEvent_free parse (e : Net.OutlookItem) :
  CacheFree (OutlookCalendarClient.toEvent parse e).
Proof.
  unfold OutlookCalendarClient.toEvent, OutlookCalendarClient.instant.
  compute_all.
Qed.

Lemma outlook_toEvent_quiet parse (e : Net.OutlookItem) :
  Quiet (OutlookCalendarClient.toEvent parse e).
Proof.
  unfold OutlookCalendarClient.toEvent, OutlookCalendarClient.instant.
  compute_all.
Qed.

Lemma mapM_free {A B : Type} (f : A -> M B) (l : list A) :
  (forall x, CacheFree (f x)) -> CacheFree (OutlookCalendarClient.mapM f l).
Proof.
  intros Hf. induction l as [|x rest IH]; simpl; compute_all.
Qed.

Lemma mapM_quiet {A B : Type} (f : A -> M B) (l : list A) :
  (forall x, Quiet (f x)) -> Quiet (OutlookCalendarClient.mapM f l).
Proof.
  intros Hf. induction l as [|x rest IH]; simpl; compute_all.
Qed.

End Clients.

(** ** The token accessor *)

Section TokenLifecycle.
Import Store Heap.

Lemma truthy_iff (s : string) : Js.truthy s = true <-> s <> ""%string.
Proof.
  unfold Js.truthy. rewrite negb_true_iff.
  destruct (String.eqb_spec s ""); split; congruence.
Qed.

(** [getValidAccessToken] of the Google client, computed. *)
Lemma google_token_eval (w : World) :
  GoogleCalendarClient.getValidAccessToken w =
  let now := Net.clock (env w) (reads w) in
  let this := googleClient w in
  let w0 := withReads (S (reads w)) w in
  if (now >? GoogleState.expiryDate this - 60000)
     && Js.truthy (GoogleState.refreshToken this)
  then
    let w1 :=
      withEffect
        (Sent (Net.GoogleRefresh (GoogleState.refreshToken this)
                 (googleClientId (settings w)))) w0 in
    match Net.googleToken (env w) (sent w) with
    | Net.Failed => (Throw "fetch failed", w1)
    | Net.Reply false _ =>
        (Val (GoogleState.accessToken this),
         withEffect (ConsoleError "Google token refresh failed") w1)
    | Net.Reply true None => (Throw "Unexpected token in JSON", w1)
    | Net.Reply true (Some tokens) =>
        let expiry :=
          Net.clock (env w) (S (reads w)) + Net.expires_in tokens * 1000 in
        (Val (Net.access_token tokens),
         withSettings
           (Store.updateSettings
              [SetGoogleTokens
                 {| access_token := Net.access_token tokens;
                    refresh_token := GoogleState.refreshToken this;
                    expiry_date := expiry |}]
              (settings w))
           (withGoogle
              {| GoogleState.accessToken := Net.access_token tokens;
                 GoogleState.refreshToken := GoogleState.refreshToken this;
                 GoogleState.expiryDate := expiry |}
              (withReads (S (S (reads w))) w1)))
    end
  else (Val (GoogleState.accessToken this), w0).
Proof.
  unfold GoogleCalendarClient.getValidAccessToken,
    GoogleCalendarClient.refreshAccessToken, bind, Date_now, gets,
    getSettings, fetch, json, modify, updateSettings, consoleError, ret, throw.
  simpl.
  destruct (_ >? _); simpl; [|reflexivity].
  destruct (Js.truthy _); simpl; [|reflexivity].
  change (sent (withReads (S (reads w)) w)) with (sent w).
  destruct (Net.googleToken (env w) (sent w)) as [|[|] [tokens|]]; reflexivity.
Qed.

(** [getValidAccessToken] of the Outlook client, computed. *)
Lemma outlook_token_eval (w : World) :
  OutlookCalendarClient.getValidAccessToken w =
  let now := Net.clock (env w) (reads w) in
  let this := outlookClient w in
  let w0 := withReads (S (reads w)) w in
  if (now >? OutlookState.expiresOn this - 60000)
     && Js.truthy (OutlookState.refreshToken this)
  then
    let w1 :=
      withEffect
        (Sent (Net.OutlookRefresh (OutlookCalendarClient.tenant (settings w))
                 (OutlookState.refreshToken this)
                 (outlookClientId (settings w)))) w0 in
    match Net.outlookToken (env w) (sent w) with
    | Net.Failed => (Throw "fetch failed", w1)
    | Net.Reply false _ =>
        (Val (OutlookState.accessToken this),
         withEffect (ConsoleError "Outlook token refresh failed") w1)
    | Net.Reply true None => (Throw "Unexpected token in JSON", w1)
    | Net.Reply true (Some tokens) =>
        let expiry :=
          Net.clock (env w) (S (reads w)) + Net.expires_in tokens * 1000 in
        let refresh :=
          Js.orElse (Net.refresh_token tokens)
                    (OutlookState.refreshToken this) in
        (Val (Net.access_token tokens),
         withSettings
           (Store.updateSettings
              [SetOutlookTokens
                 {| accessToken := Net.access_token tokens;
                    refreshToken := refresh;
                    expiresOn := expiry |}]
              (settings w))
           (withOutlook
              {| OutlookState.accessToken := Net.access_token tokens;
                 OutlookState.refreshToken := refresh;
                 OutlookState.expiresOn := expiry |}
              (withReads (S (S (reads w))) w1)))
    end
  else (Val (OutlookState.accessToken this), w0).
Proof.
  unfold OutlookCalendarClient.getValidAccessToken,
    OutlookCalendarClient.refreshAccessToken, bind, Date_now, gets,
    getSettings, fetch, json, modify, updateSettings, consoleError, ret, throw.
  simpl.
  destruct (_ >? _); simpl; [|reflexivity].
  destruct (Js.truthy _); simpl; [|reflexivity].
  change (sent (withReads (S (reads w)) w)) with (sent w).
  destruct (Net.outlookToken (env w) (sent w)) as [|[|] [tokens|]]; reflexivity.
Qed.

Lemma late_iff (now expiry : Z) (refresh : string) :
  (now >? expiry - 60000) && Js.truthy refresh = true <->
  now > expiry - 60000 /\ refresh <> ""%string.
Proof.
  rewrite andb_true_iff, truthy_iff, Z.gtb_ltb, Z.ltb_lt.
  split; intros [L R]; split; auto; lia.
Qed.

Lemma google_token_sent (w : World) :
  sent (snd (GoogleCalendarClient.getValidAccessToken w)) =
  if (Net.clock (env w) (reads w)
      >? GoogleState.expiryDate (googleClient w) - 60000)
     && Js.truthy (GoogleState.refreshToken (googleClient w))
  then S (sent w) else sent w.
Proof.
  rewrite google_token_eval. cbv zeta.
  destruct (_ && _); [|reflexivity].
  destruct (Net.googleToken (env w) (sent w)) as [|[|] [tokens|]]; reflexivity.
Qed.

Lemma outlook_token_sent (w : World) :
  sent (snd (OutlookCalendarClient.getValidAccessToken w)) =
  if (Net.clock (env w) (reads w)
      >? OutlookState.expiresOn (outlookClient w) - 60000)
     && Js.truthy (OutlookState.refreshToken (outlookClient w))
  then S (sent w) else sent w.
Proof.
  rewrite outlook_token_eval. cbv zeta.
  destruct (_ && _); [|reflexivity].
  destruct (Net.outlookToken (env w) (sent w)) as [|[|] [tokens|]]; reflexivity.
Qed.

Lemma google_token_early (w : World) :
  Net.clock (env w) (reads w)
  <= GoogleState.expiryDate (googleClient w) - 60000 ->
  GoogleCalendarClient.getValidAccessToken w =
  (Val (GoogleState.accessToken (googleClient w)), withReads (S (reads w)) w).
Proof.
  intros Early. rewrite google_token_eval. cbv zeta.
  replace (_ >? _) with false; [reflexivity|].
  symmetry. rewrite Z.gtb_ltb. apply Z.ltb_ge. exact Early.
Qed.

Lemma outlook_token_early (w : World) :
  Net.clock (env w) (reads w)
  <= OutlookState.expiresOn (outlookClient w) - 60000 ->
  OutlookCalendarClient.getValidAccessToken w =
  (Val (OutlookState.accessToken (outlookClient w)), withReads (S (reads w)) w).
Proof.
  intros Early. rewrite outlook_token_eval. cbv zeta.
  replace (_ >? _) with false; [reflexivity|].
  symmetry. rewrite Z.gtb_ltb. apply Z.ltb_ge. exact Early.
Qed.

Lemma google_token_failure (w : World) :
  GoogleState.refreshToken (googleClient w) = ""%string \/
  (exists body, Net.googleToken (env w) (sent w) = Net.Reply false body) ->
  fst (GoogleCalendarClient.getValidAccessToken w) =
  Val (GoogleState.accessToken (googleClient w)) /\
  googleClient (snd (GoogleCalendarClient.getValidAccessToken w)) =
  googleClient w /\
  settings (snd (GoogleCalendarClient.getValidAccessToken w)) = settings w.
Proof.
  intros H. rewrite google_token_eval. cbv zeta.
  destruct (_ >? _); simpl; [|repeat split].
  destruct (Js.truthy _) eqn:T; [|repeat split].
  destruct H as [E | (body & E)].
  - rewrite E in T. discriminate T.
  - rewrite E. repeat split.
Qed.

Lemma outlook_token_failure (w : World) :
  OutlookState.refreshToken (outlookClient w) = ""%string \/
  (exists body, Net.outlookToken (env w) (sent w) = Net.Reply false body) ->
  fst (OutlookCalendarClient.getValidAccessToken w) =
  Val (OutlookState.accessToken (outlookClient w)) /\
  outlookClient (snd (OutlookCalendarClient.getValidAccessToken w)) =
  outlookClient w /\
  settings (snd (OutlookCalendarClient.getValidAccessToken w)) = settings w.
Proof.
  intros H. rewrite outlook_token_eval. cbv zeta.
  destruct (_ >? _); simpl; [|repeat split].
  destruct (Js.truthy _) eqn:T; [|repeat split].
  destruct H as [E | (body & E)].
  - rewrite E in T. discriminate T.
  - rewrite E. repeat split.
Qed.

(** C8, as the code has it. getValidAccessToken refreshes exactly when now
    is strictly later than expiry - 60 s: at now = expiry - 60 s, and
    before, it returns the token it holds and sends nothing. Past that
    instant it sends one token request when it holds a refresh token and
    none when it holds none. When the refresh fails (no refresh token, or
    a status that is not a success), the access token, the refresh token and
    the expiry stay as they were in the client and in the store, and the
    access token held before is returned. This for Google and for
    Outlook. *)
Theorem getValidAccessToken_refresh (w : World) :
  ((Net.clock (env w) (reads w)
    <= GoogleState.expiryDate (googleClient w) - 60000 ->
    GoogleCalendarClient.getValidAccessToken w =
    (Val (GoogleState.accessToken (googleClient w)),
     withReads (S (reads w)) w)) /\
   (sent (snd (GoogleCalendarClient.getValidAccessToken w)) = S (sent w) <->
    Net.clock (env w) (reads w)
    > GoogleState.expiryDate (googleClient w) - 60000 /\
    GoogleState.refreshToken (googleClient w) <> ""%string) /\
   (sent (snd (GoogleCalendarClient.getValidAccessToken w)) = sent w \/
    sent (snd (GoogleCalendarClient.getValidAccessToken w)) = S (sent w)) /\
   (GoogleState.refreshToken (googleClient w) = ""%string \/
    (exists body, Net.googleToken (env w) (sent w) = Net.Reply false body) ->
    fst (GoogleCalendarClient.getValidAccessToken w) =
    Val (GoogleState.accessToken (googleClient w)) /\
    googleClient (snd (GoogleCalendarClient.getValidAccessToken w)) =
    googleClient w /\
    settings (snd (GoogleCalendarClient.getValidAccessToken w)) =
    settings w)) /\
  ((Net.clock (env w) (reads w)
    <= OutlookState.expiresOn (outlookClient w) - 60000 ->
    OutlookCalendarClient.getValidAccessToken w =
    (Val (OutlookState.accessToken (outlookClient w)),
     withReads (S (reads w)) w)) /\
   (sent (snd (OutlookCalendarClient.getValidAccessToken w)) = S (sent w) <->
    Net.clock (env w) (reads w)
    > OutlookState.expiresOn (outlookClient w) - 60000 /\
    OutlookState.refreshToken (outlookClient w) <> ""%string) /\
   (sent (snd (OutlookCalendarClient.getValidAccessToken w)) = sent w \/
    sent (snd (OutlookCalendarClient.getValidAccessToken w)) = S (sent w)) /\
   (OutlookState.refreshToken (outlookClient w) = ""%string \/
    (exists body, Net.outlookToken (env w) (sent w) = Net.Reply false body) ->
    fst (OutlookCalendarClient.getValidAccessToken w) =
    Val (OutlookState.accessToken (outlookClient w)) /\
    outlookClient (snd (OutlookCalendarClient.getValidAccessToken w)) =
    outlookClient w /\
    settings (snd (OutlookCalendarClient.getValidAccessToken w)) =
    settings w)).
Proof.
  split.
  - split; [apply google_token_early|].
    rewrite google_token_sent, <- late_iff.
    split; [|split; [|apply google_token_failure]]; destruct (_ && _); auto.
    + split; reflexivity.
    + split; [intros E; lia | discriminate].
  - split; [apply outlook_token_early|].
    rewrite outlook_token_sent, <- late_iff.
    split; [|split; [|apply outlook_token_failure]]; destruct (_ && _); auto.
    + split; reflexivity.
    + split; [intros E; lia | discriminate].
Qed.

(** C8 as stated fails at the boundary: with now = expiry - 60 s, a refresh
    token in hand and a token server ready to answer, neither client sends
    anything. *)
Lemma getValidAccessToken_boundary :
  let w := Examples.world 940000 true Examples.connected [] 0 in
  Net.clock (env w) (reads w)
  = GoogleState.expiryDate (googleClient w) - 60000 /\
  GoogleState.refreshToken (googleClient w) <> ""%string /\
  trace (snd (GoogleCalendarClient.getValidAccessToken w)) = [] /\
  Net.clock (env w) (reads w)
  = OutlookState.expiresOn (outlookClient w) - 60000 /\
  OutlookState.refreshToken (outlookClient w) <> ""%string /\
  trace (snd (OutlookCalendarClient.getValidAccessToken w)) = [].
Proof.
  cbv zeta. repeat split; try reflexivity; simpl; discriminate.
Qed.

End TokenLifecycle.

Section ProviderFetch.
Import Store Heap.

Lemma outlook_events_free (n : Z) :
  CacheFree (OutlookCalendarClient.getUpcomingEvents n).
Proof.
  unfold OutlookCalendarClient.getUpcomingEvents,
    OutlookCalendarClient.isConnected, getSettings.
  pose proof outlook_token_free.
  pose proof (fun p l => mapM_free _ l (outlook_toEvent_free p)).
  compute_all.
Qed.

Lemma outlook_events_quiet (n : Z) :
  Quiet (OutlookCalendarClient.getUpcomingEvents n).
Proof.
  unfold OutlookCalendarClient.getUpcomingEvents,
    OutlookCalendarClient.isConnected, getSettings.
  pose proof outlook_token_quiet.
  pose proof (fun p l => mapM_quiet _ l (outlook_toEvent_quiet p)).
  compute_all.
Qed.

Lemma outlook_events_total (n : Z) :
  Total (OutlookCalendarClient.getUpcomingEvents n).
Proof.
  unfold OutlookCalendarClient.getUpcomingEvents,
    OutlookCalendarClient.isConnected, getSettings.
  compute_all.
Qed.

(** With the Google calendar server failing, the client returns no event,
    and returns. *)
Lemma google_events_down (n : Z) (w : World) :
  (forall k, Net.failing (Net.googleCalendar (env w) k)) ->
  fst (GoogleCalendarClient.getUpcomingEvents n w) = Val [].
Proof.
  intros Down. unfold GoogleCalendarClient.getUpcomingEvents.
  unfold bind at 1. rewrite google_isConnected_run.
  destruct (Js.hasField _ _); [|reflexivity]. simpl.
  unfold tryCatch. unfold bind at 1.
  destruct (google_token_quiet w) as (E & _).
  destruct (GoogleCalendarClient.getValidAccessToken w) as [[tok | err] w1];
    [|reflexivity].
  simpl in E. unfold bind at 1. simpl. unfold bind at 1. unfold fetch. simpl.
  change (sent (withReads (S (reads w1)) w1)) with (sent w1).
  specialize (Down (sent w1)). rewrite E.
  destruct (Net.googleCalendar (env w) (sent w1)) as [|ok body]; simpl in *;
    [reflexivity|].
  subst ok. reflexivity.
Qed.

Lemma outlook_events_down (n : Z) (w : World) :
  (forall k, Net.failing (Net.outlookCalendar (env w) k)) ->
  fst (OutlookCalendarClient.getUpcomingEvents n w) = Val [].
Proof.
  intros Down. unfold OutlookCalendarClient.getUpcomingEvents.
  unfold bind at 1. rewrite outlook_isConnected_run.
  destruct (Js.hasField _ _); [|reflexivity]. simpl.
  unfold tryCatch. unfold bind at 1.
  destruct (outlook_token_quiet w) as (E & _).
  destruct (OutlookCalendarClient.getValidAccessToken w) as [[tok | err] w1];
    [|reflexivity].
  simpl in E. unfold bind at 1. simpl. unfold bind at 1. unfold fetch. simpl.
  change (sent (withReads (S (reads w1)) w1)) with (sent w1).
  specialize (Down (sent w1)). rewrite E.
  destruct (Net.outlookCalendar (env w) (sent w1)) as [|ok body]; simpl in *;
    [reflexivity|].
  subst ok. reflexivity.
Qed.

(** With the token server unreachable when a refresh is due, the client
    returns no event, and returns. *)
Lemma google_events_refresh_down (n : Z) (w : World) :
  Net.clock (env w) (reads w)
  > GoogleState.expiryDate (googleClient w) - 60000 ->
  GoogleState.refreshToken (googleClient w) <> ""%string ->
  Net.googleToken (env w) (sent w) = Net.Failed ->
  fst (GoogleCalendarClient.getUpcomingEvents n w) = Val [].
Proof.
  intros L R F. unfold GoogleCalendarClient.getUpcomingEvents.
  unfold bind at 1. rewrite google_isConnected_run.
  destruct (Js.hasField _ _); [|reflexivity]. simpl.
  unfold tryCatch. unfold bind at 1.
  rewrite google_token_eval. cbv zeta.
  rewrite (proj2 (late_iff _ _ _) (conj L R)), F. reflexivity.
Qed.

Lemma outlook_events_refresh_down (n : Z) (w : World) :
  Net.clock (env w) (reads w)
  > OutlookState.expiresOn (outlookClient w) - 60000 ->
  OutlookState.refreshToken (outlookClient w) <> ""%string ->
  Net.outlookToken (env w) (sent w) = Net.Failed ->
  fst (OutlookCalendarClient.getUpcomingEvents n w) = Val [].
Proof.
  intros L R F. unfold OutlookCalendarClient.getUpcomingEvents.
  unfold bind at 1. rewrite outlook_isConnected_run.
  destruct (Js.hasField _ _); [|reflexivity]. simpl.
  unfold tryCatch. unfold bind at 1.
  rewrite outlook_token_eval. cbv zeta.
  rewrite (proj2 (late_iff _ _ _) (conj L R)), F. reflexivity.
Qed.

End ProviderFetch.

(** ** The fetch cycle *)

Section FetchCycle.
Import Store Heap CalendarManager.

Variable isConnected : M bool.
Variable getUpcomingEvents : Z -> M (list CalendarEvent).

Lemma contribution_free (enabled : bool) :
  CacheFree isConnected -> (forall n, CacheFree (getUpcomingEvents n)) ->
  CacheFree (contribution enabled isConnected getUpcomingEvents).
Proof. intros Hc Hg. unfold contribution. compute_all. Qed.

Lemma contribution_quiet (enabled : bool) :
  Quiet isConnected -> (forall n, Quiet (getUpcomingEvents n)) ->
  Quiet (contribution enabled isConnected getUpcomingEvents).
Proof. intros Hc Hg. unfold contribution. compute_all. Qed.

Lemma contribution_total (enabled : bool) :
  Total isConnected -> (forall n, Total (getUpcomingEvents n)) ->
  Total (contribution enabled isConnected getUpcomingEvents).
Proof. intros Hc Hg. unfold contribution. compute_all. Qed.

Lemma contribution_skipped (enabled connected : bool) (w : World) :
  isConnected w = (Val connected, w) ->
  enabled = false \/ connected = false ->
  contribution enabled isConnected getUpcomingEvents w = (Val [], w).
Proof.
  intros E H. unfold contribution. destruct enabled; [|reflexivity].
  unfold bind. rewrite E. destruct H as [H | H]; [discriminate|].
  subst connected. reflexivity.
Qed.

Lemma contribution_down (enabled connected : bool) (w : World) :
  isConnected w = (Val connected, w) ->
  fst (getUpcomingEvents 120 w) = Val [] ->
  fst (contribution enabled isConnected getUpcomingEvents w) = Val [].
Proof.
  intros E H. unfold contribution. destruct enabled; [|reflexivity].
  unfold bind. rewrite E. destruct connected; [exact H | reflexivity].
Qed.

Lemma block_run (enabled : bool) (acc : list CalendarEvent) (w : World) :
  (if enabled
   then
     connected <- isConnected ;;
     if connected
     then events <- getUpcomingEvents 120 ;; ret (acc ++ events)
     else ret acc
   else ret acc) w =
  match contribution enabled isConnected getUpcomingEvents w with
  | (Val l, w') => (Val (acc ++ l), w')
  | (Throw err, w') => (Throw err, w')
  end.
Proof.
  unfold contribution, bind, ret.
  destruct enabled; [|rewrite app_nil_r; reflexivity].
  destruct (isConnected w) as [[[|] | err] w1]; try reflexivity.
  rewrite app_nil_r; reflexivity.
Qed.

End FetchCycle.

(** ** The aggregator *)

Section Aggregator.
Import Store Heap CalendarManager.

Lemma lteq_iff (a b : Js.Date) : Js.lteq a b = true <-> Js.Lteq a b.
Proof.
  destruct a as [x|], b as [y|]; simpl; try (split; [discriminate | tauto]).
  apply Z.leb_le.
Qed.

Lemma gt_iff (a b : Js.Date) : Js.gt a b = true <-> Js.Gt a b.
Proof.
  destruct a as [x|], b as [y|]; simpl; try (split; [discriminate | tauto]).
  rewrite Z.gtb_ltb, Z.ltb_lt. lia.
Qed.

Lemma busyb_iff (s : AppSettings) (now bufferMinutes : Z) (e : CalendarEvent) :
  busyb s (Some now) (Some (now + bufferMinutes * 60000)) e = true <->
  Busy s now bufferMinutes e.
Proof.
  unfold busyb, Busy.
  rewrite !andb_true_iff, orb_true_iff, !andb_true_iff, !negb_true_iff,
    !lteq_iff, !gt_iff, andb_false_iff, negb_false_iff.
  destruct (String.eqb_spec (status e) "tentative") as [T | T];
    destruct (String.eqb_spec (status e) "free") as [F | F];
    destruct (blockOnTentative s); intuition congruence.
Qed.

Lemma scan_existsb (s : AppSettings) (now bufferEnd : Js.Date)
  (evs : list CalendarEvent) :
  scan s now bufferEnd evs = existsb (busyb s now bufferEnd) evs.
Proof.
  induction evs as [|e rest IH]; [reflexivity|].
  simpl. unfold busyb at 1. rewrite IH.
  destruct (negb (blockOnTentative s) && (status e =? "tentative")%string);
    [reflexivity|].
  destruct (status e =? "free")%string; [reflexivity|]. simpl.
  destruct (Js.lteq (start e) now && Js.gt (end_ e) now); [reflexivity|].
  destruct (Js.gt (start e) now && Js.lteq (start e) bufferEnd); reflexivity.
Qed.

Lemma scan_iff (s : AppSettings) (now bufferMinutes : Z)
  (evs : list CalendarEvent) :
  scan s (Some now) (Some (now + bufferMinutes * 60000)) evs = true <->
  exists e, In e evs /\ Busy s now bufferMinutes e.
Proof.
  rewrite scan_existsb, existsb_exists.
  split; intros (e & I & H); exists e; split; auto; apply busyb_iff; exact H.
Qed.

Lemma scan_permutation (s : AppSettings) (now bufferEnd : Js.Date)
  (evs evs' : list CalendarEvent) :
  Permutation evs evs' -> scan s now bufferEnd evs = scan s now bufferEnd evs'.
Proof.
  intros P. rewrite !scan_existsb.
  induction P as [| x l l' _ IH | x y l | l l' l'' _ IH1 _ IH2]; simpl.
  - reflexivity.
  - rewrite IH. reflexivity.
  - rewrite !orb_assoc, (orb_comm (busyb s now bufferEnd y)). reflexivity.
  - congruence.
Qed.

Lemma isBusy_fresh (w : World) (bufferMinutes : Z) :
  Net.clock (env w) (reads w) - fetchedAt (cache w) <= CACHE_TTL ->
  isBusyOrMeetingSoon bufferMinutes w =
  (Val (scan (settings w)
          (Some (Net.clock (env w) (S (reads w))))
          (Some (Net.clock (env w) (S (reads w)) + bufferMinutes * 60000))
          (events (cache w))),
   withReads (S (S (reads w))) w).
Proof.
  intros Fresh. unfold isBusyOrMeetingSoon.
  unfold bind at 1. simpl. unfold bind at 1. simpl. unfold bind at 1.
  replace (Net.clock (env w) (reads w) - fetchedAt (cache w) >? CACHE_TTL)
    with false by (symmetry; rewrite Z.gtb_ltb; apply Z.ltb_ge; exact Fresh).
  reflexivity.
Qed.

Lemma isBusy_stale (w w1 : World) (bufferMinutes : Z) :
  Net.clock (env w) (reads w) - fetchedAt (cache w) > CACHE_TTL ->
  fetchEvents (withReads (S (reads w)) w) = (Val tt, w1) ->
  isBusyOrMeetingSoon bufferMinutes w =
  (Val (scan (settings w1)
          (Some (Net.clock (env w1) (reads w1)))
          (Some (Net.clock (env w1) (reads w1) + bufferMinutes * 60000))
          (events (cache w1))),
   withReads (S (reads w1)) w1).
Proof.
  intros Stale Run. unfold isBusyOrMeetingSoon.
  unfold bind at 1. simpl. unfold bind at 1. simpl. unfold bind at 1.
  replace (Net.clock (env w) (reads w) - fetchedAt (cache w) >? CACHE_TTL)
    with true by (symmetry; rewrite Z.gtb_ltb; apply Z.ltb_lt; lia).
  rewrite Run. reflexivity.
Qed.

Lemma fetchEvents_run (w w1 w2 : World) (g o : list CalendarEvent) :
  contribution (google (calendarProviders (settings w)))
    GoogleCalendarClient.isConnected GoogleCalendarClient.getUpcomingEvents w
  = (Val g, w1) ->
  contribution (outlook (calendarProviders (settings w)))
    OutlookCalendarClient.isConnected OutlookCalendarClient.getUpcomingEvents w1
  = (Val o, w2) ->
  fetchEvents w =
  (Val tt,
   withEffect CacheReplaced
     (withCache {| events := g ++ o;
                   fetchedAt := Net.clock (env w2) (reads w2) |}
        (withReads (S (reads w2)) w2))).
Proof.
  intros G O. unfold fetchEvents.
  unfold bind at 1. unfold getSettings, gets.
  unfold bind at 1. rewrite block_run, G. simpl.
  unfold bind at 1. rewrite block_run, O. reflexivity.
Qed.

Lemma google_contribution_runs (enabled : bool) (w : World) :
  exists g w1,
    contribution enabled GoogleCalendarClient.isConnected
      GoogleCalendarClient.getUpcomingEvents w = (Val g, w1) /\
    env w1 = env w /\ cache w1 = cache w /\ cycles w1 = cycles w.
Proof.
  pose proof (contribution_total GoogleCalendarClient.isConnected
                GoogleCalendarClient.getUpcomingEvents enabled) as T.
  pose proof (contribution_quiet GoogleCalendarClient.isConnected
                GoogleCalendarClient.getUpcomingEvents enabled) as Q.
  destruct (T ltac:(unfold GoogleCalendarClient.isConnected, getSettings;
                    compute_all) google_events_total w) as [g Eg].
  specialize (Q ltac:(unfold GoogleCalendarClient.isConnected, getSettings;
                      compute_all) google_events_quiet w).
  destruct (contribution _ _ _ w) as [r w1]. simpl in *. subst r.
  exists g, w1. tauto.
Qed.

Lemma outlook_contribution_runs (enabled : bool) (w : World) :
  exists o w1,
    contribution enabled OutlookCalendarClient.isConnected
      OutlookCalendarClient.getUpcomingEvents w = (Val o, w1) /\
    env w1 = env w /\ cache w1 = cache w /\ cycles w1 = cycles w.
Proof.
  pose proof (contribution_total OutlookCalendarClient.isConnected
                OutlookCalendarClient.getUpcomingEvents enabled) as T.
  pose proof (contribution_quiet OutlookCalendarClient.isConnected
                OutlookCalendarClient.getUpcomingEvents enabled) as Q.
  destruct (T ltac:(unfold OutlookCalendarClient.isConnected, getSettings;
                    compute_all) outlook_events_total w) as [o Eo].
  specialize (Q ltac:(unfold OutlookCalendarClient.isConnected, getSettings;
                      compute_all) outlook_events_quiet w).
  destruct (contribution _ _ _ w) as [r w1]. simpl in *. subst r.
  exists o, w1. tauto.
Qed.

End Aggregator.

Section Availability.
Import Store Heap CalendarManager.

(** Whatever the cache held, a cycle ends in the same world. *)
Lemma fetchEvents_wholesale (c : CachedEvents) (w : World) :
  fetchEvents (withCache c w) = fetchEvents w.
Proof.
  destruct (google_contribution_runs
              (google (calendarProviders (settings w))) w)
    as (g & w1 & G & _).
  destruct (outlook_contribution_runs
              (outlook (calendarProviders (settings w))) w1)
    as (o & w2 & O & _).
  rewrite (fetchEvents_run w w1 w2 g o G O).
  rewrite (fetchEvents_run (withCache c w) (withCache c w1) (withCache c w2)
             g o).
  - reflexivity.
  - simpl settings.
    rewrite (contribution_free GoogleCalendarClient.isConnected
               GoogleCalendarClient.getUpcomingEvents _
               ltac:(unfold GoogleCalendarClient.isConnected, getSettings;
                     compute_all)
               google_events_free c w).
    rewrite G. reflexivity.
  - simpl settings.
    rewrite (contribution_free OutlookCalendarClient.isConnected
               OutlookCalendarClient.getUpcomingEvents _
               ltac:(unfold OutlookCalendarClient.isConnected, getSettings;
                     compute_all)
               outlook_events_free c w1).
    rewrite O. reflexivity.
Qed.

(** C7. A fetch cycle always completes. It replaces the cache by the events
    Google returned followed by those Outlook returned, stamped with the
    clock read at that moment, whatever the cache held before. A provider
    that is disabled or has no persisted refresh token is not asked and
    adds nothing. A provider whose calendar request fails (no answer, or a
    status that is not a success), or whose token request gets no answer
    when a refresh is due, adds nothing, and the events of the other
    provider are published all the same. *)
Theorem fetchEvents_replaces (w : World) :
  exists g w1 o w2,
    contribution (google (calendarProviders (settings w)))
      GoogleCalendarClient.isConnected GoogleCalendarClient.getUpcomingEvents
      w = (Val g, w1) /\
    contribution (outlook (calendarProviders (settings w)))
      OutlookCalendarClient.isConnected
      OutlookCalendarClient.getUpcomingEvents w1 = (Val o, w2) /\
    fetchEvents w =
      (Val tt,
       withEffect CacheReplaced
         (withCache {| events := g ++ o;
                       fetchedAt := Net.clock (env w) (reads w2) |}
            (withReads (S (reads w2)) w2))) /\
    (forall c, fetchEvents (withCache c w) = fetchEvents w) /\
    (google (calendarProviders (settings w)) = false \/
     Js.hasField (googleTokens (settings w)) refresh_token = false ->
     g = [] /\ w1 = w) /\
    (outlook (calendarProviders (settings w)) = false \/
     Js.hasField (outlookTokens (settings w1)) refreshToken = false ->
     o = [] /\ w2 = w1) /\
    ((forall k, Net.failing (Net.googleCalendar (env w) k)) -> g = []) /\
    ((forall k, Net.failing (Net.outlookCalendar (env w) k)) -> o = []) /\
    (Net.clock (env w) (reads w)
     > GoogleState.expiryDate (googleClient w) - 60000 ->
     GoogleState.refreshToken (googleClient w) <> ""%string ->
     Net.googleToken (env w) (sent w) = Net.Failed ->
     g = []) /\
    (Net.clock (env w1) (reads w1)
     > OutlookState.expiresOn (outlookClient w1) - 60000 ->
     OutlookState.refreshToken (outlookClient w1) <> ""%string ->
     Net.outlookToken (env w1) (sent w1) = Net.Failed ->
     o = []).
Proof.
  destruct (google_contribution_runs
              (google (calendarProviders (settings w))) w)
    as (g & w1 & G & E1 & _).
  destruct (outlook_contribution_runs
              (outlook (calendarProviders (settings w))) w1)
    as (o & w2 & O & E2 & _).
  exists g, w1, o, w2.
  split; [exact G|]. split; [exact O|].
  split; [rewrite (fetchEvents_run w w1 w2 g o G O); congruence|].
  split; [intro c; apply fetchEvents_wholesale|].
  split; [|split; [|split; [|split; [|split]]]].
  - intros H.
    rewrite (contribution_skipped _ _ _ _ w (google_isConnected_run w) H) in G.
    inversion G. auto.
  - intros H.
    rewrite (contribution_skipped _ _ _ _ w1 (outlook_isConnected_run w1) H)
      in O.
    inversion O. auto.
  - intros Down.
    pose proof (contribution_down _ _
                  (google (calendarProviders (settings w))) _ w
                  (google_isConnected_run w)
                  (google_events_down 120 w Down)) as D.
    rewrite G in D. simpl in D. congruence.
  - intros Down. rewrite <- E1 in Down.
    pose proof (contribution_down _ _
                  (outlook (calendarProviders (settings w))) _ w1
                  (outlook_isConnected_run w1)
                  (outlook_events_down 120 w1 Down)) as D.
    rewrite O in D. simpl in D. congruence.
  - intros L R F.
    pose proof (contribution_down _ _
                  (google (calendarProviders (settings w))) _ w
                  (google_isConnected_run w)
                  (google_events_refresh_down 120 w L R F)) as D.
    rewrite G in D. simpl in D. congruence.
  - intros L R F.
    pose proof (contribution_down _ _
                  (outlook (calendarProviders (settings w))) _ w1
                  (outlook_isConnected_run w1)
                  (outlook_events_refresh_down 120 w1 L R F)) as D.
    rewrite O in D. simpl in D. congruence.
Qed.

(** C2. With a fresh cache, isBusyOrMeetingSoon returns without fetching, and
    returns true exactly when some cached event is not free, is not
    tentative unless blockOnTentative is set, and either is in progress
    (start <= now < end) or starts within the buffer
    (now < start <= now + bufferMinutes); an Invalid Date satisfies no
    comparison. The answer is the same for every order of the cached
    events. *)
Theorem isBusyOrMeetingSoon_fresh (w : World) (bufferMinutes : Z) :
  Net.clock (env w) (reads w) - fetchedAt (cache w) <= CACHE_TTL ->
  exists b,
    isBusyOrMeetingSoon bufferMinutes w
    = (Val b, withReads (S (S (reads w))) w) /\
    (b = true <->
     exists e, In e (events (cache w)) /\
               Busy (settings w) (Net.clock (env w) (S (reads w)))
                    bufferMinutes e) /\
    (forall evs,
       Permutation (events (cache w)) evs ->
       fst (isBusyOrMeetingSoon bufferMinutes
              (withCache {| events := evs;
                            fetchedAt := fetchedAt (cache w) |} w))
       = Val b).
Proof.
  intros Fresh. eexists. split; [apply isBusy_fresh; exact Fresh|].
  split; [apply scan_iff|].
  intros evs P. rewrite isBusy_fresh by exact Fresh. simpl.
  rewrite (scan_permutation _ _ _ _ _ P). reflexivity.
Qed.

(** C6. Called with a cache older than CACHE_TTL (5 minutes),
    isBusyOrMeetingSoon runs one fetch cycle, and only one, before it scans,
    and what it scans is the events of that cycle: the answer does not
    depend on the events cached before. Called with a fresh cache it scans
    the cache as it is: no cycle is run and no request is sent. *)
Theorem isBusyOrMeetingSoon_refreshes (w : World) (bufferMinutes : Z) :
  (Net.clock (env w) (reads w) - fetchedAt (cache w) > CACHE_TTL ->
   exists w1,
     fetchEvents (withReads (S (reads w)) w) = (Val tt, w1) /\
     cycles w1 = S (cycles w) /\
     isBusyOrMeetingSoon bufferMinutes w =
       (Val (scan (settings w1)
               (Some (Net.clock (env w1) (reads w1)))
               (Some (Net.clock (env w1) (reads w1) + bufferMinutes * 60000))
               (events (cache w1))),
        withReads (S (reads w1)) w1) /\
     cycles (snd (isBusyOrMeetingSoon bufferMinutes w)) = S (cycles w) /\
     (forall evs,
        isBusyOrMeetingSoon bufferMinutes
          (withCache {| events := evs; fetchedAt := fetchedAt (cache w) |} w)
        = isBusyOrMeetingSoon bufferMinutes w)) /\
  (Net.clock (env w) (reads w) - fetchedAt (cache w) <= CACHE_TTL ->
   isBusyOrMeetingSoon bufferMinutes w =
     (Val (scan (settings w)
             (Some (Net.clock (env w) (S (reads w))))
             (Some (Net.clock (env w) (S (reads w)) + bufferMinutes * 60000))
             (events (cache w))),
      withReads (S (S (reads w))) w) /\
   cycles (snd (isBusyOrMeetingSoon bufferMinutes w)) = cycles w /\
   sent (snd (isBusyOrMeetingSoon bufferMinutes w)) = sent w /\
   cache (snd (isBusyOrMeetingSoon bufferMinutes w)) = cache w).
Proof.
  split.
  - intros Stale.
    set (w0 := withReads (S (reads w)) w).
    destruct (google_contribution_runs
                (google (calendarProviders (settings w0))) w0)
      as (g & w1 & G & _ & _ & N1).
    destruct (outlook_contribution_runs
                (outlook (calendarProviders (settings w0))) w1)
      as (o & w2 & O & _ & _ & N2).
    pose proof (fetchEvents_run w0 w1 w2 g o G O) as Run.
    eexists. split; [exact Run|].
    assert (C : cycles
                  (withEffect CacheReplaced
                     (withCache {| events := g ++ o;
                                   fetchedAt := Net.clock (env w2) (reads w2) |}
                        (withReads (S (reads w2)) w2))) = S (cycles w)).
    { change (S (cycles w2) = S (cycles w)). rewrite N2, N1. reflexivity. }
    split; [exact C|].
    split; [apply (isBusy_stale w _ bufferMinutes Stale Run)|].
    split.
    + rewrite (isBusy_stale w _ bufferMinutes Stale Run). exact C.
    + intros evs.
      rewrite (isBusy_stale w _ bufferMinutes Stale Run).
      apply isBusy_stale; [exact Stale|].
      change (withReads (S (reads _)) (withCache ?c w))
        with (withCache c w0).
      rewrite fetchEvents_wholesale. exact Run.
  - intros Fresh. rewrite (isBusy_fresh w bufferMinutes Fresh).
    repeat split.
Qed.

End Availability.


(** ** The connected status *)

Section Connected.
Import Store Heap.

Lemma hasField_iff {A : Type} (o : option A) (f : A -> string) :
  Js.hasField o f = true <-> exists x, o = Some x /\ f x <> ""%string.
Proof.
  destruct o as [x|]; simpl.
  - rewrite truthy_iff. split.
    + intros H. exists x. auto.
    + intros (y & E & H). inversion E. subst y. exact H.
  - split; [discriminate | intros (y & E & _); discriminate E].
Qed.

(** What holds of the code: both isConnected look at the persisted refresh
    token, the settings view of Google does the same, and the settings view
    of Outlook looks at the persisted access token. *)
Lemma connected_status (w : World) :
  (fst (GoogleCalendarClient.isConnected w) = Val true <->
   exists t, googleTokens (settings w) = Some t /\
             refresh_token t <> ""%string) /\
  (fst (OutlookCalendarClient.isConnected w) = Val true <->
   exists t, outlookTokens (settings w) = Some t /\
             refreshToken t <> ""%string) /\
  fst (GoogleCalendarClient.isConnected w) =
  Val (Index.googleConnected (Index.get_settings (settings w))) /\
  (Index.outlookConnected (Index.get_settings (settings w)) = true <->
   exists t, outlookTokens (settings w) = Some t /\
             accessToken t <> ""%string).
Proof.
  rewrite google_isConnected_run, outlook_isConnected_run. simpl.
  rewrite <- !hasField_iff.
  repeat split; intros H; congruence.
Qed.

(** C1 fails on the code for Outlook. A first sign-in whose token response
    carries no refresh token persists an access token next to an empty
    refresh token; isConnected then answers false while the settings view
    reports Outlook as connected. *)
Theorem outlook_connected_mismatch :
  let w0 := Examples.world 0 true defaults [] 0 in
  let w := snd (OutlookCalendarClient.exchangeCodeForTokens
                  "code" "verifier" w0) in
  outlookTokens (settings w) =
  Some {| accessToken := "fresh"; refreshToken := "";
          expiresOn := 3600000 |} /\
  fst (OutlookCalendarClient.isConnected w) = Val false /\
  Index.outlookConnected (Index.get_settings (settings w)) = true /\
  fst (GoogleCalendarClient.isConnected w) =
  Val (Index.googleConnected (Index.get_settings (settings w))).
Proof. cbv zeta. repeat split. Qed.

End Connected.

(** ** The authorization round trip *)

Section Settlement.
Import Authenticate.

Lemma observe_emit (e : Effect) (f : Flow) :
  isServerClose e = false -> isClearTimeout e = false ->
  observe (emit e f) = observe f.
Proof.
  intros C T. unfold observe, closes, clears. simpl. rewrite C, T. reflexivity.
Qed.

Lemma done_settled (fn : Flow -> Flow) (f : Flow) :
  settled f = true -> done fn f = f.
Proof. intros S. unfold done. rewrite S. reflexivity. Qed.

(** A callback that is no outcome changes nothing that matters. *)
Lemma handle_idle (c : Callback) (f : Flow) :
  outcome c = None -> observe (handle c f) = observe f.
Proof.
  destruct c; simpl; try discriminate; intros _;
    try reflexivity; apply observe_emit; reflexivity.
Qed.

(** Once settled, no callback changes anything that matters. *)
Lemma handle_settled (c : Callback) (f : Flow) :
  settled f = true -> observe (handle c f) = observe f.
Proof.
  intros S. destruct c; simpl; rewrite ?done_settled; auto;
    try (apply observe_emit; reflexivity).
Qed.

(** The first outcome settles the promise, closes the server and cancels the
    timer. *)
Lemma handle_first (c : Callback) (o : Outcome) (f : Flow) :
  outcome c = Some o ->
  observe f = (false, true, true, None, closes f, clears f) ->
  observe (handle c f)
  = (true, false, false, settlement c, S (closes f), S (clears f)).
Proof.
  intros O E. unfold observe in E.
  injection E as S A T P.
  destruct c; simpl in O; try discriminate; simpl;
    unfold done; simpl; rewrite S;
    unfold cleanup; simpl; rewrite A;
    unfold settle; simpl; rewrite P; reflexivity.
Qed.

Lemma run_idle (cs : list Callback) :
  forall f,
    Forall (fun c => outcome c = None) cs -> observe (run cs f) = observe f.
Proof.
  induction cs as [|c rest IH]; intros f H; [reflexivity|].
  apply Forall_cons_iff in H. destruct H as [Hc Hrest].
  simpl. fold (run rest (handle c f)).
  rewrite (IH _ Hrest). apply handle_idle. exact Hc.
Qed.

Lemma run_settled (cs : list Callback) :
  forall f, settled f = true -> observe (run cs f) = observe f.
Proof.
  induction cs as [|c rest IH]; intros f S; [reflexivity|].
  simpl. fold (run rest (handle c f)).
  pose proof (handle_settled c f S) as H.
  rewrite IH; [exact H|].
  unfold observe in H. inversion H. congruence.
Qed.

(** C9. Take one call of authenticate and any sequence of callbacks after
    its executor. Before the first of the five outcomes the promise is
    pending, the server is held and the timer armed. The first outcome
    settles the promise with its own result, closes the server once and
    cancels the timer once. Whatever comes later (a late exchange, the
    timer, another redirect) changes neither the settlement nor the two
    counts, and the server stays released. *)
Theorem authenticate_settles_once (p : Provider)
  (before later : list Callback) (c : Callback) (o : Outcome) :
  Forall (fun c' => outcome c' = None) before ->
  outcome c = Some o ->
  observe (run before (executor p)) = (false, true, true, None, 0, 0)%nat /\
  observe (run (before ++ [c]) (executor p))
  = (true, false, false, settlement c, 1, 1)%nat /\
  observe (run (before ++ c :: later) (executor p))
  = (true, false, false, settlement c, 1, 1)%nat /\
  settlement c <> None.
Proof.
  intros Idle O.
  assert (B : observe (run before (executor p))
              = (false, true, true, None, 0, 0)%nat)
    by (rewrite (run_idle _ _ Idle); reflexivity).
  assert (F : observe (handle c (run before (executor p)))
              = (true, false, false, settlement c, 1, 1)%nat).
  { assert (C : closes (run before (executor p)) = 0%nat
                /\ clears (run before (executor p)) = 0%nat)
      by (unfold observe in B; inversion B; auto).
    destruct C as [C1 C2].
    rewrite (handle_first c o _ O); [rewrite C1, C2; reflexivity|].
    rewrite B, C1, C2. reflexivity. }
  split; [exact B|]. split; [|split].
  - unfold run. rewrite fold_left_app. exact F.
  - unfold run. rewrite fold_left_app. simpl.
    fold (run before (executor p)).
    fold (run later (handle c (run before (executor p)))).
    rewrite run_settled; [exact F|].
    unfold observe in F. inversion F. reflexivity.
  - destruct c; simpl in *; discriminate.
Qed.

End Settlement.

(** ** The properties at concrete inputs *)

Section Instances.
Import Store Heap.

(** The example of the specification: a confirmed meeting from now + 5 min to
    now + 35 min suppresses with a buffer of 15 minutes and not with a
    buffer of 2. *)
Example busy_round_trip :
  fst (CalendarManager.isBusyOrMeetingSoon 15 Examples.fresh) = Val true /\
  fst (CalendarManager.isBusyOrMeetingSoon 2 Examples.fresh) = Val false.
Proof. split; reflexivity. Qed.

Lemma tick_emits_witness :
  (Timer.paused Examples.running = false /\
   ~ 1800000 < Timer.snoozedUntil Examples.running /\
   1800000 - Timer.lastStretchTime Examples.running
   >= stretchIntervalMinutes defaults * 60000) /\
  In Timer.StretchDue (Timer.tick defaults 1800000 Examples.running).
Proof.
  assert (H : Timer.paused Examples.running = false /\
              ~ 1800000 < Timer.snoozedUntil Examples.running /\
              1800000 - Timer.lastStretchTime Examples.running
              >= stretchIntervalMinutes defaults * 60000)
    by (simpl; repeat split; lia).
  split; [exact H|].
  destruct (tick_emits defaults 1800000 Examples.running) as (_ & _ & D & _).
  apply D. exact H.
Defined.

Lemma getRemainingMs_spec_witness :
  (Timer.paused Examples.running = false /\
   Timer.snoozedUntil Examples.running <= 1000 /\ 1000 <= 31000) /\
  Timer.getRemainingMs defaults 31000 Examples.running
  <= Timer.getRemainingMs defaults 1000 Examples.running.
Proof.
  assert (H : Timer.paused Examples.running = false /\
              Timer.snoozedUntil Examples.running <= 1000 /\ 1000 <= 31000)
    by (simpl; repeat split; lia).
  split; [exact H|].
  destruct (getRemainingMs_spec defaults 1000 Examples.running)
    as (_ & _ & _ & _ & _ & M & _).
  destruct H as (P & S & L). exact (M 31000 P S L).
Defined.

(** C4 as stated fails. A timer started at 0 and snoozed at 60000 is not
    paused, and nothing resets or snoozes it afterwards; its remaining time
    is 1 at 359999 and 1440000 at 360000, the instant the snooze ends. So
    the remaining time is not non-increasing in now between resets and
    snoozes while not paused. *)
Lemma getRemainingMs_rises_after_snooze :
  let t := Timer.snooze defaults 60000 (Timer.start 0 Examples.running) in
  Timer.paused t = false /\
  359999 <= 360000 /\
  Timer.getRemainingMs defaults 359999 t = 1 /\
  Timer.getRemainingMs defaults 360000 t = 1440000 /\
  ~ (forall now later, Timer.paused t = false -> now <= later ->
     Timer.getRemainingMs defaults later t
     <= Timer.getRemainingMs defaults now t).
Proof.
  cbv zeta. repeat split; try reflexivity; try (simpl; lia).
  intros Mono.
  pose proof (Mono 359999 360000 eq_refl ltac:(lia)) as H.
  vm_compute in H. apply H. reflexivity.
Qed.

Lemma snooze_frame_witness :
  (Timer.paused Examples.running = false /\
   1800000 - Timer.lastStretchTime Examples.running
   >= stretchIntervalMinutes defaults * 60000 /\
   1800000 <= 2100000 /\
   ~ 2100000
     < Timer.snoozedUntil (Timer.snooze defaults 1800000 Examples.running)) /\
  Timer.tick defaults 2100000 (Timer.snooze defaults 1800000 Examples.running)
  = [Timer.Tick; Timer.StretchDue].
Proof.
  assert (H : Timer.paused Examples.running = false /\
              1800000 - Timer.lastStretchTime Examples.running
              >= stretchIntervalMinutes defaults * 60000 /\
              1800000 <= 2100000 /\
              ~ 2100000
                < Timer.snoozedUntil
                    (Timer.snooze defaults 1800000 Examples.running))
    by (simpl; repeat split; lia).
  split; [exact H|].
  destruct (snooze_frame defaults 1800000 Examples.running)
    as (_ & _ & _ & _ & D & _).
  destruct H as (P & E & L & N).
  exact (proj2 (D 2100000 P E L) N).
Defined.

Lemma reset_before_await_witness :
  let later := [Tray.Interval 1830000 1830001; Tray.MenuPause;
                Tray.MenuResume 1840000; Tray.Interval 3600000 3600000;
                Tray.Settled false] in
  In Timer.StretchDue
     (Timer.tick defaults 1800000 (Tray.timer Examples.tray)) /\
  Forall (Tray.within defaults 1800001) later /\
  ~ In Timer.StretchDue
      (snd (Tray.run defaults later
              (Tray.onStretchDue_call 1800001 Examples.tray))).
Proof.
  cbv zeta.
  assert (D : In Timer.StretchDue
                 (Timer.tick defaults 1800000 (Tray.timer Examples.tray)))
    by (simpl; auto).
  assert (W : Forall (Tray.within defaults 1800001)
                [Tray.Interval 1830000 1830001; Tray.MenuPause;
                 Tray.MenuResume 1840000; Tray.Interval 3600000 3600000;
                 Tray.Settled false])
    by (repeat (apply Forall_cons); try apply Forall_nil;
        unfold Tray.within; simpl; lia).
  split; [exact D|]. split; [exact W|].
  destruct (reset_before_await defaults 1800000 1800001 Examples.tray _ D W)
    as (_ & _ & _ & _ & N & _).
  exact N.
Defined.

Lemma isBusyOrMeetingSoon_fresh_witness :
  Net.clock (env Examples.fresh) (reads Examples.fresh)
  - fetchedAt (cache Examples.fresh) <= CalendarManager.CACHE_TTL /\
  exists b,
    CalendarManager.isBusyOrMeetingSoon 15 Examples.fresh
    = (Val b, withReads 2 Examples.fresh) /\
    (b = true <->
     exists e, In e (events (cache Examples.fresh)) /\
               CalendarManager.Busy (settings Examples.fresh)
                 (Net.clock (env Examples.fresh) 1) 15 e).
Proof.
  assert (F : Net.clock (env Examples.fresh) (reads Examples.fresh)
              - fetchedAt (cache Examples.fresh) <= CalendarManager.CACHE_TTL)
    by (vm_compute; discriminate).
  split; [exact F|].
  destruct (isBusyOrMeetingSoon_fresh Examples.fresh 15 F) as (b & R & I & _).
  exists b. split; [exact R | exact I].
Defined.

Lemma isBusyOrMeetingSoon_refreshes_witness :
  (Net.clock (env Examples.stale) (reads Examples.stale)
   - fetchedAt (cache Examples.stale) > CalendarManager.CACHE_TTL /\
   cycles (snd (CalendarManager.isBusyOrMeetingSoon 15 Examples.stale))
   = S (cycles Examples.stale)) /\
  (Net.clock (env Examples.fresh) (reads Examples.fresh)
   - fetchedAt (cache Examples.fresh) <= CalendarManager.CACHE_TTL /\
   cycles (snd (CalendarManager.isBusyOrMeetingSoon 15 Examples.fresh))
   = cycles Examples.fresh).
Proof.
  assert (S : Net.clock (env Examples.stale) (reads Examples.stale)
              - fetchedAt (cache Examples.stale) > CalendarManager.CACHE_TTL)
    by (vm_compute; reflexivity).
  assert (F : Net.clock (env Examples.fresh) (reads Examples.fresh)
              - fetchedAt (cache Examples.fresh) <= CalendarManager.CACHE_TTL)
    by (vm_compute; discriminate).
  split; (split; [assumption|]).
  - destruct (proj1 (isBusyOrMeetingSoon_refreshes Examples.stale 15) S)
      as (w1 & _ & _ & _ & C & _).
    exact C.
  - destruct (proj2 (isBusyOrMeetingSoon_refreshes Examples.fresh 15) F)
      as (_ & C & _).
    exact C.
Defined.

Lemma fetchEvents_replaces_witness :
  (forall k, Net.failing (Net.googleCalendar (env Examples.stale) k)) /\
  exists o w1 w2,
    CalendarManager.contribution true OutlookCalendarClient.isConnected
      OutlookCalendarClient.getUpcomingEvents w1 = (Val o, w2) /\
    fst (CalendarManager.fetchEvents Examples.stale) = Val tt /\
    events (cache (snd (CalendarManager.fetchEvents Examples.stale))) = o.
Proof.
  assert (D : forall k, Net.failing (Net.googleCalendar (env Examples.stale) k))
    by (intro k; exact I).
  split; [exact D|].
  destruct (fetchEvents_replaces Examples.stale)
    as (g & w1 & o & w2 & _ & O & F & _ & _ & _ & Down & _).
  exists o, w1, w2. split; [exact O|].
  rewrite F, (Down D). split; reflexivity.
Defined.

Lemma getValidAccessToken_refresh_witness :
  let w := Examples.world 940001 false Examples.connected [] 0 in
  (Net.clock (env w) (reads w)
   > GoogleState.expiryDate (googleClient w) - 60000 /\
   GoogleState.refreshToken (googleClient w) <> ""%string) /\
  (GoogleState.refreshToken (googleClient w) = ""%string \/
   (exists body, Net.googleToken (env w) (sent w) = Net.Reply false body)) /\
  sent (snd (GoogleCalendarClient.getValidAccessToken w)) = S (sent w) /\
  fst (GoogleCalendarClient.getValidAccessToken w) = Val "old"%string /\
  settings (snd (GoogleCalendarClient.getValidAccessToken w)) = settings w.
Proof.
  cbv zeta.
  set (w := Examples.world 940001 false Examples.connected [] 0).
  assert (L : Net.clock (env w) (reads w)
              > GoogleState.expiryDate (googleClient w) - 60000 /\
              GoogleState.refreshToken (googleClient w) <> ""%string)
    by (split; [vm_compute; reflexivity | simpl; discriminate]).
  assert (B : GoogleState.refreshToken (googleClient w) = ""%string \/
              (exists body,
                 Net.googleToken (env w) (sent w) = Net.Reply false body))
    by (right; eexists; reflexivity).
  split; [exact L|]. split; [exact B|].
  destruct (getValidAccessToken_refresh w) as ((_ & S & _ & F) & _).
  split; [apply S; exact L|].
  destruct (F B) as (V & _ & K). split; [exact V | exact K].
Defined.

Lemma authenticate_settles_once_witness :
  let before := [Authenticate.Listening; Authenticate.RequestWithCode] in
  let later := [Authenticate.ExchangeReturned; Authenticate.RequestOther] in
  Forall (fun c => Authenticate.outcome c = None) before /\
  Authenticate.outcome Authenticate.TimerFired = Some Authenticate.Timeout /\
  Authenticate.observe
    (Authenticate.run (before ++ Authenticate.TimerFired :: later)
       (Authenticate.executor Authenticate.Google))
  = (true, false, false,
     Some (Authenticate.Rejected "Authentication timed out"), 1, 1)%nat.
Proof.
  cbv zeta.
  assert (I : Forall (fun c => Authenticate.outcome c = None)
                [Authenticate.Listening; Authenticate.RequestWithCode])
    by (repeat constructor).
  split; [exact I|]. split; [reflexivity|].
  destruct (authenticate_settles_once Authenticate.Google _
              [Authenticate.ExchangeReturned; Authenticate.RequestOther]
              Authenticate.TimerFired Authenticate.Timeout I eq_refl)
    as (_ & _ & R & _).
  exact R.
Defined.

End Instances.

(** * Further properties of the code *)

(** ** The scheduler: start, pause, resume *)

Section SchedulerControls.
Import Store Timer Tray Counts.

Variable s : AppSettings.

(** X1. resume and start put the origin of the countdown at their own
    instant: whatever time had elapsed before, and however long the pause
    lasted, no check is due before a full interval has passed since, and
    once it has passed (and no snooze holds) the check is due. Neither
    clears a snooze. Right after them the remaining time is the whole
    interval, unless a snooze still holds. *)
Theorem resume_restarts_countdown (at_ : Z) (t : StretchTimer) :
  (forall check,
     check - at_ < stretchIntervalMinutes s * 60000 ->
     tick s check (resume at_ t) = [Tick] /\
     tick s check (start at_ t) = [Tick]) /\
  (forall check,
     check - at_ >= stretchIntervalMinutes s * 60000 ->
     ~ check < snoozedUntil t ->
     tick s check (resume at_ t) = [Tick; StretchDue] /\
     tick s check (start at_ t) = [Tick; StretchDue]) /\
  (snoozedUntil t <= at_ -> 0 <= stretchIntervalMinutes s ->
   getRemainingMs s at_ (resume at_ t) = stretchIntervalMinutes s * 60000 /\
   getRemainingMs s at_ (start at_ t) = stretchIntervalMinutes s * 60000) /\
  snoozedUntil (resume at_ t) = snoozedUntil t /\
  snoozedUntil (start at_ t) = snoozedUntil t.
Proof.
  split; [|split; [|split; [|split; reflexivity]]].
  - intros check Early. split.
    + destruct (tick_cases s check (resume at_ t))
        as [(_ & _ & _ & I) | (E & _)]; [simpl in I; lia | exact E].
    + destruct (tick_cases s check (start at_ t))
        as [(_ & _ & _ & I) | (E & _)]; [simpl in I; lia | exact E].
  - intros check Late Awake. split.
    + destruct (tick_cases s check (resume at_ t))
        as [(E & _) | (_ & [P | [S | I]])]; simpl in *;
        [exact E | discriminate | contradiction | lia].
    + destruct (tick_cases s check (start at_ t))
        as [(E & _) | (_ & [P | [S | I]])]; simpl in *;
        [exact E | discriminate | contradiction | lia].
  - intros Awake Pos. unfold getRemainingMs. simpl.
    destruct (Z.ltb_spec at_ (snoozedUntil t)); [lia|]. split; lia.
Qed.

Lemma paused_step (e : Event) (m : TrayManager) :
  paused (timer m) = true -> isResume e = false ->
  paused (timer (fst (step s e m))) = true /\
  lastStretchTime (timer (fst (step s e m))) = lastStretchTime (timer m) /\
  ~ In StretchDue (snd (step s e m)).
Proof.
  intros P R.
  destruct e as [now now' | | now | | now | isBusy]; simpl in *;
    try discriminate; auto.
  - destruct (tick_cases s now (timer m)) as [(_ & N & _) | (E & _)];
      [congruence|].
    rewrite E. simpl. repeat split; auto. intros [A | [ ]]. discriminate A.
  - destruct (awaiting m); simpl; auto.
    unfold onStretchDue_resume. destruct isBusy; simpl; auto.
Qed.

(** X2. While the timer is paused nothing but Resume brings a reminder:
    whatever checks, snoozes, manual stretches and resolving suppression
    checks the event loop runs, no check emits 'stretch-due', the timer
    stays paused with the origin it had, and the remaining time reads -1.
    A suppression check already in flight is not cancelled by the pause:
    when it resolves not busy its notification is shown. *)
Theorem paused_is_silent (es : list Event) (m : TrayManager) :
  paused (timer m) = true ->
  Forall (fun e => isResume e = false) es ->
  ~ In StretchDue (snd (run s es m)) /\
  paused (timer (fst (run s es m))) = true /\
  lastStretchTime (timer (fst (run s es m))) = lastStretchTime (timer m) /\
  (forall now, getRemainingMs s now (timer (fst (run s es m))) = -1) /\
  (awaiting m <> O ->
   shown (fst (step s (Settled false) m)) = S (shown m)).
Proof.
  intros P R.
  assert (H : ~ In StretchDue (snd (run s es m)) /\
              paused (timer (fst (run s es m))) = true /\
              lastStretchTime (timer (fst (run s es m)))
              = lastStretchTime (timer m)).
  { revert m P. induction es as [|e rest IH]; intros m P; simpl.
    - auto.
    - apply Forall_cons_iff in R. destruct R as [Re Rrest].
      destruct (paused_step e m P Re) as (P1 & L1 & N1).
      destruct (step s e m) as [m1 out1]. simpl in *.
      destruct (IH Rrest m1 P1) as (N2 & P2 & L2).
      destruct (run s rest m1) as [m2 out2]. simpl in *.
      repeat split; [|exact P2|congruence].
      intros I. apply in_app_or in I. tauto. }
  destruct H as (N & P' & L).
  repeat split; auto.
  - intros now. unfold getRemainingMs. rewrite P'. reflexivity.
  - intros A. simpl. destruct (awaiting m); [contradiction|]. reflexivity.
Qed.

Lemma accounting_step (e : Event) (m : TrayManager) :
  (shown (fst (step s e m)) + awaiting (fst (step s e m))
   <= shown m + awaiting m + dues (snd (step s e m))
      + (if isStretchNow e then 1 else 0))%nat /\
  (awaiting (fst (step s e m)) <= awaiting m + dues (snd (step s e m)))%nat /\
  (shown m <= shown (fst (step s e m)))%nat.
Proof.
  unfold dues.
  destruct e as [now now' | | now | | now | isBusy]; simpl;
    try (repeat split; lia).
  - destruct (tick_cases s now (timer m)) as [(E & _) | (E & _)];
      rewrite E; simpl; repeat split; lia.
  - destruct (awaiting m) as [|k] eqn:A; simpl; [rewrite A; repeat split; lia|].
    unfold onStretchDue_resume. rewrite A.
    destruct isBusy; simpl; repeat split; lia.
Qed.

(** X3. The tray never shows more than was asked for: over any run of the
    event loop, the notifications shown plus the suppression checks still in
    flight grow by at most the number of 'stretch-due' signals emitted plus
    the number of Stretch Now clicks; checks in flight grow by at most the
    signals emitted; and the count of notifications never goes down. *)
Theorem notifications_answer_dues (es : list Event) (m : TrayManager) :
  (shown (fst (run s es m)) + awaiting (fst (run s es m))
   <= shown m + awaiting m + dues (snd (run s es m)) + requested es)%nat /\
  (awaiting (fst (run s es m)) <= awaiting m + dues (snd (run s es m)))%nat /\
  (shown m <= shown (fst (run s es m)))%nat.
Proof.
  revert m. induction es as [|e rest IH]; intros m; simpl.
  - unfold dues, requested. simpl. repeat split; lia.
  - destruct (accounting_step e m) as (A1 & B1 & C1).
    destruct (step s e m) as [m1 out1]. simpl in *.
    destruct (IH m1) as (A2 & B2 & C2).
    destruct (run s rest m1) as [m2 out2]. simpl in *.
    unfold dues, requested in *. simpl.
    rewrite filter_app, length_app.
    destruct (isStretchNow e); simpl; repeat split; lia.
Qed.

End SchedulerControls.

(** ** The tooltip *)

Section TooltipText.
Import Store Timer Tooltip.
Local Open Scope string_scope.

Lemma two_digits (n : nat) :
  (n < 60)%nat ->
  String.length (padStart 2 "0" (toString (Z.of_nat n))) = 2%nat.
Proof.
  intros H.
  do 60 (destruct n as [|n]; [reflexivity|]).
  lia.
Qed.

Lemma remaining_nonneg (s : AppSettings) (now : Z) (t : StretchTimer) :
  paused t = false -> 0 <= getRemainingMs s now t.
Proof.
  intros P. unfold getRemainingMs. rewrite P.
  destruct (Z.ltb_spec now (snoozedUntil t)); lia.
Qed.

(** X4. updateTooltip sets nothing without a tray and "StretchTime - Paused"
    while paused. Otherwise it shows minutes and seconds with
    0 <= seconds < 60, the seconds always on two characters, and the time
    shown is the remaining time rounded up to a whole second: never less
    than what remains, and less than one second more. *)
Theorem updateTooltip_text (s : AppSettings) (now : Z) (t : StretchTimer) :
  updateTooltip s now false t = None /\
  (paused t = true ->
   updateTooltip s now true t = Some "StretchTime - Paused") /\
  (paused t = false ->
   exists min sec,
     0 <= min /\ 0 <= sec < 60 /\
     (min * 60 + sec) * 1000 - 1000 < getRemainingMs s now t
     <= (min * 60 + sec) * 1000 /\
     String.length (padStart 2 "0" (toString sec)) = 2%nat /\
     updateTooltip s now true t
     = Some ("StretchTime - " ++ toString min ++ ":"
             ++ padStart 2 "0" (toString sec) ++ " until next stretch")).
Proof.
  split; [reflexivity|]. split.
  - intros P. unfold updateTooltip, isPaused. rewrite P. reflexivity.
  - intros P. pose proof (remaining_nonneg s now t P) as N.
    unfold updateTooltip, isPaused. rewrite P. simpl negb. cbv iota zeta.
    set (ms := getRemainingMs s now t) in *.
    set (total := ceilDiv ms 1000).
    assert (T : total * 1000 - 1000 < ms <= total * 1000 /\ 0 <= total).
    { unfold total, ceilDiv.
      pose proof (Z.div_mod (- ms) 1000 ltac:(lia)) as D.
      pose proof (Z.mod_pos_bound (- ms) 1000 ltac:(lia)) as B.
      lia. }
    destruct T as (T & T0).
    assert (R : Z.rem total 60 = total mod 60)
      by (apply Z.rem_mod_nonneg; lia).
    pose proof (Z.div_mod total 60 ltac:(lia)) as D.
    pose proof (Z.mod_pos_bound total 60 ltac:(lia)) as B.
    exists (total / 60), (Z.rem total 60). rewrite R.
    split; [apply Z.div_pos; lia|]. split; [exact B|].
    split; [lia|]. split; [|reflexivity].
    rewrite <- (Z2Nat.id (total mod 60)) by lia.
    apply two_digits. lia.
Qed.

End TooltipText.

(** ** base64url *)

Section UrlSafe.
Import Pkce.
Local Open Scope string_scope.

Lemma every_app (p : ascii -> bool) (a b : string) :
  every p (a ++ b) = every p a && every p b.
Proof.
  induction a as [|x a IH]; simpl; [reflexivity|].
  rewrite IH, andb_assoc. reflexivity.
Qed.

Lemma every_replaceAll (p q : ascii -> bool) (c : ascii) (r s : string) :
  (forall a, p a = true -> Ascii.eqb a c = false -> q a = true) ->
  every q r = true ->
  every p s = true ->
  every q (replaceAll c r s) = true.
Proof.
  intros Step R. induction s as [|a s IH]; simpl; [reflexivity|].
  intros H. apply andb_true_iff in H. destruct H as [Pa Ps].
  destruct (Ascii.eqb a c) eqn:E.
  - rewrite every_app, R. simpl. apply IH. exact Ps.
  - simpl. rewrite (Step a Pa E). simpl. apply IH. exact Ps.
Qed.

Lemma length_replace_one (c x : ascii) (s : string) :
  String.length (replaceAll c (String x "") s) = String.length s.
Proof.
  induction s as [|a s IH]; simpl; [reflexivity|].
  destruct (Ascii.eqb a c); simpl; rewrite IH; reflexivity.
Qed.

Lemma length_remove (c : ascii) (s : string) :
  (String.length (replaceAll c "" s) + count c s)%nat = String.length s.
Proof.
  induction s as [|a s IH]; simpl; [reflexivity|].
  destruct (Ascii.eqb a c); simpl; lia.
Qed.

Lemma count_replace_other (c x d : ascii) (s : string) :
  Ascii.eqb c d = false -> Ascii.eqb x d = false ->
  count d (replaceAll c (String x "") s) = count d s.
Proof.
  intros C X. induction s as [|a s IH]; simpl; [reflexivity|].
  destruct (Ascii.eqb a c) eqn:E; simpl.
  - apply Ascii.eqb_eq in E. subst a. rewrite C, X, IH. reflexivity.
  - rewrite IH. reflexivity.
Qed.

Lemma base64url_safe (base64 : string) :
  every isBase64 base64 = true -> every isUrlSafe (base64url base64) = true.
Proof.
  intros H. unfold base64url.
  apply (every_replaceAll
           (fun a => isUrlSafe a || Ascii.eqb a "=") isUrlSafe);
    [|reflexivity|].
  { intros a. destruct a as [[|] [|] [|] [|] [|] [|] [|] [|]];
      cbv; intros; try reflexivity; discriminate. }
  apply (every_replaceAll
           (fun a => isUrlSafe a || Ascii.eqb a "/" || Ascii.eqb a "=")
           (fun a => isUrlSafe a || Ascii.eqb a "="));
    [|reflexivity|].
  { intros a. destruct a as [[|] [|] [|] [|] [|] [|] [|] [|]];
      cbv; intros; try reflexivity; discriminate. }
  apply (every_replaceAll isBase64
           (fun a => isUrlSafe a || Ascii.eqb a "/" || Ascii.eqb a "="));
    [|reflexivity|exact H].
  intros a. destruct a as [[|] [|] [|] [|] [|] [|] [|] [|]];
    cbv; intros; try reflexivity; discriminate.
Qed.

(** X5. base64url leaves none of '+', '/' and '=' in its result, whatever
    the text; it shortens the text by exactly its '=' characters; and it
    turns base64 text into text made of letters, digits, '-' and '_' only.
    So both strings of generatePKCE are made of these characters. *)
Theorem base64url_url_safe (base64 : string) :
  every (fun a => negb (Ascii.eqb a "+") && negb (Ascii.eqb a "/")
                  && negb (Ascii.eqb a "="))
        (base64url base64) = true /\
  (String.length (base64url base64) + count "=" base64)%nat
  = String.length base64 /\
  (every isBase64 base64 = true ->
   every isUrlSafe (base64url base64) = true) /\
  (forall sha256,
     every isBase64 base64 = true ->
     (forall x, every isBase64 (sha256 x) = true) ->
     every isUrlSafe (fst (generatePKCE base64 sha256)) = true /\
     every isUrlSafe (snd (generatePKCE base64 sha256)) = true).
Proof.
  split; [|split; [|split]].
  - unfold base64url.
    apply (every_replaceAll
             (fun a => negb (Ascii.eqb a "+") && negb (Ascii.eqb a "/")));
      [|reflexivity|].
    { intros a P E. rewrite P, E. reflexivity. }
    apply (every_replaceAll (fun a => negb (Ascii.eqb a "+")));
      [|reflexivity|].
    { intros a P E. rewrite P, E. reflexivity. }
    apply (every_replaceAll (fun _ => true)); [|reflexivity|].
    { intros a _ E. rewrite E. reflexivity. }
    induction base64 as [|a s IH]; [reflexivity | exact IH].
  - unfold base64url.
    pose proof (length_remove "=" (replaceAll "/" "_"
                                     (replaceAll "+" "-" base64))) as L.
    rewrite !count_replace_other, !length_replace_one in L by reflexivity.
    exact L.
  - apply base64url_safe.
  - intros sha256 H S. unfold generatePKCE. simpl.
    split; [apply base64url_safe; exact H | apply base64url_safe; apply S].
Qed.

End UrlSafe.

(** ** The code exchange *)

Section Exchange.
Import Store Heap.

(** [exchangeCodeForTokens] of the Google client, computed. *)
Lemma google_exchange_eval (code verifier : string) (w : World) :
  GoogleCalendarClient.exchangeCodeForTokens code verifier w =
  let w1 :=
    withEffect
      (Sent (Net.GoogleExchange code (googleClientId (settings w)) verifier))
      w in
  match Net.googleToken (env w) (sent w) with
  | Net.Failed => (Throw "fetch failed", w1)
  | Net.Reply false _ => (Throw "Token exchange failed", w1)
  | Net.Reply true None => (Throw "Unexpected token in JSON", w1)
  | Net.Reply true (Some tokens) =>
      let expiry := Net.clock (env w) (reads w) + Net.expires_in tokens * 1000 in
      let refresh :=
        Js.orElse (Net.refresh_token tokens)
                  (GoogleState.refreshToken (googleClient w)) in
      (Val tt,
       withSettings
         (Store.updateSettings
            [SetGoogleTokens
               {| access_token := Net.access_token tokens;
                  refresh_token := refresh;
                  expiry_date := expiry |}]
            (settings w))
         (withGoogle
            {| GoogleState.accessToken := Net.access_token tokens;
               GoogleState.refreshToken := refresh;
               GoogleState.expiryDate := expiry |}
            (withReads (S (reads w)) w1)))
  end.
Proof.
  unfold GoogleCalendarClient.exchangeCodeForTokens, bind, Date_now, gets,
    getSettings, fetch, json, modify, updateSettings, ret, throw.
  simpl.
  destruct (Net.googleToken (env w) (sent w)) as [|[|] [tokens|]]; reflexivity.
Qed.

(** [exchangeCodeForTokens] of the Outlook client, computed. *)
Lemma outlook_exchange_eval (code verifier : string) (w : World) :
  OutlookCalendarClient.exchangeCodeForTokens code verifier w =
  let w1 :=
    withEffect
      (Sent (Net.OutlookExchange (OutlookCalendarClient.tenant (settings w))
               code (outlookClientId (settings w)) verifier))
      w in
  match Net.outlookToken (env w) (sent w) with
  | Net.Failed => (Throw "fetch failed", w1)
  | Net.Reply false _ => (Throw "Token exchange failed", w1)
  | Net.Reply true None => (Throw "Unexpected token in JSON", w1)
  | Net.Reply true (Some tokens) =>
      let expiry := Net.clock (env w) (reads w) + Net.expires_in tokens * 1000 in
      let refresh :=
        Js.orElse (Net.refresh_token tokens)
                  (OutlookState.refreshToken (outlookClient w)) in
      (Val tt,
       withSettings
         (Store.updateSettings
            [SetOutlookTokens
               {| accessToken := Net.access_token tokens;
                  refreshToken := refresh;
                  expiresOn := expiry |}]
            (settings w))
         (withOutlook
            {| OutlookState.accessToken := Net.access_token tokens;
               OutlookState.refreshToken := refresh;
               OutlookState.expiresOn := expiry |}
            (withReads (S (reads w)) w1)))
  end.
Proof.
  unfold OutlookCalendarClient.exchangeCodeForTokens, bind, Date_now, gets,
    getSettings, fetch, json, modify, updateSettings, ret, throw.
  simpl.
  destruct (Net.outlookToken (env w) (sent w)) as [|[|] [tokens|]]; reflexivity.
Qed.

(** X7. A code exchange that fails stores nothing. When the token request
    gets no answer, a status that is not a success, or a body that is not
    JSON, exchangeCodeForTokens throws after its one request, and the tokens
    held by both clients and the whole store are as before. For Google and
    for Outlook. *)
Theorem exchange_failure_stores_nothing (code verifier : string) (w : World) :
  ((forall tokens,
      Net.googleToken (env w) (sent w) <> Net.Reply true (Some tokens)) ->
   (exists err,
      fst (GoogleCalendarClient.exchangeCodeForTokens code verifier w)
      = Throw err) /\
   snd (GoogleCalendarClient.exchangeCodeForTokens code verifier w)
   = withEffect
       (Sent (Net.GoogleExchange code (googleClientId (settings w)) verifier))
       w) /\
  ((forall tokens,
      Net.outlookToken (env w) (sent w) <> Net.Reply true (Some tokens)) ->
   (exists err,
      fst (OutlookCalendarClient.exchangeCodeForTokens code verifier w)
      = Throw err) /\
   snd (OutlookCalendarClient.exchangeCodeForTokens code verifier w)
   = withEffect
       (Sent (Net.OutlookExchange (OutlookCalendarClient.tenant (settings w))
                code (outlookClientId (settings w)) verifier))
       w).
Proof.
  split; intros H.
  - rewrite google_exchange_eval. cbv zeta.
    destruct (Net.googleToken (env w) (sent w)) as [|[|] [tokens|]];
      simpl; try (split; [eexists; reflexivity | reflexivity]).
    exfalso. apply (H tokens). reflexivity.
  - rewrite outlook_exchange_eval. cbv zeta.
    destruct (Net.outlookToken (env w) (sent w)) as [|[|] [tokens|]];
      simpl; try (split; [eexists; reflexivity | reflexivity]).
    exfalso. apply (H tokens). reflexivity.
Qed.

(** X8. A code exchange that succeeds stores what it got, in the client and
    in the store alike: the access token of the response, the expiry at the
    clock plus expires_in seconds, and the refresh token of the response
    or, when the response has none, the one held before. A client built
    from the store afterwards holds the same tokens. The other provider's
    tokens and the enabled flags are not touched. *)
Theorem exchange_success_persists (code verifier : string) (w : World)
  (tokens : Net.Tokens) :
  (Net.googleToken (env w) (sent w) = Net.Reply true (Some tokens) ->
   let w' := snd (GoogleCalendarClient.exchangeCodeForTokens code verifier w) in
   fst (GoogleCalendarClient.exchangeCodeForTokens code verifier w) = Val tt /\
   googleClient w' =
   {| GoogleState.accessToken := Net.access_token tokens;
      GoogleState.refreshToken :=
        Js.orElse (Net.refresh_token tokens)
                  (GoogleState.refreshToken (googleClient w));
      GoogleState.expiryDate :=
        Net.clock (env w) (reads w) + Net.expires_in tokens * 1000 |} /\
   GoogleCalendarClient.new (settings w') = googleClient w' /\
   outlookClient w' = outlookClient w /\
   outlookTokens (settings w') = outlookTokens (settings w) /\
   calendarProviders (settings w') = calendarProviders (settings w)) /\
  (Net.outlookToken (env w) (sent w) = Net.Reply true (Some tokens) ->
   let w' := snd (OutlookCalendarClient.exchangeCodeForTokens code verifier w) in
   fst (OutlookCalendarClient.exchangeCodeForTokens code verifier w) = Val tt /\
   outlookClient w' =
   {| OutlookState.accessToken := Net.access_token tokens;
      OutlookState.refreshToken :=
        Js.orElse (Net.refresh_token tokens)
                  (OutlookState.refreshToken (outlookClient w));
      OutlookState.expiresOn :=
        Net.clock (env w) (reads w) + Net.expires_in tokens * 1000 |} /\
   OutlookCalendarClient.new (settings w') = outlookClient w' /\
   googleClient w' = googleClient w /\
   googleTokens (settings w') = googleTokens (settings w) /\
   calendarProviders (settings w') = calendarProviders (settings w)).
Proof.
  split; intros H; cbv zeta.
  - rewrite google_exchange_eval. cbv zeta. rewrite H. repeat split.
  - rewrite outlook_exchange_eval. cbv zeta. rewrite H. repeat split.
Qed.

(** X9. A refresh that succeeds is not repeated while the new token is
    fresh, and one that fails is tried again. When getValidAccessToken
    refreshes and the server answers with tokens, it returns the new access
    token, the client and the store hold the same new tokens, and Google's
    refresh token is the one held before; the next call, if the clock is then
    no later than the new expiry - 60 s, returns the same token and sends
    nothing. When the server answers with a status that is not a success,
    the next call, if the clock is still past expiry - 60 s, sends a second
    request. *)
Theorem refresh_is_not_repeated (w : World) (tokens : Net.Tokens) :
  Net.clock (env w) (reads w)
  > GoogleState.expiryDate (googleClient w) - 60000 ->
  GoogleState.refreshToken (googleClient w) <> ""%string ->
  (Net.googleToken (env w) (sent w) = Net.Reply true (Some tokens) ->
   let w' := snd (GoogleCalendarClient.getValidAccessToken w) in
   fst (GoogleCalendarClient.getValidAccessToken w)
   = Val (Net.access_token tokens) /\
   GoogleCalendarClient.new (settings w') = googleClient w' /\
   GoogleState.refreshToken (googleClient w')
   = GoogleState.refreshToken (googleClient w) /\
   GoogleState.expiryDate (googleClient w')
   = Net.clock (env w) (S (reads w)) + Net.expires_in tokens * 1000 /\
   (Net.clock (env w) (S (S (reads w)))
    <= GoogleState.expiryDate (googleClient w') - 60000 ->
    GoogleCalendarClient.getValidAccessToken w'
    = (Val (Net.access_token tokens), withReads (S (S (S (reads w)))) w'))) /\
  (forall body,
     Net.googleToken (env w) (sent w) = Net.Reply false body ->
     let w' := snd (GoogleCalendarClient.getValidAccessToken w) in
     Net.clock (env w) (S (reads w))
     > GoogleState.expiryDate (googleClient w) - 60000 ->
     sent w' = S (sent w) /\
     sent (snd (GoogleCalendarClient.getValidAccessToken w')) = S (S (sent w))).
Proof.
  intros Late Held.
  pose proof (proj2 (late_iff _ _ _) (conj Late Held)) as C.
  split.
  - intros Ok. cbv zeta. rewrite google_token_eval. cbv zeta.
    rewrite C, Ok. simpl.
    repeat split.
    intros Fresh. rewrite google_token_early; [reflexivity|].
    simpl. exact Fresh.
  - intros body Bad w' Still. subst w'.
    rewrite !google_token_sent. rewrite google_token_eval. cbv zeta.
    rewrite C, Bad. simpl.
    rewrite (proj2 (late_iff _ _ _) (conj Still Held)).
    split; reflexivity.
Qed.

End Exchange.

(** ** Connecting a provider *)

Section Connecting.
Import Store Heap Handlers.

(** X10. An exchange that ends after the call was settled (the timeout
    fired while the token request was in flight) leaves the promise as it
    was settled, and still stores the tokens: isConnected and the settings
    view then report Google as connected, while the 'connect-google' handler
    answers with the failure and enables nothing. With Google not enabled
    before, the fetch cycle goes on skipping it. This is for a response
    that is stored: a refresh token comes with it or is already held. *)
Theorem late_exchange_stores_tokens (code verifier err : string) (w : World)
  (f : Authenticate.Flow) (tokens : Net.Tokens) :
  Authenticate.settled f = true ->
  Net.googleToken (env w) (sent w) = Net.Reply true (Some tokens) ->
  Js.truthy (Js.orElse (Net.refresh_token tokens)
                       (GoogleState.refreshToken (googleClient w))) = true ->
  let wf := exchanged Authenticate.Google code verifier (w, f) in
  Authenticate.observe (snd wf) = Authenticate.observe f /\
  fst (GoogleCalendarClient.isConnected (fst wf)) = Val true /\
  Index.googleConnected (Index.get_settings (settings (fst wf))) = true /\
  connect_google (Authenticate.Rejected err) (fst wf)
  = (Val {| success := false; error := Some err |}, fst wf) /\
  calendarProviders (settings (fst wf)) = calendarProviders (settings w) /\
  (google (calendarProviders (settings w)) = false ->
   CalendarManager.contribution
     (google (calendarProviders (settings (fst wf))))
     GoogleCalendarClient.isConnected GoogleCalendarClient.getUpcomingEvents
     (fst wf)
   = (Val [], fst wf)).
Proof.
  intros S Ok R. cbv zeta.
  unfold exchanged, exchangeCodeForTokens. simpl fst. simpl snd.
  rewrite google_exchange_eval. cbv zeta. rewrite Ok. simpl fst. simpl snd.
  split; [exact (handle_settled Authenticate.ExchangeReturned f S)|].
  split; [simpl; rewrite R; reflexivity|].
  split; [simpl; rewrite R; reflexivity|].
  split; [reflexivity|]. split; [reflexivity|].
  intros Off. simpl. rewrite Off. reflexivity.
Qed.

(** X11. A connect that succeeds enables its provider and nothing else: the
    exchange that ends a pending call resolves the promise, the handler
    answers success, sets the flag of its provider, and leaves the flag and
    the tokens of the other provider alone. From then on the fetch cycle
    asks the provider, provided a refresh token came with the response or
    was already held; when there is none, the provider is enabled and still
    skipped. *)
Theorem connect_enables_provider (code verifier : string) (w : World)
  (f : Authenticate.Flow) (tokens : Net.Tokens) :
  Authenticate.settled f = false ->
  Authenticate.promise f = None ->
  Net.googleToken (env w) (sent w) = Net.Reply true (Some tokens) ->
  let wf := exchanged Authenticate.Google code verifier (w, f) in
  let w2 := snd (connect_google Authenticate.Resolved (fst wf)) in
  Authenticate.promise (snd wf) = Some Authenticate.Resolved /\
  fst (connect_google Authenticate.Resolved (fst wf))
  = Val {| success := true; error := None |} /\
  google (calendarProviders (settings w2)) = true /\
  outlook (calendarProviders (settings w2))
  = outlook (calendarProviders (settings w)) /\
  outlookTokens (settings w2) = outlookTokens (settings w) /\
  googleClient w2 = GoogleCalendarClient.new (settings w2) /\
  (Js.truthy (Js.orElse (Net.refresh_token tokens)
                        (GoogleState.refreshToken (googleClient w))) = true ->
   CalendarManager.contribution (google (calendarProviders (settings w2)))
     GoogleCalendarClient.isConnected GoogleCalendarClient.getUpcomingEvents w2
   = GoogleCalendarClient.getUpcomingEvents 120 w2) /\
  (Js.truthy (Js.orElse (Net.refresh_token tokens)
                        (GoogleState.refreshToken (googleClient w))) = false ->
   CalendarManager.contribution (google (calendarProviders (settings w2)))
     GoogleCalendarClient.isConnected GoogleCalendarClient.getUpcomingEvents w2
   = (Val [], w2)).
Proof.
  intros S P Ok. cbv zeta.
  unfold exchanged, exchangeCodeForTokens. simpl fst. simpl snd.
  rewrite google_exchange_eval. cbv zeta. rewrite Ok. simpl fst. simpl snd.
  split.
  { simpl. unfold Authenticate.done. rewrite S.
    unfold Authenticate.settle, Authenticate.cleanup.
    destruct (Authenticate.authServer f); simpl; rewrite P; reflexivity. }
  split; [reflexivity|]. split; [reflexivity|]. split; [reflexivity|].
  split; [reflexivity|]. split; [reflexivity|].
  match goal with
  | |- (_ -> CalendarManager.contribution ?flag _ _ ?w2 = _) /\ _ =>
      assert (E : flag = true) by reflexivity;
      assert (C : GoogleCalendarClient.isConnected w2
                  = (Val (Js.truthy
                            (Js.orElse (Net.refresh_token tokens)
                               (GoogleState.refreshToken (googleClient w)))),
                     w2)) by reflexivity;
      rewrite E; unfold CalendarManager.contribution, bind; rewrite C
  end.
  split; intros R; rewrite R; reflexivity.
Qed.

End Connecting.

(** ** What the aggregator keeps of the tokens *)

Section Keeping.
Import Store Heap Invariants.

Variable P : World -> Prop.

Hypothesis P_tokens :
  forall w w',
    settings w' = settings w ->
    googleClient w' = googleClient w ->
    outlookClient w' = outlookClient w ->
    P w -> P w'.

Hypothesis P_google : Preserves P GoogleCalendarClient.getValidAccessToken.
Hypothesis P_outlook : Preserves P OutlookCalendarClient.getValidAccessToken.

Lemma Preserves_ret {A : Type} (a : A) : Preserves P (ret a).
Proof. intros w H. exact H. Qed.

Lemma Preserves_throw {A : Type} (err : string) : Preserves P (@throw A err).
Proof. intros w H. exact H. Qed.

Lemma Preserves_bind {A B : Type} (m : M A) (k : A -> M B) :
  Preserves P m -> (forall a, Preserves P (k a)) -> Preserves P (bind m k).
Proof.
  intros Hm Hk w H. unfold bind. specialize (Hm w H).
  destruct (m w) as [[a | err] w1]; simpl in *; [apply Hk; exact Hm | exact Hm].
Qed.

Lemma Preserves_tryCatch {A : Type} (m : M A) (h : string -> M A) :
  Preserves P m -> (forall err, Preserves P (h err)) ->
  Preserves P (tryCatch m h).
Proof.
  intros Hm Hh w H. unfold tryCatch. specialize (Hm w H).
  destruct (m w) as [[a | err] w1]; simpl in *; [exact Hm | apply Hh; exact Hm].
Qed.

Lemma Preserves_gets {A : Type} (f : World -> A) : Preserves P (gets f).
Proof. intros w H. exact H. Qed.

Lemma Preserves_modify (f : World -> World) :
  (forall w, settings (f w) = settings w /\
             googleClient (f w) = googleClient w /\
             outlookClient (f w) = outlookClient w) ->
  Preserves P (modify f).
Proof.
  intros Hf w H. destruct (Hf w) as (S & G & O).
  exact (P_tokens w (f w) S G O H).
Qed.

Lemma Preserves_Date_now : Preserves P Date_now.
Proof.
  intros w H. simpl.
  apply (P_tokens w); [reflexivity | reflexivity | reflexivity | exact H].
Qed.

Lemma Preserves_consoleError (msg : string) : Preserves P (consoleError msg).
Proof. apply Preserves_modify. intros w. repeat split. Qed.

Lemma Preserves_fetch {A : Type} (r : Net.Request)
  (server : Net.Env -> nat -> Net.Response A) :
  Preserves P (fetch r server).
Proof.
  intros w H. unfold fetch.
  destruct (server (env w) (sent w)); simpl;
    apply (P_tokens w); try reflexivity; exact H.
Qed.

Lemma Preserves_json {A : Type} (body : option A) : Preserves P (json body).
Proof. destruct body; intros w H; exact H. Qed.

Lemma Preserves_mapM parse (l : list Net.OutlookItem) :
  Preserves P
    (OutlookCalendarClient.mapM (OutlookCalendarClient.toEvent parse) l).
Proof.
  induction l as [|x rest IH]; simpl; [apply Preserves_ret|].
  apply Preserves_bind; [|intro; apply Preserves_bind;
                           [exact IH | intro; apply Preserves_ret]].
  unfold OutlookCalendarClient.toEvent, OutlookCalendarClient.instant.
  destruct (Net.startTime x) as [[[d|]]|]; destruct (Net.endTime x) as [[[e|]]|];
    intros w H; exact H.
Qed.

Lemma Preserves_google_events (n : Z) :
  Preserves P (GoogleCalendarClient.getUpcomingEvents n).
Proof.
  unfold GoogleCalendarClient.getUpcomingEvents,
    GoogleCalendarClient.isConnected, getSettings.
  apply Preserves_bind; [apply Preserves_bind;
                           [apply Preserves_gets | intro; apply Preserves_ret]|].
  intros c. destruct (negb c); [apply Preserves_ret|].
  apply Preserves_tryCatch.
  - apply Preserves_bind; [exact P_google|]. intros token.
    apply Preserves_bind; [apply Preserves_Date_now|]. intros now.
    apply Preserves_bind; [apply Preserves_fetch|]. intros response.
    destruct (negb (fst response)).
    + apply Preserves_bind; [apply Preserves_consoleError|].
      intro. apply Preserves_ret.
    + apply Preserves_bind; [apply Preserves_json|]. intros data.
      apply Preserves_bind; [apply Preserves_gets|]. intros parse.
      apply Preserves_ret.
  - intros err. apply Preserves_bind; [apply Preserves_consoleError|].
    intro. apply Preserves_ret.
Qed.

Lemma Preserves_outlook_events (n : Z) :
  Preserves P (OutlookCalendarClient.getUpcomingEvents n).
Proof.
  unfold OutlookCalendarClient.getUpcomingEvents,
    OutlookCalendarClient.isConnected, getSettings.
  apply Preserves_bind; [apply Preserves_bind;
                           [apply Preserves_gets | intro; apply Preserves_ret]|].
  intros c. destruct (negb c); [apply Preserves_ret|].
  apply Preserves_tryCatch.
  - apply Preserves_bind; [exact P_outlook|]. intros token.
    apply Preserves_bind; [apply Preserves_Date_now|]. intros now.
    apply Preserves_bind; [apply Preserves_fetch|]. intros response.
    destruct (negb (fst response)).
    + apply Preserves_bind; [apply Preserves_consoleError|].
      intro. apply Preserves_ret.
    + apply Preserves_bind; [apply Preserves_json|]. intros data.
      apply Preserves_bind; [apply Preserves_gets|]. intros parse.
      apply Preserves_mapM.
  - intros err. apply Preserves_bind; [apply Preserves_consoleError|].
    intro. apply Preserves_ret.
Qed.

Lemma Preserves_fetchEvents : Preserves P CalendarManager.fetchEvents.
Proof.
  unfold CalendarManager.fetchEvents, getSettings.
  apply Preserves_bind; [apply Preserves_gets|]. intros s.
  apply Preserves_bind.
  { destruct (google (calendarProviders s)); [|apply Preserves_ret].
    apply Preserves_bind.
    - unfold GoogleCalendarClient.isConnected, getSettings.
      apply Preserves_bind; [apply Preserves_gets | intro; apply Preserves_ret].
    - intros c. destruct c; [|apply Preserves_ret].
      apply Preserves_bind; [apply Preserves_google_events|].
      intro. apply Preserves_ret. }
  intros g. apply Preserves_bind.
  { destruct (outlook (calendarProviders s)); [|apply Preserves_ret].
    apply Preserves_bind.
    - unfold OutlookCalendarClient.isConnected, getSettings.
      apply Preserves_bind; [apply Preserves_gets | intro; apply Preserves_ret].
    - intros c. destruct c; [|apply Preserves_ret].
      apply Preserves_bind; [apply Preserves_outlook_events|].
      intro. apply Preserves_ret. }
  intros o. apply Preserves_bind; [apply Preserves_Date_now|]. intros now.
  apply Preserves_modify. intros w. repeat split.
Qed.

Lemma Preserves_isBusy (bufferMinutes : Z) :
  Preserves P (CalendarManager.isBusyOrMeetingSoon bufferMinutes).
Proof.
  unfold CalendarManager.isBusyOrMeetingSoon, getSettings.
  apply Preserves_bind; [apply Preserves_Date_now|]. intros t.
  apply Preserves_bind; [apply Preserves_gets|]. intros c.
  apply Preserves_bind.
  { destruct (_ >? _); [apply Preserves_fetchEvents | apply Preserves_ret]. }
  intro. apply Preserves_bind; [apply Preserves_gets|]. intros s.
  apply Preserves_bind; [apply Preserves_Date_now|]. intros now.
  apply Preserves_bind; [apply Preserves_gets|]. intros c'.
  apply Preserves_ret.
Qed.

End Keeping.

Section InStep.
Import Store Heap Invariants.

Lemma truthy_orElse (a : option string) (d : string) :
  Js.truthy d = true -> Js.truthy (Js.orElse a d) = true.
Proof.
  intros D. destruct a as [x|]; simpl; [|exact D].
  destruct (Js.truthy x) eqn:X; [exact X | exact D].
Qed.

Lemma Kept_tokens (gl ol : bool) (w w' : World) :
  settings w' = settings w ->
  googleClient w' = googleClient w ->
  outlookClient w' = outlookClient w ->
  Kept gl ol w -> Kept gl ol w'.
Proof.
  unfold Kept, Synced, GoogleLinked, OutlookLinked.
  intros S G O. rewrite S, G, O. exact (fun H => H).
Qed.

Lemma Kept_google_token (gl ol : bool) :
  Preserves (Kept gl ol) GoogleCalendarClient.getValidAccessToken.
Proof.
  intros w K. rewrite google_token_eval. cbv zeta.
  destruct (_ >? _); simpl;
    [|apply (Kept_tokens gl ol w); try reflexivity; exact K].
  destruct (Js.truthy (GoogleState.refreshToken (googleClient w))) eqn:T;
    simpl; [|apply (Kept_tokens gl ol w); try reflexivity; exact K].
  destruct (Net.googleToken (env w) (sent w)) as [|[|] [tokens|]]; simpl;
    try (apply (Kept_tokens gl ol w); try reflexivity; exact K).
  destruct K as ((G & O) & GL & OL).
  unfold Kept, Synced, GoogleLinked, OutlookLinked. simpl.
  repeat split; [exact O | intros _; exact T | exact OL].
Qed.

Lemma Kept_outlook_token (gl ol : bool) :
  Preserves (Kept gl ol) OutlookCalendarClient.getValidAccessToken.
Proof.
  intros w K. rewrite outlook_token_eval. cbv zeta.
  destruct (_ >? _); simpl;
    [|apply (Kept_tokens gl ol w); try reflexivity; exact K].
  destruct (Js.truthy (OutlookState.refreshToken (outlookClient w))) eqn:T;
    simpl; [|apply (Kept_tokens gl ol w); try reflexivity; exact K].
  destruct (Net.outlookToken (env w) (sent w)) as [|[|] [tokens|]]; simpl;
    try (apply (Kept_tokens gl ol w); try reflexivity; exact K).
  destruct K as ((G & O) & GL & OL).
  unfold Kept, Synced, GoogleLinked, OutlookLinked. simpl.
  repeat split; [exact G | exact GL | intros _; apply truthy_orElse; exact T].
Qed.

(** X12. The aggregator keeps the clients in step with the store and never
    disconnects a provider. If each client holds the tokens that are
    persisted, then after a fetch cycle, or after isBusyOrMeetingSoon,
    whatever the servers answered, each client again holds the tokens that
    are persisted, and a provider that had a persisted refresh token still
    has one. *)
Theorem tokens_stay_in_step (bufferMinutes : Z) (w : World) :
  Synced w ->
  (Synced (snd (CalendarManager.fetchEvents w)) /\
   (GoogleLinked w -> GoogleLinked (snd (CalendarManager.fetchEvents w))) /\
   (OutlookLinked w -> OutlookLinked (snd (CalendarManager.fetchEvents w)))) /\
  (Synced (snd (CalendarManager.isBusyOrMeetingSoon bufferMinutes w)) /\
   (GoogleLinked w ->
    GoogleLinked (snd (CalendarManager.isBusyOrMeetingSoon bufferMinutes w))) /\
   (OutlookLinked w ->
    OutlookLinked (snd (CalendarManager.isBusyOrMeetingSoon bufferMinutes w)))).
Proof.
  intros S.
  assert (F : forall gl ol,
            Preserves (Kept gl ol) CalendarManager.fetchEvents).
  { intros gl ol.
    exact (Preserves_fetchEvents (Kept gl ol) (Kept_tokens gl ol)
             (Kept_google_token gl ol) (Kept_outlook_token gl ol)). }
  assert (B : forall gl ol,
            Preserves (Kept gl ol)
              (CalendarManager.isBusyOrMeetingSoon bufferMinutes)).
  { intros gl ol.
    exact (Preserves_isBusy (Kept gl ol) (Kept_tokens gl ol)
             (Kept_google_token gl ol) (Kept_outlook_token gl ol)
             bufferMinutes). }
  split.
  - split; [|split].
    + apply (F false false w). repeat split; [apply S | apply S | |];
        discriminate.
    + intros G. apply (F true false w); [|reflexivity].
      repeat split; [apply S | apply S | intros _; exact G | discriminate].
    + intros O. apply (F false true w); [|reflexivity].
      repeat split; [apply S | apply S | discriminate | intros _; exact O].
  - split; [|split].
    + apply (B false false w). repeat split; [apply S | apply S | |];
        discriminate.
    + intros G. apply (B true false w); [|reflexivity].
      repeat split; [apply S | apply S | intros _; exact G | discriminate].
    + intros O. apply (B false true w); [|reflexivity].
      repeat split; [apply S | apply S | discriminate | intros _; exact O].
Qed.

End InStep.

(** ** What the clients return *)

Section Returning.
Import Store Heap Invariants.

Lemma Returns_ret {A : Type} (Q : A -> Prop) (a : A) :
  Q a -> Returns Q (ret a).
Proof. intros H w b E. simpl in E. inversion E. subst b. exact H. Qed.

Lemma Returns_throw {A : Type} (Q : A -> Prop) (err : string) :
  Returns Q (@throw A err).
Proof. intros w b E. discriminate E. Qed.

Lemma Returns_bind {A B : Type} (Q1 : A -> Prop) (Q : B -> Prop)
  (m : M A) (k : A -> M B) :
  Returns Q1 m -> (forall a, Q1 a -> Returns Q (k a)) ->
  Returns Q (bind m k).
Proof.
  intros Hm Hk w b. unfold bind. specialize (Hm w).
  destruct (m w) as [[a | err] w1]; simpl in *; [|discriminate].
  apply Hk. apply Hm. reflexivity.
Qed.

Lemma Returns_any {A : Type} (m : M A) : Returns (fun _ => True) m.
Proof. intros w a _. exact I. Qed.

Lemma Returns_tryCatch {A : Type} (Q : A -> Prop) (m : M A)
  (h : string -> M A) :
  Returns Q m -> (forall err, Returns Q (h err)) -> Returns Q (tryCatch m h).
Proof.
  intros Hm Hh w b. unfold tryCatch. specialize (Hm w).
  destruct (m w) as [[a | err] w1]; simpl in *; [apply Hm | apply Hh].
Qed.

Lemma orElse_filled (a : option string) (d : string) :
  d <> ""%string -> Js.orElse a d <> ""%string.
Proof.
  intros D. destruct a as [x|]; simpl; [|exact D].
  destruct (Js.truthy x) eqn:X; [apply truthy_iff; exact X | exact D].
Qed.

Lemma google_toEvent_ok parse (e : Net.GoogleItem) :
  GoogleCalendarClient.notCancelled e = true ->
  WellFormed (GoogleCalendarClient.toEvent parse e) /\
  status (GoogleCalendarClient.toEvent parse e) <> "cancelled"%string.
Proof.
  intros N. unfold WellFormed. simpl.
  repeat split; try (apply orElse_filled; discriminate).
  unfold GoogleCalendarClient.notCancelled in N.
  destruct (Net.status e) as [st|]; simpl; [|discriminate].
  destruct (Js.truthy st); [|discriminate].
  apply negb_true_iff in N. apply String.eqb_neq. exact N.
Qed.

Lemma google_events_ok (n : Z) :
  Returns (Forall (fun e => WellFormed e /\ status e <> "cancelled"%string))
          (GoogleCalendarClient.getUpcomingEvents n).
Proof.
  unfold GoogleCalendarClient.getUpcomingEvents.
  apply (Returns_bind (fun _ => True)); [apply Returns_any|]. intros c _.
  destruct (negb c); [apply Returns_ret; constructor|].
  apply Returns_tryCatch.
  - apply (Returns_bind (fun _ => True)); [apply Returns_any|]. intros tok _.
    apply (Returns_bind (fun _ => True)); [apply Returns_any|]. intros now _.
    apply (Returns_bind (fun _ => True)); [apply Returns_any|]. intros r _.
    destruct (negb (fst r)).
    + apply (Returns_bind (fun _ => True)); [apply Returns_any|]. intros _ _.
      apply Returns_ret. constructor.
    + apply (Returns_bind (fun _ => True)); [apply Returns_any|]. intros d _.
      apply (Returns_bind (fun _ => True)); [apply Returns_any|].
      intros parse _. apply Returns_ret.
      apply Forall_forall. intros e I. apply in_map_iff in I.
      destruct I as (x & E & I). subst e.
      apply filter_In in I. apply google_toEvent_ok. apply I.
  - intros err.
    apply (Returns_bind (fun _ => True)); [apply Returns_any|]. intros _ _.
    apply Returns_ret. constructor.
Qed.

Lemma outlook_toEvent_ok parse (e : Net.OutlookItem) :
  Returns WellFormed (OutlookCalendarClient.toEvent parse e).
Proof.
  unfold OutlookCalendarClient.toEvent.
  apply (Returns_bind (fun _ => True)); [apply Returns_any|]. intros s _.
  apply (Returns_bind (fun _ => True)); [apply Returns_any|]. intros n _.
  apply Returns_ret. unfold WellFormed. simpl.
  split; apply orElse_filled; discriminate.
Qed.

Lemma outlook_mapM_ok parse (l : list Net.OutlookItem) :
  Returns (Forall WellFormed)
    (OutlookCalendarClient.mapM (OutlookCalendarClient.toEvent parse) l).
Proof.
  induction l as [|x rest IH]; simpl; [apply Returns_ret; constructor|].
  apply (Returns_bind WellFormed); [apply outlook_toEvent_ok|]. intros y Y.
  apply (Returns_bind (Forall WellFormed)); [exact IH|]. intros ys Ys.
  apply Returns_ret. constructor; assumption.
Qed.

Lemma outlook_events_ok (n : Z) :
  Returns (Forall WellFormed) (OutlookCalendarClient.getUpcomingEvents n).
Proof.
  unfold OutlookCalendarClient.getUpcomingEvents.
  apply (Returns_bind (fun _ => True)); [apply Returns_any|]. intros c _.
  destruct (negb c); [apply Returns_ret; constructor|].
  apply Returns_tryCatch.
  - apply (Returns_bind (fun _ => True)); [apply Returns_any|]. intros tok _.
    apply (Returns_bind (fun _ => True)); [apply Returns_any|]. intros now _.
    apply (Returns_bind (fun _ => True)); [apply Returns_any|]. intros r _.
    destruct (negb (fst r)).
    + apply (Returns_bind (fun _ => True)); [apply Returns_any|]. intros _ _.
      apply Returns_ret. constructor.
    + apply (Returns_bind (fun _ => True)); [apply Returns_any|]. intros d _.
      apply (Returns_bind (fun _ => True)); [apply Returns_any|].
      intros parse _. apply outlook_mapM_ok.
  - intros err.
    apply (Returns_bind (fun _ => True)); [apply Returns_any|]. intros _ _.
    apply Returns_ret. constructor.
Qed.

(** X13. Every event a client returns, and so every event a fetch cycle
    caches, has a status and a summary that are not empty (a missing or
    empty one is replaced by 'confirmed' or 'busy', and by '(No title)'),
    and Google's never has the status 'cancelled'. This on every path:
    whatever the servers answer and whether or not a refresh was needed. *)
Theorem events_are_well_formed (n : Z) (w : World) :
  (exists l,
     fst (GoogleCalendarClient.getUpcomingEvents n w) = Val l /\
     Forall (fun e => WellFormed e /\ status e <> "cancelled"%string) l) /\
  (exists l,
     fst (OutlookCalendarClient.getUpcomingEvents n w) = Val l /\
     Forall WellFormed l) /\
  Forall WellFormed (events (cache (snd (CalendarManager.fetchEvents w)))).
Proof.
  split; [|split].
  - destruct (google_events_total n w) as [l E]. exists l.
    split; [exact E | exact (google_events_ok n w l E)].
  - destruct (outlook_events_total n w) as [l E]. exists l.
    split; [exact E | exact (outlook_events_ok n w l E)].
  - destruct (google_contribution_runs
                (google (calendarProviders (settings w))) w)
      as (g & w1 & G & _).
    destruct (outlook_contribution_runs
                (outlook (calendarProviders (settings w))) w1)
      as (o & w2 & O & _).
    rewrite (fetchEvents_run w w1 w2 g o G O). simpl.
    apply Forall_app. split.
    + assert (R : Returns (Forall WellFormed)
                    (CalendarManager.contribution
                       (google (calendarProviders (settings w)))
                       GoogleCalendarClient.isConnected
                       GoogleCalendarClient.getUpcomingEvents)).
      { unfold CalendarManager.contribution.
        destruct (google _); [|apply Returns_ret; constructor].
        apply (Returns_bind (fun _ => True)); [apply Returns_any|].
        intros c _. destruct c; [|apply Returns_ret; constructor].
        intros w' l E. pose proof (google_events_ok 120 w' l E) as F.
        eapply Forall_impl; [|exact F]. intros e H. apply H. }
      apply (R w g). rewrite G. reflexivity.
    + assert (R : Returns (Forall WellFormed)
                    (CalendarManager.contribution
                       (outlook (calendarProviders (settings w)))
                       OutlookCalendarClient.isConnected
                       OutlookCalendarClient.getUpcomingEvents)).
      { unfold CalendarManager.contribution.
        destruct (outlook _); [|apply Returns_ret; constructor].
        apply (Returns_bind (fun _ => True)); [apply Returns_any|].
        intros c _. destruct c; [|apply Returns_ret; constructor].
        apply outlook_events_ok. }
      apply (R w1 o). rewrite O. reflexivity.
Qed.

End Returning.

(** ** One malformed Outlook item *)

Section OutlookBatch.
Import Store Heap Invariants.

Lemma outlook_mapM_run parse (l : list Net.OutlookItem) (w : World) :
  (forallb complete l = true ->
   exists evs,
     OutlookCalendarClient.mapM (OutlookCalendarClient.toEvent parse) l w
     = (Val evs, w) /\
     List.length evs = List.length l /\
     map status evs = map (fun e => Js.orElse (Net.showAs e) "busy") l) /\
  (forallb complete l = false ->
   exists err,
     OutlookCalendarClient.mapM (OutlookCalendarClient.toEvent parse) l w
     = (Throw err, w)).
Proof.
  induction l as [|x rest IH]; simpl.
  - split; [intros _; exists []; auto | discriminate].
  - destruct IH as [IHok IHbad].
    unfold complete at 1 3. unfold bind at 1 3.
    unfold OutlookCalendarClient.toEvent at 1 3.
    unfold OutlookCalendarClient.instant.
    destruct (Net.startTime x) as [[[d|]]|];
      destruct (Net.endTime x) as [[[e|]]|]; simpl;
      try (split; [discriminate | intros _; eexists; reflexivity]).
    all: split; intros C.
    all: try (destruct (IHok C) as (evs & E & L & S);
              unfold bind; rewrite E; eexists; split; [reflexivity|];
              simpl; split; congruence).
    all: destruct (IHbad C) as (err & E); unfold bind; rewrite E;
      eexists; reflexivity.
Qed.

Lemma outlook_events_fresh_run (n : Z) (w : World) (data : Net.OutlookData) :
  OutlookLinked w ->
  Net.clock (env w) (reads w)
  <= OutlookState.expiresOn (outlookClient w) - 60000 ->
  Net.outlookCalendar (env w) (sent w) = Net.Reply true (Some data) ->
  OutlookCalendarClient.getUpcomingEvents n w =
  let now := Net.clock (env w) (S (reads w)) in
  let w3 :=
    withEffect
      (Sent (Net.OutlookEvents (OutlookState.accessToken (outlookClient w))
               now (now + n * 60000)))
      (withReads (S (S (reads w))) (withReads (S (reads w)) w)) in
  match
    OutlookCalendarClient.mapM
      (OutlookCalendarClient.toEvent (Net.parseDate (env w)))
      (match Net.value data with Some l => l | None => [] end) w3
  with
  | (Val evs, w') => (Val evs, w')
  | (Throw err, w') =>
      (Val [], withEffect (ConsoleError "Outlook Calendar error") w')
  end.
Proof.
  intros Linked Fresh Ok.
  assert (F : (Net.clock (env w) (reads w)
               >? OutlookState.expiresOn (outlookClient w) - 60000) = false)
    by (rewrite Z.gtb_ltb; apply Z.ltb_ge; exact Fresh).
  unfold OutlookLinked in Linked.
  unfold OutlookCalendarClient.getUpcomingEvents,
    OutlookCalendarClient.isConnected,
    OutlookCalendarClient.getValidAccessToken, bind, tryCatch, Date_now,
    gets, getSettings, fetch, json, ret.
  simpl. rewrite Linked. simpl. rewrite F. simpl.
  change (sent (withReads (S (S (reads w))) (withReads (S (reads w)) w)))
    with (sent w).
  rewrite Ok. simpl.
  destruct (OutlookCalendarClient.mapM _ _ _) as [[evs | err] w'];
    reflexivity.
Qed.

(** X14. One Outlook item without a start or an end voids the whole
    response. With Outlook connected, the token fresh and the calendar
    request answered with a list of items: when every item has a start and
    an end, getUpcomingEvents returns one event per item, in order, with
    showAs as status ('busy' when missing or empty); when one item lacks
    either, it returns no event at all and logs an error. *)
Theorem outlook_batch_all_or_nothing (n : Z) (w : World)
  (data : Net.OutlookData) :
  OutlookLinked w ->
  Net.clock (env w) (reads w)
  <= OutlookState.expiresOn (outlookClient w) - 60000 ->
  Net.outlookCalendar (env w) (sent w) = Net.Reply true (Some data) ->
  (forallb complete (match Net.value data with Some l => l | None => [] end)
   = true ->
   exists evs,
     fst (OutlookCalendarClient.getUpcomingEvents n w) = Val evs /\
     List.length evs
     = List.length (match Net.value data with Some l => l | None => [] end) /\
     map status evs
     = map (fun e => Js.orElse (Net.showAs e) "busy")
           (match Net.value data with Some l => l | None => [] end)) /\
  (forallb complete (match Net.value data with Some l => l | None => [] end)
   = false ->
   fst (OutlookCalendarClient.getUpcomingEvents n w) = Val [] /\
   In (ConsoleError "Outlook Calendar error")
      (trace (snd (OutlookCalendarClient.getUpcomingEvents n w)))).
Proof.
  intros Linked Fresh Ok.
  rewrite (outlook_events_fresh_run n w data Linked Fresh Ok). cbv zeta.
  match goal with
  | |- context [OutlookCalendarClient.mapM ?f ?l ?w3] =>
      destruct (outlook_mapM_run (Net.parseDate (env w)) l w3) as [Hok Hbad]
  end.
  split; intros C.
  - destruct (Hok C) as (evs & E & L & S). rewrite E. exists evs. auto.
  - destruct (Hbad C) as (err & E). rewrite E. simpl. auto.
Qed.

End OutlookBatch.

(** ** Buffers, providers, requests *)

Section Suppression.
Import Store Heap Invariants CalendarManager.

Lemma Busy_buffer (s : AppSettings) (now b b' : Z) (e : CalendarEvent) :
  b <= b' -> Busy s now b e -> Busy s now b' e.
Proof.
  intros L (F & T & [I | (G & W)]); repeat split; auto.
  right. split; [exact G|].
  destruct (start e) as [x|]; simpl in *; [lia | contradiction].
Qed.

(** X15. A larger buffer never lifts a suppression: with a fresh cache, if
    isBusyOrMeetingSoon answers true for a buffer, it answers true at the
    same instant for every larger one. *)
Theorem larger_buffer_still_busy (w : World) (b b' : Z) :
  Net.clock (env w) (reads w) - fetchedAt (cache w) <= CACHE_TTL ->
  b <= b' ->
  fst (isBusyOrMeetingSoon b w) = Val true ->
  fst (isBusyOrMeetingSoon b' w) = Val true.
Proof.
  intros Fresh L. rewrite !isBusy_fresh by exact Fresh. simpl.
  intros E. injection E as E. f_equal.
  apply scan_iff. apply scan_iff in E. destruct E as (e & I & B).
  exists e. split; [exact I | exact (Busy_buffer _ _ _ _ _ L B)].
Qed.

(** X16. Without a provider there is no suppression and no traffic. When
    each provider is disabled or has no persisted refresh token, a fetch
    cycle sends nothing and leaves the cache empty, and a stale query
    answers false without a request. *)
Theorem no_provider_no_suppression (w : World) (bufferMinutes : Z) :
  google (calendarProviders (settings w)) = false \/
  Js.hasField (googleTokens (settings w)) refresh_token = false ->
  outlook (calendarProviders (settings w)) = false \/
  Js.hasField (outlookTokens (settings w)) refreshToken = false ->
  events (cache (snd (fetchEvents w))) = [] /\
  sent (snd (fetchEvents w)) = sent w /\
  (Net.clock (env w) (reads w) - fetchedAt (cache w) > CACHE_TTL ->
   fst (isBusyOrMeetingSoon bufferMinutes w) = Val false /\
   sent (snd (isBusyOrMeetingSoon bufferMinutes w)) = sent w).
Proof.
  intros G O.
  assert (R : forall w0,
            settings w0 = settings w ->
            fetchEvents w0
            = (Val tt,
               withEffect CacheReplaced
                 (withCache {| events := [];
                               fetchedAt := Net.clock (env w0) (reads w0) |}
                    (withReads (S (reads w0)) w0)))).
  { intros w0 E.
    apply (fetchEvents_run w0 w0 w0 [] []).
    - apply (contribution_skipped _ _ _ _ w0 (google_isConnected_run w0)).
      rewrite E. exact G.
    - apply (contribution_skipped _ _ _ _ w0 (outlook_isConnected_run w0)).
      rewrite E. exact O. }
  split; [rewrite (R w eq_refl); reflexivity|].
  split; [rewrite (R w eq_refl); reflexivity|].
  intros Stale.
  rewrite (isBusy_stale w _ bufferMinutes Stale
             (R (withReads (S (reads w)) w) eq_refl)).
  split; reflexivity.
Qed.

Lemma Sends_intro {A : Type} (n : nat) (m : M A) :
  (forall w k, sent (snd (m w)) = k -> (sent w <= k <= sent w + n)%nat) ->
  Sends n m.
Proof. intros H w. apply (H w). reflexivity. Qed.

Lemma google_events_sends (n : Z) :
  Sends 2 (GoogleCalendarClient.getUpcomingEvents n).
Proof.
  apply Sends_intro. intros w k.
  unfold GoogleCalendarClient.getUpcomingEvents.
  unfold bind at 1. rewrite google_isConnected_run.
  destruct (Js.hasField _ _); simpl; [|intros; lia].
  unfold tryCatch. unfold bind at 1.
  pose proof (google_token_sent w) as T.
  destruct (GoogleCalendarClient.getValidAccessToken w) as [[tok | err] w1];
    simpl in T.
  - unfold bind at 1. simpl. unfold bind at 1. unfold fetch. simpl.
    change (sent (withReads (S (reads w1)) w1)) with (sent w1).
    destruct (Net.googleCalendar (env w1) (sent w1)) as [|[|] [d|]];
      unfold sent in *; simpl; intros K; destruct (_ && _); lia.
  - unfold sent in *. simpl. intros K. destruct (_ && _); lia.
Qed.

Lemma outlook_mapM_sent parse (l : list Net.OutlookItem) (w : World) :
  snd (OutlookCalendarClient.mapM (OutlookCalendarClient.toEvent parse) l w)
  = w.
Proof.
  destruct (outlook_mapM_run parse l w) as [Hok Hbad].
  destruct (forallb complete l).
  - destruct (Hok eq_refl) as (evs & E & _). rewrite E. reflexivity.
  - destruct (Hbad eq_refl) as (err & E). rewrite E. reflexivity.
Qed.

Lemma outlook_events_sends (n : Z) :
  Sends 2 (OutlookCalendarClient.getUpcomingEvents n).
Proof.
  apply Sends_intro. intros w k.
  unfold OutlookCalendarClient.getUpcomingEvents.
  unfold bind at 1. rewrite outlook_isConnected_run.
  destruct (Js.hasField _ _); simpl; [|intros; lia].
  unfold tryCatch. unfold bind at 1.
  pose proof (outlook_token_sent w) as T.
  destruct (OutlookCalendarClient.getValidAccessToken w) as [[tok | err] w1];
    simpl in T.
  - unfold bind at 1. simpl. unfold bind at 1. unfold fetch. simpl.
    change (sent (withReads (S (reads w1)) w1)) with (sent w1).
    destruct (Net.outlookCalendar (env w1) (sent w1)) as [|[|] [d|]];
      try (unfold sent in *; simpl; intros K; destruct (_ && _); lia).
    simpl. unfold bind at 1. simpl. unfold bind at 1. unfold gets. simpl.
    match goal with
    | |- context [OutlookCalendarClient.mapM
                    (OutlookCalendarClient.toEvent ?p) ?l ?w3] =>
        pose proof (outlook_mapM_sent p l w3) as M;
        destruct (OutlookCalendarClient.mapM
                    (OutlookCalendarClient.toEvent p) l w3) as [[evs | e] w4]
    end.
    + simpl in M. subst w4. unfold sent in *. simpl. intros K.
      destruct (_ && _); lia.
    + simpl in M. subst w4. unfold sent in *. simpl. intros K.
      destruct (_ && _); lia.
  - unfold sent in *. simpl. intros K. destruct (_ && _); lia.
Qed.

Lemma contribution_sends (enabled : bool) (isC : M bool)
  (getUp : Z -> M (list CalendarEvent)) :
  (forall w, exists c, isC w = (Val c, w)) ->
  Sends 2 (getUp 120) ->
  Sends 2 (contribution enabled isC getUp).
Proof.
  intros C G. apply Sends_intro. intros w k. unfold contribution.
  destruct enabled; simpl; [|intros; lia].
  unfold bind. destruct (C w) as [c E]. rewrite E.
  destruct c; [|simpl; intros; lia].
  intros K. rewrite <- K. apply G.
Qed.

Lemma fetchEvents_sends : Sends 4 fetchEvents.
Proof.
  intros w.
  destruct (google_contribution_runs
              (google (calendarProviders (settings w))) w)
    as (g & w1 & G & _).
  destruct (outlook_contribution_runs
              (outlook (calendarProviders (settings w))) w1)
    as (o & w2 & O & _).
  rewrite (fetchEvents_run w w1 w2 g o G O).
  pose proof (contribution_sends (google (calendarProviders (settings w)))
                GoogleCalendarClient.isConnected
                GoogleCalendarClient.getUpcomingEvents
                (fun w0 => ex_intro _ _ (google_isConnected_run w0))
                (google_events_sends 120) w) as S1.
  pose proof (contribution_sends (outlook (calendarProviders (settings w)))
                OutlookCalendarClient.isConnected
                OutlookCalendarClient.getUpcomingEvents
                (fun w0 => ex_intro _ _ (outlook_isConnected_run w0))
                (outlook_events_sends 120) w1) as S2.
  rewrite G in S1. rewrite O in S2. simpl in S1, S2.
  change (sent w <= sent w2 <= sent w + 4)%nat. lia.
Qed.

(** X17. The traffic of the aggregator is bounded. A call of
    getUpcomingEvents sends at most two requests (a refresh and the calendar
    request), a fetch cycle at most four, and so does isBusyOrMeetingSoon;
    none of them unsends anything. *)
Theorem requests_are_bounded (n bufferMinutes : Z) :
  Sends 2 (GoogleCalendarClient.getUpcomingEvents n) /\
  Sends 2 (OutlookCalendarClient.getUpcomingEvents n) /\
  Sends 4 fetchEvents /\
  Sends 4 (isBusyOrMeetingSoon bufferMinutes).
Proof.
  split; [apply google_events_sends|].
  split; [apply outlook_events_sends|].
  split; [apply fetchEvents_sends|].
  intros w.
  destruct (Z_le_gt_dec
              (Net.clock (env w) (reads w) - fetchedAt (cache w)) CACHE_TTL)
    as [Fresh | Stale].
  - rewrite (isBusy_fresh w bufferMinutes Fresh).
    change (sent w <= sent w <= sent w + 4)%nat. lia.
  - pose proof (fetchEvents_sends (withReads (S (reads w)) w)) as F.
    destruct (fetchEvents (withReads (S (reads w)) w)) as [[[] | err] w1] eqn:E.
    + rewrite (isBusy_stale w w1 bufferMinutes Stale E).
      simpl in F. change (sent (withReads (S (reads w)) w)) with (sent w) in F.
      change (sent w <= sent w1 <= sent w + 4)%nat. exact F.
    + exfalso.
      destruct (google_contribution_runs
                  (google (calendarProviders
                             (settings (withReads (S (reads w)) w))))
                  (withReads (S (reads w)) w)) as (g & wa & G & _).
      destruct (outlook_contribution_runs
                  (outlook (calendarProviders
                              (settings (withReads (S (reads w)) w)))) wa)
        as (o & wb & O & _).
      rewrite (fetchEvents_run _ wa wb g o G O) in E. discriminate E.
Qed.

End Suppression.

Section OutlookRefresh.
Import Store Heap.

(** X18. Outlook's refresh takes the refresh token the server sends and
    keeps the one it holds when the server sends none or an empty one. When
    getValidAccessToken refreshes and the server answers with tokens, the
    client and the store hold the new access token, the new expiry and that
    refresh token; the next call, if the clock is then no later than the new
    expiry - 60 s, sends nothing. *)
Theorem outlook_refresh_rotates (w : World) (tokens : Net.Tokens) :
  Net.clock (env w) (reads w)
  > OutlookState.expiresOn (outlookClient w) - 60000 ->
  OutlookState.refreshToken (outlookClient w) <> ""%string ->
  Net.outlookToken (env w) (sent w) = Net.Reply true (Some tokens) ->
  let w' := snd (OutlookCalendarClient.getValidAccessToken w) in
  fst (OutlookCalendarClient.getValidAccessToken w)
  = Val (Net.access_token tokens) /\
  OutlookState.refreshToken (outlookClient w')
  = Js.orElse (Net.refresh_token tokens)
              (OutlookState.refreshToken (outlookClient w)) /\
  OutlookState.refreshToken (outlookClient w') <> ""%string /\
  OutlookCalendarClient.new (settings w') = outlookClient w' /\
  (Net.clock (env w) (S (S (reads w)))
   <= OutlookState.expiresOn (outlookClient w') - 60000 ->
   OutlookCalendarClient.getValidAccessToken w'
   = (Val (Net.access_token tokens), withReads (S (S (S (reads w)))) w')).
Proof.
  intros Late Held Ok.
  pose proof (proj2 (late_iff _ _ _) (conj Late Held)) as C.
  cbv zeta. rewrite outlook_token_eval. cbv zeta.
  rewrite C, Ok. simpl.
  repeat split.
  - apply truthy_iff. apply truthy_orElse. apply truthy_iff. exact Held.
  - intros Fresh. rewrite outlook_token_early; [reflexivity|].
    simpl. exact Fresh.
Qed.

End OutlookRefresh.

(** ** The further properties at concrete inputs *)

Section MoreInstances.
Import Store Heap.
Local Open Scope string_scope.

Lemma resume_restarts_countdown_witness :
  (1900000 - 1000000 < stretchIntervalMinutes defaults * 60000 /\
   2800000 - 1000000 >= stretchIntervalMinutes defaults * 60000 /\
   ~ 2800000 < Timer.snoozedUntil Examples.running) /\
  Timer.tick defaults 1900000 (Timer.resume 1000000 Examples.running)
  = [Timer.Tick] /\
  Timer.tick defaults 2800000 (Timer.resume 1000000 Examples.running)
  = [Timer.Tick; Timer.StretchDue].
Proof.
  assert (H : 1900000 - 1000000 < stretchIntervalMinutes defaults * 60000 /\
              2800000 - 1000000 >= stretchIntervalMinutes defaults * 60000 /\
              ~ 2800000 < Timer.snoozedUntil Examples.running)
    by (simpl; repeat split; lia).
  split; [exact H|]. destruct H as (E & L & A).
  destruct (resume_restarts_countdown defaults 1000000 Examples.running)
    as (Silent & Due & _).
  split; [exact (proj1 (Silent 1900000 E)) | exact (proj1 (Due 2800000 L A))].
Defined.

Lemma paused_is_silent_witness :
  let es := [Tray.Interval 9000000 9000001; Tray.Snooze 9000002;
             Tray.MenuStretchNow; Tray.Settled false;
             Tray.Interval 9900000 9900001] in
  Timer.paused (Tray.timer Scenarios.paused) = true /\
  Forall (fun e => Counts.isResume e = false) es /\
  ~ In Timer.StretchDue (snd (Tray.run defaults es Scenarios.paused)) /\
  Tray.shown (fst (Tray.step defaults (Tray.Settled false) Scenarios.paused))
  = 1%nat.
Proof.
  cbv zeta.
  assert (P : Timer.paused (Tray.timer Scenarios.paused) = true)
    by reflexivity.
  assert (R : Forall (fun e => Counts.isResume e = false)
                [Tray.Interval 9000000 9000001; Tray.Snooze 9000002;
                 Tray.MenuStretchNow; Tray.Settled false;
                 Tray.Interval 9900000 9900001])
    by (repeat constructor).
  split; [exact P|]. split; [exact R|].
  destruct (paused_is_silent defaults _ Scenarios.paused P R)
    as (N & _ & _ & _ & S).
  split; [exact N|]. apply S. discriminate.
Defined.

Lemma updateTooltip_text_witness :
  Timer.paused Examples.running = false /\
  (exists min sec,
     0 <= sec < 60 /\
     Tooltip.updateTooltip defaults 1000 true Examples.running
     = Some ("StretchTime - " ++ Tooltip.toString min ++ ":"
             ++ Tooltip.padStart 2 "0" (Tooltip.toString sec)
             ++ " until next stretch")) /\
  Tooltip.updateTooltip defaults 1000 true Examples.running
  = Some "StretchTime - 29:59 until next stretch" /\
  Tooltip.updateTooltip defaults 1795001 true Examples.running
  = Some "StretchTime - 0:05 until next stretch".
Proof.
  assert (P : Timer.paused Examples.running = false) by reflexivity.
  split; [exact P|]. split; [|split; reflexivity].
  destruct (updateTooltip_text defaults 1000 Examples.running) as (_ & _ & T).
  destruct (T P) as (min & sec & _ & B & _ & _ & E).
  exists min, sec. split; [exact B | exact E].
Defined.

Lemma base64url_url_safe_witness :
  Pkce.every Pkce.isBase64 "ab+/Cd9==" = true /\
  Pkce.every Pkce.isUrlSafe (Pkce.base64url "ab+/Cd9==") = true /\
  Pkce.base64url "ab+/Cd9==" = "ab-_Cd9".
Proof.
  assert (H : Pkce.every Pkce.isBase64 "ab+/Cd9==" = true) by reflexivity.
  split; [exact H|]. split; [|reflexivity].
  destruct (base64url_url_safe "ab+/Cd9==") as (_ & _ & S & _).
  exact (S H).
Defined.

Lemma exchange_failure_stores_nothing_witness :
  let w := Examples.world 0 false defaults [] 0 in
  (forall tokens,
     Net.googleToken (env w) (sent w) <> Net.Reply true (Some tokens)) /\
  (exists err,
     fst (GoogleCalendarClient.exchangeCodeForTokens "code" "verifier" w)
     = Throw err) /\
  settings (snd (GoogleCalendarClient.exchangeCodeForTokens "code" "verifier" w))
  = settings w.
Proof.
  cbv zeta. set (w := Examples.world 0 false defaults [] 0).
  assert (H : forall tokens,
            Net.googleToken (env w) (sent w) <> Net.Reply true (Some tokens))
    by (intros tokens; discriminate).
  split; [exact H|].
  destruct (exchange_failure_stores_nothing "code" "verifier" w) as (G & _).
  destruct (G H) as (T & W).
  split; [exact T | rewrite W; reflexivity].
Defined.

Lemma exchange_success_persists_witness :
  let w := Scenarios.world 0 [] defaults in
  Net.googleToken (env w) (sent w) = Net.Reply true (Some Scenarios.granted) /\
  googleTokens
    (settings (snd (GoogleCalendarClient.exchangeCodeForTokens
                      "code" "verifier" w)))
  = Some {| access_token := "fresh"; refresh_token := "r2";
            expiry_date := 3600000 |}.
Proof.
  cbv zeta. set (w := Scenarios.world 0 [] defaults).
  assert (H : Net.googleToken (env w) (sent w)
              = Net.Reply true (Some Scenarios.granted)) by reflexivity.
  split; [exact H|].
  destruct (exchange_success_persists "code" "verifier" w Scenarios.granted)
    as (G & _).
  destruct (G H) as (_ & C & N & _).
  revert N. rewrite C. unfold GoogleCalendarClient.new.
  destruct (googleTokens _) as [t|]; [|discriminate].
  destruct t. simpl. intros N. inversion N. reflexivity.
Defined.

Lemma refresh_is_not_repeated_witness :
  let w := Scenarios.world 950000 [] Examples.connected in
  let v := Examples.world 940001 false Examples.connected [] 0 in
  (Net.clock (env w) (reads w)
   > GoogleState.expiryDate (googleClient w) - 60000 /\
   GoogleState.refreshToken (googleClient w) <> "" /\
   Net.googleToken (env w) (sent w) = Net.Reply true (Some Scenarios.granted)) /\
  fst (GoogleCalendarClient.getValidAccessToken w) = Val "fresh" /\
  sent (snd (GoogleCalendarClient.getValidAccessToken
               (snd (GoogleCalendarClient.getValidAccessToken w)))) = 1%nat /\
  sent (snd (GoogleCalendarClient.getValidAccessToken
               (snd (GoogleCalendarClient.getValidAccessToken v)))) = 2%nat.
Proof.
  cbv zeta.
  set (w := Scenarios.world 950000 [] Examples.connected).
  set (v := Examples.world 940001 false Examples.connected [] 0).
  assert (L : Net.clock (env w) (reads w)
              > GoogleState.expiryDate (googleClient w) - 60000)
    by (vm_compute; reflexivity).
  assert (R : GoogleState.refreshToken (googleClient w) <> "")
    by (simpl; discriminate).
  assert (O : Net.googleToken (env w) (sent w)
              = Net.Reply true (Some Scenarios.granted)) by reflexivity.
  split; [auto|].
  destruct (refresh_is_not_repeated w Scenarios.granted L R) as (Good & _).
  destruct (Good O) as (V & _ & _ & _ & Next).
  split; [exact V|]. split.
  - rewrite Next; [reflexivity | vm_compute; discriminate].
  - assert (L' : Net.clock (env v) (reads v)
                 > GoogleState.expiryDate (googleClient v) - 60000)
      by (vm_compute; reflexivity).
    assert (R' : GoogleState.refreshToken (googleClient v) <> "")
      by (simpl; discriminate).
    destruct (refresh_is_not_repeated v Scenarios.granted L' R') as (_ & Bad).
    exact (proj2 (Bad (Some Examples.tokens) eq_refl
                    ltac:(vm_compute; reflexivity))).
Defined.

Lemma late_exchange_stores_tokens_witness :
  let w := Scenarios.world 0 [] defaults in
  let f := Authenticate.run [Authenticate.Listening;
                             Authenticate.RequestWithCode;
                             Authenticate.TimerFired]
             (Authenticate.executor Authenticate.Google) in
  Authenticate.settled f = true /\
  Authenticate.promise
    (snd (Handlers.exchanged Authenticate.Google "code" "verifier" (w, f)))
  = Some (Authenticate.Rejected "Authentication timed out") /\
  fst (GoogleCalendarClient.isConnected
         (fst (Handlers.exchanged Authenticate.Google "code" "verifier" (w, f))))
  = Val true.
Proof.
  cbv zeta.
  set (w := Scenarios.world 0 [] defaults).
  set (f := Authenticate.run [Authenticate.Listening;
                              Authenticate.RequestWithCode;
                              Authenticate.TimerFired]
              (Authenticate.executor Authenticate.Google)).
  assert (S : Authenticate.settled f = true) by reflexivity.
  split; [exact S|].
  destruct (late_exchange_stores_tokens "code" "verifier" "Authentication timed out"
              w f Scenarios.granted S eq_refl eq_refl) as (O & C & _).
  split; [|exact C].
  exact (f_equal (fun t => snd (fst (fst t))) O).
Defined.

Lemma connect_enables_provider_witness :
  let w := Scenarios.world 0 [] defaults in
  let f := Authenticate.executor Authenticate.Google in
  let wf := Handlers.exchanged Authenticate.Google "code" "verifier" (w, f) in
  (Authenticate.settled f = false /\ Authenticate.promise f = None) /\
  Authenticate.promise (snd wf) = Some Authenticate.Resolved /\
  calendarProviders
    (settings (snd (Handlers.connect_google Authenticate.Resolved (fst wf))))
  = {| google := true; outlook := false |}.
Proof.
  cbv zeta.
  split; [split; reflexivity|].
  destruct (connect_enables_provider "code" "verifier"
              (Scenarios.world 0 [] defaults)
              (Authenticate.executor Authenticate.Google)
              Scenarios.granted eq_refl eq_refl eq_refl)
    as (P & _ & G & O & _).
  split; [exact P|].
  destruct (calendarProviders _) as [g o]. simpl in G, O.
  rewrite G, O. reflexivity.
Defined.

Lemma tokens_stay_in_step_witness :
  let w := Scenarios.world 950000 [Examples.item] Examples.connected in
  Invariants.Synced w /\
  Invariants.Synced (snd (CalendarManager.fetchEvents w)) /\
  Invariants.GoogleLinked (snd (CalendarManager.fetchEvents w)).
Proof.
  cbv zeta.
  set (w := Scenarios.world 950000 [Examples.item] Examples.connected).
  assert (S : Invariants.Synced w) by (split; reflexivity).
  split; [exact S|].
  destruct (tokens_stay_in_step 15 w S) as ((S1 & G1 & _) & _).
  split; [exact S1 | apply G1; reflexivity].
Defined.

Lemma outlook_batch_all_or_nothing_witness :
  let w := Scenarios.world 900000 [Examples.item; Scenarios.broken]
             Examples.connected in
  (Invariants.OutlookLinked w /\
   Net.clock (env w) (reads w)
   <= OutlookState.expiresOn (outlookClient w) - 60000 /\
   forallb Invariants.complete [Examples.item; Scenarios.broken] = false) /\
  fst (OutlookCalendarClient.getUpcomingEvents 120 w) = Val [].
Proof.
  cbv zeta.
  set (w := Scenarios.world 900000 [Examples.item; Scenarios.broken]
              Examples.connected).
  assert (L : Invariants.OutlookLinked w) by reflexivity.
  assert (F : Net.clock (env w) (reads w)
              <= OutlookState.expiresOn (outlookClient w) - 60000)
    by (vm_compute; discriminate).
  split; [repeat split; assumption|].
  destruct (outlook_batch_all_or_nothing 120 w
              {| Net.value := Some [Examples.item; Scenarios.broken] |}
              L F eq_refl) as (_ & Bad).
  exact (proj1 (Bad eq_refl)).
Defined.

Lemma larger_buffer_still_busy_witness :
  (Net.clock (env Examples.fresh) (reads Examples.fresh)
   - fetchedAt (cache Examples.fresh) <= CalendarManager.CACHE_TTL /\
   5 <= 20 /\
   fst (CalendarManager.isBusyOrMeetingSoon 5 Examples.fresh) = Val true) /\
  fst (CalendarManager.isBusyOrMeetingSoon 20 Examples.fresh) = Val true.
Proof.
  assert (F : Net.clock (env Examples.fresh) (reads Examples.fresh)
              - fetchedAt (cache Examples.fresh) <= CalendarManager.CACHE_TTL)
    by (vm_compute; discriminate).
  assert (L : 5 <= 20) by lia.
  assert (B : fst (CalendarManager.isBusyOrMeetingSoon 5 Examples.fresh)
              = Val true) by reflexivity.
  split; [auto|].
  exact (larger_buffer_still_busy Examples.fresh 5 20 F L B).
Defined.

Lemma no_provider_no_suppression_witness :
  let w := Examples.world 1000000 true defaults
             [Examples.meeting 1300000 3100000 "confirmed"] 0 in
  (google (calendarProviders (settings w)) = false /\
   outlook (calendarProviders (settings w)) = false /\
   Net.clock (env w) (reads w) - fetchedAt (cache w)
   > CalendarManager.CACHE_TTL) /\
  fst (CalendarManager.isBusyOrMeetingSoon 15 w) = Val false.
Proof.
  cbv zeta.
  set (w := Examples.world 1000000 true defaults
              [Examples.meeting 1300000 3100000 "confirmed"] 0).
  assert (S : Net.clock (env w) (reads w) - fetchedAt (cache w)
              > CalendarManager.CACHE_TTL) by (vm_compute; reflexivity).
  split; [repeat split; assumption|].
  destruct (no_provider_no_suppression w 15 (or_introl eq_refl)
              (or_introl eq_refl)) as (_ & _ & Q).
  exact (proj1 (Q S)).
Defined.

Lemma outlook_refresh_rotates_witness :
  let w := Scenarios.world 950000 [] Examples.connected in
  (Net.clock (env w) (reads w)
   > OutlookState.expiresOn (outlookClient w) - 60000 /\
   OutlookState.refreshToken (outlookClient w) <> "" /\
   Net.outlookToken (env w) (sent w)
   = Net.Reply true (Some Scenarios.granted)) /\
  OutlookState.refreshToken
    (outlookClient (snd (OutlookCalendarClient.getValidAccessToken w)))
  = Js.orElse (Some "r2") "r".
Proof.
  cbv zeta. set (w := Scenarios.world 950000 [] Examples.connected).
  assert (L : Net.clock (env w) (reads w)
              > OutlookState.expiresOn (outlookClient w) - 60000)
    by (vm_compute; reflexivity).
  assert (R : OutlookState.refreshToken (outlookClient w) <> "")
    by (simpl; discriminate).
  assert (O : Net.outlookToken (env w) (sent w)
              = Net.Reply true (Some Scenarios.granted)) by reflexivity.
  split; [auto|].
  destruct (outlook_refresh_rotates w Scenarios.granted L R O) as (_ & T & _).
  exact T.
Defined.

End MoreInstances.

(** ** The Pause / Resume item *)

Section MenuItem.
Import Store Timer Menu.
Local Open Scope string_scope.

Variable s : AppSettings.

Lemma menu_step (e : Event) (m : State) :
  isPaused m = paused (timer m) ->
  isPaused (step s e m) = paused (timer (step s e m)).
Proof.
  intros I. destruct e as [now | now now']; simpl.
  - reflexivity.
  - destruct (existsb isStretchDue (tick s now (timer m))); simpl; exact I.
Qed.

Lemma menu_run (es : list Event) :
  forall m,
    isPaused m = paused (timer m) ->
    isPaused (run s es m) = paused (timer (run s es m)).
Proof.
  induction es as [|e rest IH]; intros m I; [exact I|].
  simpl. apply IH. apply menu_step. exact I.
Qed.

(** X19. The first menu item always names what its click does. From init
    on, through any clicks and checks, the item reads 'Resume' exactly when
    the timer is paused and 'Pause' otherwise; a click then flips the
    paused state, and a click on 'Resume' restarts the countdown at the
    instant of the click. *)
Theorem menu_names_its_action (now now' at_ : Z) (es : list Event) :
  (label (run s es (init now now')) = "Resume" <->
   paused (timer (run s es (init now now'))) = true) /\
  (label (run s es (init now now')) = "Pause" <->
   paused (timer (run s es (init now now'))) = false) /\
  paused (timer (click at_ (run s es (init now now'))))
  = negb (paused (timer (run s es (init now now')))) /\
  (paused (timer (run s es (init now now'))) = true ->
   lastStretchTime (timer (click at_ (run s es (init now now')))) = at_).
Proof.
  pose proof (menu_run es (init now now') eq_refl) as I.
  unfold label, click. simpl. rewrite I.
  destruct (paused (timer (run s es (init now now')))); simpl.
  - repeat split; auto; discriminate.
  - repeat split; auto; discriminate.
Qed.

End MenuItem.

Section MenuInstance.
Import Store.

Lemma menu_names_its_action_witness :
  let es := [Menu.Check 30000 30001; Menu.Click 40000] in
  Timer.paused (Menu.timer (Menu.run defaults es (Menu.init 0 1))) = true /\
  Menu.label (Menu.run defaults es (Menu.init 0 1)) = "Resume"%string /\
  Timer.lastStretchTime
    (Menu.timer (Menu.click 90000 (Menu.run defaults es (Menu.init 0 1))))
  = 90000.
Proof.
  cbv zeta.
  assert (P : Timer.paused
                (Menu.timer
                   (Menu.run defaults
                      [Menu.Check 30000 30001; Menu.Click 40000]
                      (Menu.init 0 1))) = true) by reflexivity.
  split; [exact P|].
  destruct (menu_names_its_action defaults 0 1 90000
              [Menu.Check 30000 30001; Menu.Click 40000])
    as (R & _ & _ & L).
  split; [apply R; exact P | exact (L P)].
Defined.

End MenuInstance.
